(** * Knowledge distillation of a Mamba sentence classifier

    A shallow embedding of [DistillationTests/DistilledMambaSentenceClassification.py]
    and the properties of its classifier wrapper, its distillation loss and its
    two training loops.

    Conventions of the embedding:
    - a float (tensor entry, loss, learning rate, accuracy) is a real number:
      rounding, infinities and nan are not modelled;
    - a tensor is a list (of lists) of reals, the outermost list being the
      first dimension; operations that PyTorch refuses on mismatched sizes
      raise [RuntimeError] (broadcasting of singleton dimensions is used by
      the source only for the attention mask and is written out there);
    - a Python exception is the [Raise] case of [result];
    - what lives in PyTorch or in the transformers library is a parameter
      of the code that calls it: the networks are fields of the model
      records, and autograd, AdamW, gradient clipping and the multiplier of
      the cosine schedule are the fields of the class [Torch.Backend];
    - an instance of [OptimizedDistillationTrainer] is its attribute
      dictionary, so that reading an attribute that [__init__] never
      assigned raises [AttributeError] as it does in Python. *)

From Stdlib Require Import Reals Lra Lia List ZArith String.
From stdpp Require Import gmap strings.
Import ListNotations.

(** ** Exceptions and fallible computations *)

Inductive exn : Type :=
| AttributeError (attr : string)
| KeyError (key : nat)
| IndexError
| ValueError
| RuntimeError
| TypeError
| ZeroDivisionError.

Inductive result (A : Type) : Type :=
| Ok (a : A)
| Raise (e : exn).
Arguments Ok {A} a.
Arguments Raise {A} e.

#[global] Instance result_ret : MRet result := fun _ a => Ok a.
#[global] Instance result_bind : MBind result := fun _ _ f m =>
  match m with
  | Ok a => f a
  | Raise e => Raise e
  end.
#[global] Instance result_fmap : FMap result := fun _ _ f m =>
  match m with
  | Ok a => Ok (f a)
  | Raise e => Raise e
  end.

(** ** Python list slicing *)

Module Py.

(** [l[:k]]: a negative [k] counts from the end, and the bound is clamped. *)
Definition slice_to {A} (l : list A) (k : Z) : list A :=
  if (k <? 0)%Z
  then firstn (Z.to_nat (Z.of_nat (length l) + k)) l
  else firstn (Z.to_nat k) l.

(** [l[k:]], with the same treatment of a negative [k]. *)
Definition slice_from {A} (l : list A) (k : Z) : list A :=
  if (k <? 0)%Z
  then skipn (Z.to_nat (Z.of_nat (length l) + k)) l
  else skipn (Z.to_nat k) l.

End Py.

(** ** Tensor operations (torch, torch.nn.functional) *)

Module Tensor.

Local Open Scope R_scope.

(** [v.sum()] *)
Definition tsum (v : list R) : R := fold_right Rplus 0 v.

(** [v.mean()] *)
Definition mean (v : list R) : R := tsum v / INR (length v).

(** [t / c] on a matrix *)
Definition div_scalar (t : list (list R)) (c : R) : list (list R) :=
  map (map (fun x => x / c)) t.

(** [F.softmax(v, dim=-1)] on one row *)
Definition softmax (v : list R) : list R :=
  map (fun x => exp x / tsum (map exp v)) v.

(** [F.log_softmax(v, dim=-1)] on one row *)
Definition log_softmax (v : list R) : list R :=
  map (fun x => x - ln (tsum (map exp v))) v.

(** Elementwise combination of two tensors of the same size. *)
Fixpoint zip_with {A B C} (f : A -> B -> result C) (xs : list A) (ys : list B)
  : result (list C) :=
  match xs, ys with
  | [], [] => Ok []
  | x :: xs', y :: ys' =>
      c ← f x y; cs ← zip_with f xs' ys'; Ok (c :: cs)
  | _, _ => Raise RuntimeError
  end.

(** [a * b] on rows and on matrices *)
Definition mul (a b : list R) : result (list R) :=
  zip_with (fun x y => Ok (x * y)) a b.
Definition mul2 (a b : list (list R)) : result (list (list R)) :=
  zip_with mul a b.

(** [t.sum(dim=-1)] on a matrix *)
Definition sum_last (t : list (list R)) : list R := map tsum t.

(** Negative log-likelihood of one sample: the label indexes the row of
    log-probabilities and must be one of its classes. *)
Definition nll (log_probs : list R) (label : nat) : result R :=
  match nth_error log_probs label with
  | Some lp => Ok (- lp)
  | None => Raise IndexError
  end.

(** [F.cross_entropy(logits, labels)] with class-index targets and the
    default mean reduction; the batch sizes must agree. *)
Definition cross_entropy (logits : list (list R)) (labels : list nat) : result R :=
  if Nat.eqb (length logits) (length labels)
  then losses ← zip_with (fun row y => nll (log_softmax row) y) logits labels;
       Ok (mean losses)
  else Raise ValueError.

(** [v.argmax(dim=-1)] on one row: the first index of a maximal entry. *)
Fixpoint argmax_from (best : R) (best_i i : nat) (v : list R) : nat :=
  match v with
  | [] => best_i
  | x :: v' =>
      if Rlt_dec best x then argmax_from x i (S i) v'
      else argmax_from best best_i (S i) v'
  end.
Definition argmax (v : list R) : nat :=
  match v with
  | [] => 0%nat
  | x :: v' => argmax_from x 0%nat 1%nat v'
  end.

(** [t.sum(dim=1)] on one example of width [width]: the column sums. *)
Definition sum_dim1 (width : nat) (rows : list (list R)) : list R :=
  map (fun c => tsum (map (fun row => nth c row 0) rows)) (seq 0 width).

(** [t.max(dim=1)[0]] on one example; the sequence must not be empty. *)
Definition max_list (v : list R) : result R :=
  match v with
  | [] => Raise RuntimeError
  | x :: v' => Ok (fold_left Rmax v' x)
  end.
Definition max_dim1 (width : nat) (rows : list (list R)) : result (list R) :=
  mapM (fun c => max_list (map (fun row => nth c row 0) rows)) (seq 0 width).

(** [x.clamp(min=lo)] *)
Definition clamp_min (x lo : R) : R := Rmax x lo.

End Tensor.

(** ** The classifier wrapper: class [MambaForSequenceClassification] *)

Module MambaForSequenceClassification.

Local Open Scope R_scope.

(** A parameter tensor, as far as the training code looks at it: its
    identity and its [requires_grad] flag. *)
Record param : Type := {
  pid : nat;
  requires_grad : bool
}.

(** The pretrained causal language model: its ordered parameter list
    ([base_model.parameters()]), its configuration and its forward pass,
    which maps token ids and an optional attention mask to one vector of
    vocabulary logits per position ([batch, seq, vocab]). *)
Record CausalLM : Type := {
  parameters : list param;
  d_model : nat;
  vocab_size : nat;
  n_layer : nat;
  lm_logits : list (list Z) -> option (list (list Z)) -> list (list (list R))
}.

(** An [nn.Linear] or [nn.Sequential]: parameters and forward pass. *)
Record Layer : Type := {
  layer_parameters : list param;
  apply : list (list R) -> list (list R)
}.

Record t : Type := {
  mamba : CausalLM;
  num_labels : nat;
  pooling_type : string;
  hidden_size : nat;
  projection : Layer;
  classifier : Layer
}.

Record Output : Type := {
  loss : option R;
  logits : list (list R)
}.

(** [self.parameters()]: the base model, then the projection, then the
    classification head, in the order the sub-modules are assigned. *)
Definition all_parameters (self : t) : list param :=
  parameters (mamba self) ++ layer_parameters (projection self)
  ++ layer_parameters (classifier self).

(** [param.requires_grad = False] *)
Definition freeze (p : param) : param :=
  {| pid := pid p; requires_grad := false |}.

(** The freezing loop of [__init__]: the parameters of the slice
    [[:(total_layers - 2)]] are the first objects of the list itself, so
    setting their flag changes the list in place. *)
Definition freeze_all_but_last_two (ps : list param) : list param :=
  let total_layers := length ps in
  let frozen := Py.slice_to ps (Z.of_nat total_layers - 2) in
  map freeze frozen ++ skipn (length frozen) ps.

(** [__init__]; [new_projection] and [new_classifier] are the layers that
    [nn.Linear] and [nn.Sequential] allocate. *)
Definition __init__ (base_model : CausalLM) (num_labels : nat)
    (pooling_type : string) (new_projection new_classifier : Layer) : t :=
  {| mamba := {| parameters := freeze_all_but_last_two (parameters base_model);
                 d_model := d_model base_model;
                 vocab_size := vocab_size base_model;
                 n_layer := n_layer base_model;
                 lm_logits := lm_logits base_model |};
     num_labels := num_labels;
     pooling_type := pooling_type;
     hidden_size := d_model base_model;
     projection := new_projection;
     classifier := new_classifier |}.

(** [attention_mask.unsqueeze(-1).float()], for one example: one weight
    per position, broadcast over the vocabulary dimension. *)
Definition mask_expanded (mask_row : list Z) : list R := map IZR mask_row.

(** [hidden_states * mask_expanded], one example *)
Definition mul_mask (hidden : list (list R)) (m : list R) : result (list (list R)) :=
  Tensor.zip_with (fun row w => Ok (map (fun x => x * w) row)) hidden m.

(** [(hidden_states * mask_expanded).sum(dim=1) /
     mask_expanded.sum(dim=1).clamp(min=1e-9)], one example *)
Definition mean_pool_masked (width : nat) (hidden : list (list R))
    (mask_row : list Z) : result (list R) :=
  let m := mask_expanded mask_row in
  masked ← mul_mask hidden m;
  Ok (map (fun s => s / Tensor.clamp_min (Tensor.tsum m) 1e-9)
          (Tensor.sum_dim1 width masked)).

(** [hidden_states.mean(dim=1)], one example *)
Definition mean_pool (width : nat) (hidden : list (list R)) : list R :=
  map (fun s => s / INR (length hidden)) (Tensor.sum_dim1 width hidden).

(** [hidden_states * mask_expanded - 1e9 * (1 - mask_expanded)], one example *)
Definition mask_out (hidden : list (list R)) (m : list R) : result (list (list R)) :=
  Tensor.zip_with (fun row w => Ok (map (fun x => x * w - 1e9 * (1 - w)) row)) hidden m.

(** The pooling branch of [forward], over the batch. The last dimension of
    the hidden states is the vocabulary ([self.projection] takes
    [vocab_size] inputs). *)
Definition pool (self : t) (hidden_states : list (list (list R)))
    (attention_mask : option (list (list Z))) : result (list (list R)) :=
  let width := vocab_size (mamba self) in
  if String.eqb (pooling_type self) "mean" then
    match attention_mask with
    | Some mask => Tensor.zip_with (mean_pool_masked width) hidden_states mask
    | None => Ok (map (mean_pool width) hidden_states)
    end
  else
    hidden_states' ←
      match attention_mask with
      | Some mask =>
          Tensor.zip_with (fun h row => mask_out h (mask_expanded row))
                          hidden_states mask
      | None => Ok hidden_states
      end;
    mapM (Tensor.max_dim1 width) hidden_states'.

Definition forward (self : t) (input_ids : list (list Z))
    (attention_mask : option (list (list Z))) (labels : option (list nat))
  : result Output :=
  let hidden_states := lm_logits (mamba self) input_ids attention_mask in
  pooled_output ← pool self hidden_states attention_mask;
  let projected := apply (projection self) pooled_output in
  let logits := apply (classifier self) projected in
  loss ← match labels with
         | None => Ok None
         | Some labels => Some <$> Tensor.cross_entropy logits labels
         end;
  Ok {| loss := loss; logits := logits |}.

End MambaForSequenceClassification.

(** ** What the training loops use of PyTorch and transformers *)

Module Torch.

Local Open Scope R_scope.

(** One entry of [optimizer.param_groups]. *)
Record ParamGroup : Type := {
  params : list MambaForSequenceClassification.param;
  lr : R;
  weight_decay : R
}.

(** The library code behind the loops: the values of a module's parameter
    tensors ([weights]), the moment buffers of AdamW and its update, the
    gradient of a scalar loss with respect to the weights (autograd),
    gradient-norm clipping and the multiplier of the cosine schedule with
    warm-up (as a function of warm-up steps, total steps and step). *)
Class Backend : Type := {
  weights : Type;
  optim_state : Type;
  optim_init : optim_state;
  adamw_step : list ParamGroup -> optim_state -> weights -> list R
               -> optim_state * weights;
  gradient : (weights -> result R) -> weights -> list R;
  clip_grad_norm_ : list R -> R -> list R;
  cosine_lambda : nat -> nat -> nat -> R
}.

(** A scalar tensor that autograd tracks: its value ([loss.item()]) and its
    gradient with respect to the weights it was computed from. *)
Record Scalar : Type := {
  item : R;
  dweights : list R
}.

(** [s / c] for a Python number [c]: the quotient and, by the chain rule,
    the gradient divided by [c]. *)
Definition scalar_div (s : Scalar) (c : R) : Scalar :=
  {| item := item s / c; dweights := map (fun g => g / c) (dweights s) |}.

(** Elementwise sum of two gradient vectors. *)
Fixpoint vadd (a b : list R) : list R :=
  match a, b with
  | x :: a', y :: b' => (x + y) :: vadd a' b'
  | _, _ => []
  end.


Section WithBackend.
Context `{Backend}.

(** An [nn.Module] holding a classifier: the network as a function of the
    mode ([training]) and of the weights, the current weights, and the
    accumulated gradient ([None] before the first backward pass and after
    [zero_grad()]). *)
Record Module : Type := {
  network : bool -> weights -> MambaForSequenceClassification.t;
  training : bool;
  data : weights;
  grad : option (list R)
}.

(** [model.train()] and [model.eval()] *)
Definition set_training (mode : bool) (m : Module) : Module :=
  {| network := network m; training := mode; data := data m; grad := grad m |}.

(** The classifier that a call [model(...)] runs. *)
Definition current (m : Module) : MambaForSequenceClassification.t :=
  network m (training m) (data m).

(** [loss.backward()]: the gradient of the loss is added to the gradient
    accumulated so far. *)
Definition backward (loss : Scalar) (m : Module) : Module :=
  {| network := network m; training := training m; data := data m;
     grad := Some (match grad m with
                   | None => dweights loss
                   | Some g => vadd g (dweights loss)
                   end) |}.

(** [torch.nn.utils.clip_grad_norm_(model.parameters(), max_norm)] *)
Definition clip (max_norm : R) (m : Module) : Module :=
  {| network := network m; training := training m; data := data m;
     grad := (fun g => clip_grad_norm_ g max_norm) <$> grad m |}.

Record Optimizer : Type := {
  param_groups : list ParamGroup;
  state : optim_state
}.

(** [torch.optim.AdamW(groups)] *)
Definition AdamW (groups : list ParamGroup) : Optimizer :=
  {| param_groups := groups; state := optim_init |}.

(** [optimizer.step()]: parameters without a gradient are left alone. *)
Definition optimizer_step (o : Optimizer) (m : Module) : Optimizer * Module :=
  match grad m with
  | None => (o, m)
  | Some g =>
      let '(s, w) := adamw_step (param_groups o) (state o) (data m) g in
      ({| param_groups := param_groups o; state := s |},
       {| network := network m; training := training m; data := w;
          grad := grad m |})
  end.

(** [optimizer.zero_grad()] *)
Definition zero_grad (m : Module) : Module :=
  {| network := network m; training := training m; data := data m;
     grad := None |}.

(** The scheduler of [get_scheduler("cosine", ...)]: a [LambdaLR]. *)
Record Scheduler : Type := {
  base_lrs : list R;
  last_epoch : nat;
  num_warmup_steps : nat;
  num_training_steps : nat
}.

Definition set_lr (g : ParamGroup) (x : R) : ParamGroup :=
  {| params := params g; lr := x; weight_decay := weight_decay g |}.

(** The learning rates a scheduler writes into the optimizer: each base
    rate times the multiplier of the current step. *)
Fixpoint set_lrs (gs : list ParamGroup) (base : list R) (factor : R)
  : list ParamGroup :=
  match gs, base with
  | g :: gs', b :: base' => set_lr g (b * factor) :: set_lrs gs' base' factor
  | _, _ => gs
  end.

Definition apply_schedule (s : Scheduler) (o : Optimizer) : Optimizer :=
  {| param_groups :=
       set_lrs (param_groups o) (base_lrs s)
               (cosine_lambda (num_warmup_steps s) (num_training_steps s)
                              (last_epoch s));
     state := state o |}.

(** [get_scheduler("cosine", optimizer, num_warmup_steps, num_training_steps)]:
    the learning rates the optimizer was built with become the base rates. *)
Definition get_scheduler (o : Optimizer) (warmup total : nat)
  : Scheduler * Optimizer :=
  let s := {| base_lrs := map lr (param_groups o); last_epoch := 0;
              num_warmup_steps := warmup; num_training_steps := total |} in
  (s, apply_schedule s o).

(** [scheduler.step()] *)
Definition scheduler_step (s : Scheduler) (o : Optimizer) : Scheduler * Optimizer :=
  let s' := {| base_lrs := base_lrs s; last_epoch := S (last_epoch s);
               num_warmup_steps := num_warmup_steps s;
               num_training_steps := num_training_steps s |} in
  (s', apply_schedule s' o).

End WithBackend.

End Torch.

(** ** Data *)

(** A batch of the data loader: token ids and attention mask of shape
    [batch, max_length], one label per example. *)
Record Batch : Type := {
  input_ids : list (list Z);
  attention_mask : list (list Z);
  labels : list nat
}.

Definition SAVE_DIR : string := "./distilled_mamba_classifier".
Definition NUM_LABELS : nat := 6.
Definition EMOTION_LABELS : gmap nat string :=
  list_to_map [(0%nat, "sadness"); (1%nat, "joy"); (2%nat, "love");
               (3%nat, "anger"); (4%nat, "fear"); (5%nat, "surprise")].

(** A call of the model on a batch, passed as keyword arguments: token ids,
    attention mask and labels. *)
Definition call (m : MambaForSequenceClassification.t) (batch : Batch)
  : result MambaForSequenceClassification.Output :=
  MambaForSequenceClassification.forward m (input_ids batch)
    (Some (attention_mask batch)) (Some (labels batch)).

(** [(predictions == labels).sum().item()] *)
Definition count_equal (predictions labels : list nat) : result nat :=
  hits ← Tensor.zip_with (fun p y => Ok (Nat.eqb p y)) predictions labels;
  Ok (length (List.filter (fun b : bool => b) hits)).

(** Python's [a / b] on two integers. *)
Definition true_div (a b : nat) : result R :=
  if Nat.eqb b 0 then Raise ZeroDivisionError else Ok (INR a / INR b)%R.

(** ** The teacher fine-tuning loop: class [TeacherTrainer] *)

Module TeacherTrainer.

Import MambaForSequenceClassification Torch.
Local Open Scope R_scope.

Section WithBackend.
Context `{Backend}.

Record t : Type := {
  model : Module;
  train_dataloader : list Batch;
  eval_dataloader : list Batch;
  num_epochs : nat;
  device : string;
  optimizer : Optimizer;
  scheduler : Scheduler
}.

(** The two parameter groups handed to AdamW. *)
Definition parameter_groups (model : Module) (learning_rate weight_decay : R)
  : list ParamGroup :=
  let classifier_params :=
    layer_parameters (classifier (current model))
    ++ layer_parameters (projection (current model)) in
  let pretrained_params :=
    Py.slice_from (parameters (mamba (current model))) (-2) in
  [ {| params := classifier_params; lr := learning_rate;
       weight_decay := weight_decay |};
    {| params := pretrained_params; lr := learning_rate * 0.1;
       weight_decay := weight_decay |} ].

Definition __init__ (model : Module) (train_dataloader eval_dataloader : list Batch)
    (num_epochs : nat) (device : string) (learning_rate weight_decay : R) : t :=
  let optimizer := AdamW (parameter_groups model learning_rate weight_decay) in
  let num_training_steps := (length train_dataloader * num_epochs)%nat in
  let num_warmup_steps := (num_training_steps / 10)%nat in
  let '(scheduler, optimizer) :=
    get_scheduler optimizer num_warmup_steps num_training_steps in
  {| model := model;
     train_dataloader := train_dataloader;
     eval_dataloader := eval_dataloader;
     num_epochs := num_epochs;
     device := device;
     optimizer := optimizer;
     scheduler := scheduler |}.

Definition with_model (self : t) (m : Module) : t :=
  {| model := m;
     train_dataloader := train_dataloader self;
     eval_dataloader := eval_dataloader self;
     num_epochs := num_epochs self;
     device := device self;
     optimizer := optimizer self;
     scheduler := scheduler self |}.

(** [outputs.loss] of the model on a batch, as a function of the weights. *)
Definition loss_at (m : Module) (batch : Batch) (w : weights) : result R :=
  outputs ← call (network m (training m) w) batch;
  match loss outputs with
  | Some l => Ok l
  | None => Raise TypeError
  end.

(** One pass of the body of the batch loop. *)
Definition train_step (self : t) (total_loss : R) (batch : Batch)
  : result (t * R) :=
  l ← loss_at (model self) batch (data (model self));
  let loss := {| item := l;
                 dweights := gradient (loss_at (model self) batch)
                                      (data (model self)) |} in
  let m := backward loss (model self) in
  let m := clip 1.0 m in
  let '(o, m) := optimizer_step (optimizer self) m in
  let '(s, o) := scheduler_step (scheduler self) o in
  let m := zero_grad m in
  Ok ({| model := m;
         train_dataloader := train_dataloader self;
         eval_dataloader := eval_dataloader self;
         num_epochs := num_epochs self;
         device := device self;
         optimizer := o;
         scheduler := s |},
      total_loss + item loss).

Fixpoint train_batches (self : t) (total_loss : R) (batches : list Batch)
  : result (t * R) :=
  match batches with
  | [] => Ok (self, total_loss)
  | batch :: rest =>
      '(self', total_loss') ← train_step self total_loss batch;
      train_batches self' total_loss' rest
  end.

(** The evaluation loop, over the batches still to come. *)
Fixpoint evaluate_batches (m : Module) (total_correct total_samples : nat)
    (batches : list Batch) : result (nat * nat) :=
  match batches with
  | [] => Ok (total_correct, total_samples)
  | batch :: rest =>
      outputs ← call (current m) batch;
      let predictions := map Tensor.argmax (logits outputs) in
      hits ← count_equal predictions (labels batch);
      evaluate_batches m (total_correct + hits)
                       (total_samples + length (labels batch)) rest
  end.

Definition evaluate (self : t) : result (t * R) :=
  let self := with_model self (set_training false (model self)) in
  '(total_correct, total_samples) ←
    evaluate_batches (model self) 0 0 (eval_dataloader self);
  acc ← true_div total_correct total_samples;
  Ok (self, acc).

Definition save_model (self : t) (storage : gmap string weights)
  : gmap string weights :=
  <[ (SAVE_DIR ++ "/best_teacher.pth")%string := data (model self) ]> storage.

(** The variables of [train] that outlive an epoch; [epochs_run] is the
    number of passes of the epoch loop made so far. *)
Record Progress : Type := {
  best_eval_acc : R;
  early_stopping_counter : nat;
  epochs_run : nat
}.

Definition early_stopping_patience : nat := 3.

(** The early stopping check at the end of an epoch. *)
Definition early_stopping_check (eval_acc : R) (self : t)
    (storage : gmap string weights) (p : Progress)
  : gmap string weights * Progress :=
  if Rlt_dec (best_eval_acc p) eval_acc
  then (save_model self storage,
        {| best_eval_acc := eval_acc;
           early_stopping_counter := 0;
           epochs_run := S (epochs_run p) |})
  else (storage,
        {| best_eval_acc := best_eval_acc p;
           early_stopping_counter := S (early_stopping_counter p);
           epochs_run := S (epochs_run p) |}).

(** The epoch loop with [n] epochs still to run. *)
Fixpoint train_loop (n : nat) (self : t) (storage : gmap string weights)
    (p : Progress) : result (t * gmap string weights * Progress) :=
  match n with
  | O => Ok (self, storage, p)
  | S n' =>
      let self := with_model self (set_training true (model self)) in
      '(self, _) ← train_batches self 0 (train_dataloader self);
      '(self, eval_acc) ← evaluate self;
      let '(storage, p) := early_stopping_check eval_acc self storage p in
      if (early_stopping_patience <=? early_stopping_counter p)%nat
      then Ok (self, storage, p)
      else train_loop n' self storage p
  end.

Definition train (self : t) (storage : gmap string weights)
  : result (t * gmap string weights * R) :=
  '(self, storage, p) ←
    train_loop (num_epochs self) self storage
               {| best_eval_acc := 0; early_stopping_counter := 0;
                  epochs_run := 0 |};
  Ok (self, storage, best_eval_acc p).

End WithBackend.

End TeacherTrainer.

(** ** The distillation loop: class [OptimizedDistillationTrainer] *)

Module OptimizedDistillationTrainer.

Import MambaForSequenceClassification Torch.
Local Open Scope R_scope.

Definition default_temperature : R := 2.0.
Definition default_alpha : R := 0.5.

Definition compute_loss (student_logits teacher_logits : list (list R))
    (labels : list nat) (temperature alpha : R) : result R :=
  let student_scaled := Tensor.div_scalar student_logits temperature in
  let teacher_scaled := Tensor.div_scalar teacher_logits temperature in
  let soft_targets := map Tensor.softmax teacher_scaled in
  let student_log_probs := map Tensor.log_softmax student_scaled in
  products ← Tensor.mul2 soft_targets student_log_probs;
  let soft_loss := - Tensor.mean (Tensor.sum_last products) in
  hard_loss ← Tensor.cross_entropy student_logits labels;
  Ok (alpha * temperature ^ 2 * soft_loss + (1 - alpha) * hard_loss).

Section WithBackend.
Context `{Backend}.

(** The value of an instance attribute. *)
Inductive attr : Type :=
| AModule (m : Module)
| ALoader (batches : list Batch)
| AInt (n : nat)
| ADevice (d : string)
| AOptimizer (o : Optimizer)
| AScheduler (s : Scheduler).

(** [self.name]: a lookup in the instance dictionary. *)
Definition getattr (self : gmap string attr) (name : string) : result attr :=
  match self !! name with
  | Some v => Ok v
  | None => Raise (AttributeError name)
  end.

Definition get_module (self : gmap string attr) (name : string) : result Module :=
  v ← getattr self name;
  match v with AModule m => Ok m | _ => Raise TypeError end.
Definition get_loader (self : gmap string attr) (name : string)
  : result (list Batch) :=
  v ← getattr self name;
  match v with ALoader l => Ok l | _ => Raise TypeError end.
Definition get_int (self : gmap string attr) (name : string) : result nat :=
  v ← getattr self name;
  match v with AInt n => Ok n | _ => Raise TypeError end.
Definition get_optimizer (self : gmap string attr) (name : string)
  : result Optimizer :=
  v ← getattr self name;
  match v with AOptimizer o => Ok o | _ => Raise TypeError end.
Definition get_scheduler_attr (self : gmap string attr) (name : string)
  : result Scheduler :=
  v ← getattr self name;
  match v with AScheduler s => Ok s | _ => Raise TypeError end.

(** The optimizer and the scheduler that [__init__] builds: AdamW on one
    group of all the student's parameters, and the cosine schedule with a
    tenth of the steps as warm-up. *)
Definition optimizer_and_scheduler (student_model : Module)
    (train_dataloader : list Batch) (num_epochs : nat)
    (learning_rate weight_decay : R) : Scheduler * Optimizer :=
  let optimizer :=
    AdamW [ {| params := all_parameters (current student_model);
               lr := learning_rate; weight_decay := weight_decay |} ] in
  let num_training_steps := (length train_dataloader * num_epochs)%nat in
  get_scheduler optimizer (num_training_steps / 10)%nat num_training_steps.

(** [__init__]: the attributes it assigns, in order, are all the
    attributes an instance has. *)
Definition __init__ (teacher_model student_model : Module)
    (train_dataloader eval_dataloader : list Batch) (num_epochs : nat)
    (device : string) (learning_rate weight_decay : R)
    (gradient_accumulation_steps : nat) : gmap string attr :=
  let self : gmap string attr := ∅ in
  let self := <["teacher_model" := AModule teacher_model]> self in
  let self := <["student_model" := AModule student_model]> self in
  let self := <["train_dataloader" := ALoader train_dataloader]> self in
  let self := <["eval_dataloader" := ALoader eval_dataloader]> self in
  let self := <["num_epochs" := AInt num_epochs]> self in
  let self := <["device" := ADevice device]> self in
  let self := <["gradient_accumulation_steps" :=
                  AInt gradient_accumulation_steps]> self in
  let '(scheduler, optimizer) :=
    optimizer_and_scheduler student_model train_dataloader num_epochs
                            learning_rate weight_decay in
  let self := <["optimizer" := AOptimizer optimizer]> self in
  <["scheduler" := AScheduler scheduler]> self.

(** What the batch loop changes. *)
Record TrainState : Type := {
  student : Module;
  optimizer : Optimizer;
  scheduler : Scheduler;
  total_loss : R
}.

(** The distillation loss of a batch as a function of the student's
    weights; the teacher runs without gradient. *)
Definition loss_at (teacher student : Module) (batch : Batch) (w : weights)
  : result R :=
  teacher_outputs ← call (current teacher) batch;
  student_outputs ← call (network student (training student) w) batch;
  compute_loss (logits student_outputs) (logits teacher_outputs)
               (labels batch) default_temperature default_alpha.

(** [loss.backward()] on the student. *)
Definition accumulate (loss : Scalar) (st : TrainState) : TrainState :=
  {| student := backward loss (student st);
     optimizer := optimizer st;
     scheduler := scheduler st;
     total_loss := total_loss st |}.

(** The body of the [if] of the batch loop: clip, optimizer step,
    scheduler step, zero the gradients. *)
Definition optimizer_update (st : TrainState) : TrainState :=
  let m := clip 1.0 (student st) in
  let '(o, m) := optimizer_step (optimizer st) m in
  let '(s, o) := scheduler_step (scheduler st) o in
  {| student := zero_grad m;
     optimizer := o;
     scheduler := s;
     total_loss := total_loss st |}.

(** [(step + 1) % gradient_accumulation_steps == 0] *)
Definition is_update_step (step n : nat) : result bool :=
  if Nat.eqb n 0 then Raise ZeroDivisionError
  else Ok (Nat.eqb ((step + 1) mod n) 0).

(** The loss tensor that [compute_loss] returns in the batch loop: its
    value at the current weights and its gradient there. *)
Definition batch_loss (teacher student : Module) (batch : Batch)
  : result Scalar :=
  l ← loss_at teacher student batch (data student);
  Ok {| item := l;
        dweights := gradient (loss_at teacher student batch) (data student) |}.

(** One pass of the body of the batch loop. *)
Definition train_step (teacher : Module) (gradient_accumulation_steps : nat)
    (st : TrainState) (step : nat) (batch : Batch) : result TrainState :=
  loss ← batch_loss teacher (student st) batch;
  let loss := scalar_div loss (INR gradient_accumulation_steps) in
  let st := accumulate loss st in
  update ← is_update_step step gradient_accumulation_steps;
  let st := if update : bool then optimizer_update st else st in
  Ok {| student := student st;
        optimizer := optimizer st;
        scheduler := scheduler st;
        total_loss := total_loss st
                      + item loss * INR gradient_accumulation_steps |}.

(** [for step, batch in enumerate(...)], from index [step] on. *)
Fixpoint train_batches (teacher : Module) (gradient_accumulation_steps : nat)
    (st : TrainState) (step : nat) (batches : list Batch) : result TrainState :=
  match batches with
  | [] => Ok st
  | batch :: rest =>
      st' ← train_step teacher gradient_accumulation_steps st step batch;
      train_batches teacher gradient_accumulation_steps st' (S step) rest
  end.

(** The training part of one epoch: modes, then the batch loop. *)
Definition train_epoch (self : gmap string attr) : result (gmap string attr) :=
  student_model ← get_module self "student_model";
  let student_model := set_training true student_model in
  let self := <["student_model" := AModule student_model]> self in
  teacher_model ← get_module self "teacher_model";
  let teacher_model := set_training false teacher_model in
  let self := <["teacher_model" := AModule teacher_model]> self in
  train_dataloader ← get_loader self "train_dataloader";
  n ← get_int self "gradient_accumulation_steps";
  o ← get_optimizer self "optimizer";
  s ← get_scheduler_attr self "scheduler";
  st ← train_batches teacher_model n
         {| student := student_model; optimizer := o; scheduler := s;
            total_loss := 0 |} 0 train_dataloader;
  Ok (<["scheduler" := AScheduler (scheduler st)]>
        (<["optimizer" := AOptimizer (optimizer st)]>
           (<["student_model" := AModule (student st)]> self))).

(** [label_counts[pred] += 1] for each prediction of a batch. *)
Fixpoint tally (label_counts : gmap nat nat) (predictions : list nat)
  : result (gmap nat nat) :=
  match predictions with
  | [] => Ok label_counts
  | pred :: rest =>
      match label_counts !! pred with
      | Some count => tally (<[pred := (count + 1)%nat]> label_counts) rest
      | None => Raise (KeyError pred)
      end
  end.

(** [{i: 0 for i in range(num_labels)}] *)
Definition zero_counts (num_labels : nat) : gmap nat nat :=
  list_to_map (map (fun i => (i, 0%nat)) (seq 0 num_labels)).

Fixpoint evaluate_batches (m : Module) (label_counts : gmap nat nat)
    (total_correct total_samples : nat) (batches : list Batch)
  : result (gmap nat nat * nat * nat) :=
  match batches with
  | [] => Ok (label_counts, total_correct, total_samples)
  | batch :: rest =>
      outputs ← call (current m) batch;
      let predictions := map Tensor.argmax (logits outputs) in
      label_counts ← tally label_counts predictions;
      hits ← count_equal predictions (labels batch);
      evaluate_batches m label_counts (total_correct + hits)
                       (total_samples + length (labels batch)) rest
  end.

(** The lines printed for the prediction distribution: for each key of
    [label_counts], in insertion order, the emotion, the count and the
    percentage. *)
Definition distribution (num_keys : nat) (label_counts : gmap nat nat)
    (total_samples : nat) : result (list (string * nat * R)) :=
  mapM (fun label_id =>
          match label_counts !! label_id with
          | None => Raise (KeyError label_id)
          | Some count =>
              ratio ← true_div count total_samples;
              match EMOTION_LABELS !! label_id with
              | None => Raise (KeyError label_id)
              | Some emotion => Ok (emotion, count, ratio * 100)
              end
          end) (seq 0 num_keys).

(** [evaluate]: the accuracy it returns and the distribution it prints. *)
Definition evaluate (self : gmap string attr)
  : result (gmap string attr * R * list (string * nat * R)) :=
  student_model ← get_module self "student_model";
  let student_model := set_training false student_model in
  let self := <["student_model" := AModule student_model]> self in
  num_labels ← get_int self "num_labels";
  let label_counts := zero_counts num_labels in
  eval_dataloader ← get_loader self "eval_dataloader";
  '(label_counts, total_correct, total_samples) ←
    evaluate_batches student_model label_counts 0 0 eval_dataloader;
  accuracy ← true_div total_correct total_samples;
  printed ← distribution num_labels label_counts total_samples;
  Ok (self, accuracy, printed).

Definition save_model (self : gmap string attr) (storage : gmap string weights)
  : result (gmap string weights) :=
  student_model ← get_module self "student_model";
  Ok (<[ (SAVE_DIR ++ "/best_model.pth")%string := data student_model ]> storage).

(** The epoch loop with [n] epochs still to run. *)
Fixpoint train_loop (n : nat) (self : gmap string attr)
    (storage : gmap string weights) (best_eval_acc : R)
  : result (gmap string attr * gmap string weights) :=
  match n with
  | O => Ok (self, storage)
  | S n' =>
      self ← train_epoch self;
      '(self, eval_acc, _) ← evaluate self;
      if Rlt_dec best_eval_acc eval_acc
      then storage ← save_model self storage;
           train_loop n' self storage eval_acc
      else train_loop n' self storage best_eval_acc
  end.

Definition train (self : gmap string attr) (storage : gmap string weights)
  : result (gmap string attr * gmap string weights) :=
  num_epochs ← get_int self "num_epochs";
  train_loop num_epochs self storage 0.

End WithBackend.

End OptimizedDistillationTrainer.

(** * Reference definitions

    The quantities the properties below compare the code with, written as
    the specification words them. *)

Module Reference.

Local Open Scope R_scope.

(** The sum of [f 0, ..., f (n - 1)]. *)
Definition big_sum (n : nat) (f : nat -> R) : R :=
  Tensor.tsum (map f (seq 0 n)).

(** The positions of one example that the attention mask keeps. *)
Definition unmasked (hidden : list (list R)) (mask_row : list Z)
  : list (list R) :=
  map fst (List.filter (fun hm => Z.eqb (snd hm) 1) (combine hidden mask_row)).

(** Masked mean pooling of one example: in every column, the sum of the
    unmasked positions divided by their number, the denominator being at
    least [1e-9]. *)
Definition masked_mean (width : nat) (hidden : list (list R))
    (mask_row : list Z) : list R :=
  map (fun c =>
         Tensor.tsum (map (fun row => nth c row 0) (unmasked hidden mask_row))
         / Rmax (INR (length (unmasked hidden mask_row))) 1e-9)
      (seq 0 width).

(** An attention mask holds zeros and ones. *)
Definition valid_mask (mask_row : list Z) : Prop :=
  Forall (fun z => z = 0%Z \/ z = 1%Z) mask_row.

(** Two hidden-state tensors of one example agree wherever the mask is 1. *)
Definition agree_on_mask (h1 h2 : list (list R)) (mask_row : list Z) : Prop :=
  length h1 = length mask_row /\ length h2 = length mask_row
  /\ forall i, mask_row !! i = Some 1%Z -> h1 !! i = h2 !! i.

End Reference.

Module LossReference.

Import Reference.
Local Open Scope R_scope.

(** A logit tensor of shape [batch, classes]. *)
Definition has_shape (t : list (list R)) (batch classes : nat) : Prop :=
  length t = batch /\ Forall (fun row => length row = classes) t.

(** Entry [b, c] of a matrix. *)
Definition entry (t : list (list R)) (b c : nat) : R := nth c (nth b t []) 0.

(** Entry [b, c] of [softmax(t / T)] over the classes. *)
Definition softmax_at (t : list (list R)) (T : R) (classes b c : nat) : R :=
  exp (entry t b c / T) / big_sum classes (fun j => exp (entry t b j / T)).

(** Entry [b, c] of [logSoftmax(t / T)] over the classes. *)
Definition log_softmax_at (t : list (list R)) (T : R) (classes b c : nat) : R :=
  entry t b c / T - ln (big_sum classes (fun j => exp (entry t b j / T))).

(** The soft-label cross-entropy of the student against the teacher's
    softened distribution: minus the mean over the batch of the sum over
    the classes of [softmax(teacher / T) * logSoftmax(student / T)]. *)
Definition soft_loss (batch classes : nat) (student teacher : list (list R))
    (T : R) : R :=
  - (big_sum batch (fun b =>
       big_sum classes (fun c =>
         softmax_at teacher T classes b c * log_softmax_at student T classes b c))
     / INR batch).

(** Multi-class cross-entropy of the unscaled logits against the labels:
    minus the mean over the batch of the log-probability of the label. *)
Definition hard_loss (batch classes : nat) (student : list (list R))
    (labels : list nat) : R :=
  - (big_sum batch (fun b =>
       entry student b (nth b labels 0%nat)
       - ln (big_sum classes (fun j => exp (entry student b j))))
     / INR batch).

End LossReference.

Module LoopReference.

Import Torch.
Local Open Scope R_scope.



(** The gradient accumulated by backward passes on [losses], each divided
    by [n], on top of the gradient [g]. *)
Definition accumulated (n : nat) (g : option (list R)) (losses : list Scalar)
  : option (list R) :=
  fold_left (fun g l =>
               Some (match g with
                     | None => dweights (scalar_div l (INR n))
                     | Some g0 => vadd g0 (dweights (scalar_div l (INR n)))
                     end)) losses g.

Section WithBackend.
Context `{Backend}.

(** Two modules that compute the same function at the same weights. *)
Definition same_weights (m1 m2 : Module) : Prop :=
  network m1 = network m2 /\ training m1 = training m2 /\ data m1 = data m2.

(** The module [m] with the gradient [g]. *)
Definition with_grad (m : Module) (g : option (list R)) : Module :=
  {| network := network m; training := training m; data := data m; grad := g |}.

End WithBackend.

End LoopReference.

Module EarlyStoppingReference.

Import Torch TeacherTrainer.
Local Open Scope R_scope.

(** The best accuracy after the epochs [accs], starting from [best]. *)
Definition running_best (accs : list R) (best : R) : R :=
  fold_left Rmax accs best.

(** Epoch [k] (counted from 0) strictly improves on the best accuracy of
    the epochs before it, the best before the first epoch being 0. *)
Definition improves (accs : list R) (k : nat) : Prop :=
  running_best (firstn k accs) 0 < nth k accs 0.

(** The [k] first epochs end with three consecutive epochs without
    improvement. *)
Definition stalled (accs : list R) (k : nat) : Prop :=
  (3 <= k <= length accs)%nat
  /\ forall j, (k - 3 <= j < k)%nat -> ~ improves accs j.

(** The progress after an epoch of accuracy [eval_acc]. *)
Definition next_progress (eval_acc : R) (p : Progress) : Progress :=
  if Rlt_dec (best_eval_acc p) eval_acc
  then {| best_eval_acc := eval_acc;
          early_stopping_counter := 0;
          epochs_run := S (epochs_run p) |}
  else {| best_eval_acc := best_eval_acc p;
          early_stopping_counter := S (early_stopping_counter p);
          epochs_run := S (epochs_run p) |}.

(** The progress of the epoch loop on the accuracies [accs]. *)
Fixpoint checks (accs : list R) (p : Progress) : Progress :=
  match accs with
  | [] => p
  | a :: rest =>
      let p' := next_progress a p in
      if (early_stopping_patience <=? early_stopping_counter p')%nat
      then p' else checks rest p'
  end.

Definition initial_progress : Progress :=
  {| best_eval_acc := 0; early_stopping_counter := 0; epochs_run := 0 |}.

(** The progress after [k] epochs when the loop does not stop. *)
Definition unstopped (accs : list R) (k : nat) : Progress :=
  fold_left (fun p a => next_progress a p) (firstn k accs) initial_progress.

Section WithBackend.
Context `{Backend}.

(** The accuracies that [evaluate] returns at the end of each of [n]
    epochs of training. *)
Fixpoint accuracies (n : nat) (self : t) : result (list R) :=
  match n with
  | O => Ok []
  | S n' =>
      let self := with_model self (set_training true (model self)) in
      '(self, _) ← train_batches self 0 (train_dataloader self);
      '(self, eval_acc) ← evaluate self;
      rest ← accuracies n' self;
      Ok (eval_acc :: rest)
  end.

End WithBackend.

End EarlyStoppingReference.

Module TallyReference.

(** The number of predictions counted for the classes below [n]. *)
Definition counted (n : nat) (label_counts : gmap nat nat) : nat :=
  sum_list_with (fun i => default 0%nat (label_counts !! i)) (seq 0 n).

(** Every key of the dictionary is a class below [n]. *)
Definition keys_below (n : nat) (label_counts : gmap nat nat) : Prop :=
  forall k, is_Some (label_counts !! k) -> (k < n)%nat.

End TallyReference.

(** * A toy instance

    A two-parameter student on a one-token vocabulary, with a plain
    gradient step in place of AdamW, on which the hypotheses of the
    properties below are met. *)

Module Toy.

Import MambaForSequenceClassification Torch.
Local Open Scope R_scope.

Definition base_model : CausalLM :=
  {| parameters := [ {| pid := 0; requires_grad := true |};
                     {| pid := 1; requires_grad := true |};
                     {| pid := 2; requires_grad := true |};
                     {| pid := 3; requires_grad := true |} ];
     d_model := 2;
     vocab_size := 1;
     n_layer := 1;
     lm_logits := fun ids _ => map (map (fun _ => [1])) ids |}.

Definition new_projection : Layer :=
  {| layer_parameters := [ {| pid := 4; requires_grad := true |};
                           {| pid := 5; requires_grad := true |} ];
     apply := fun x => x |}.

(** A head whose two logits are the two weights. *)
Definition head (w : R * R) : Layer :=
  {| layer_parameters := [ {| pid := 6; requires_grad := true |};
                           {| pid := 7; requires_grad := true |};
                           {| pid := 8; requires_grad := true |};
                           {| pid := 9; requires_grad := true |} ];
     apply := fun pooled => map (fun _ => [w.1; w.2]) pooled |}.

Definition classifier_at (w : R * R) : t :=
  __init__ base_model 2 "mean" new_projection (head w).

Definition first_lr (groups : list ParamGroup) : R :=
  match groups with
  | [] => 0
  | g :: _ => lr g
  end.

#[local] Instance backend : Backend :=
  {| weights := R * R;
     optim_state := nat;
     optim_init := 0%nat;
     adamw_step := fun groups s w g =>
       (S s, (w.1 - first_lr groups * nth 0 g 0,
              w.2 - first_lr groups * nth 1 g 0));
     gradient := fun _ w => [w.1; w.2];
     clip_grad_norm_ := fun g _ => g;
     cosine_lambda := fun _ _ _ => 1 |}.

Definition student_model : Module :=
  {| network := fun _ w => classifier_at w;
     training := false;
     data := (1, 2);
     grad := None |}.

Definition teacher_model : Module :=
  {| network := fun _ w => classifier_at w;
     training := false;
     data := (0, 0);
     grad := None |}.

(** One example of two tokens, the second one padding. *)
Definition batch : Batch :=
  {| input_ids := [[5; 7]%Z];
     attention_mask := [[1; 0]%Z];
     labels := [1%nat] |}.

Definition train_state : OptimizedDistillationTrainer.TrainState :=
  {| OptimizedDistillationTrainer.student := student_model;
     OptimizedDistillationTrainer.optimizer :=
       AdamW [ {| params := all_parameters (current student_model);
                  lr := 1e-4; weight_decay := 0.01 |} ];
     OptimizedDistillationTrainer.scheduler :=
       {| base_lrs := [1e-4]; last_epoch := 0;
          num_warmup_steps := 0; num_training_steps := 4 |};
     OptimizedDistillationTrainer.total_loss := 0 |}.

(** The loss tensor of the toy batch. *)
Definition batch_loss : Scalar :=
  match OptimizedDistillationTrainer.batch_loss teacher_model student_model batch with
  | Ok l => l
  | Raise _ => {| item := 0; dweights := [] |}
  end.

(** What the pooling of the toy batch returns. *)
Definition pooled : list (list R) :=
  match pool (classifier_at (1, 2))
             (lm_logits base_model (input_ids batch) (Some (attention_mask batch)))
             (Some (attention_mask batch)) with
  | Ok p => p
  | Raise _ => []
  end.

(** A distillation trainer on three batches, accumulating over two steps,
    for two epochs. *)
Definition distillation_trainer : gmap string OptimizedDistillationTrainer.attr :=
  OptimizedDistillationTrainer.__init__ teacher_model student_model
    [batch; batch; batch] [batch] 2 "cpu" 1e-4 0.01 2.

End Toy.

(** * A toy teacher

    A teacher whose weights count the optimizer steps taken, evaluated on
    twenty examples of label 0; after [w] steps it predicts the label of
    the first [correct w] examples. *)

Module ToyTeacher.

Import MambaForSequenceClassification Torch.
Local Open Scope R_scope.

Definition correct (w : nat) : nat :=
  nth w [0; 10; 12; 11; 11; 11]%nat 11%nat.

Definition head (w : nat) : Layer :=
  {| layer_parameters := layer_parameters (Toy.head (0, 0));
     apply := fun pooled =>
       imap (fun i _ => if (i <? correct w)%nat then [1; 0] else [0; 1])
            pooled |}.

#[local] Instance backend : Backend :=
  {| weights := nat;
     optim_state := nat;
     optim_init := 0%nat;
     adamw_step := fun _ s w _ => (S s, S w);
     gradient := fun _ _ => [];
     clip_grad_norm_ := fun g _ => g;
     cosine_lambda := fun _ _ _ => 1 |}.

Definition model : Module :=
  {| network := fun _ w =>
       __init__ Toy.base_model 2 "mean" Toy.new_projection (head w);
     training := false;
     data := 0%nat;
     grad := None |}.

Definition examples : Batch :=
  {| input_ids := replicate 20 [0%Z];
     attention_mask := replicate 20 [1%Z];
     labels := replicate 20 0%nat |}.

(** One batch per epoch, ten epochs as in [main]. *)
Definition trainer : TeacherTrainer.t :=
  TeacherTrainer.__init__ model [examples] [examples] 10 "cpu" 5e-5 0.01.

(** The accuracies of the ten epochs. *)
Definition accs : list R :=
  match EarlyStoppingReference.accuracies 10 trainer with
  | Ok a => a
  | Raise _ => []
  end.

End ToyTeacher.

(** * Further reference definitions *)

Module CheckpointReference.

Import Torch TeacherTrainer EarlyStoppingReference.
Local Open Scope R_scope.


Section WithBackend.
Context `{Backend}.

(** The accuracy that [evaluate] returns at the end of each of [n] epochs
    of training, with the weights the model has at that point. *)
Fixpoint records (n : nat) (self : t) : result (list (R * weights)) :=
  match n with
  | O => Ok []
  | S n' =>
      let self := with_model self (set_training true (model self)) in
      '(self, _) ← train_batches self 0 (train_dataloader self);
      '(self, eval_acc) ← evaluate self;
      rest ← records n' self;
      Ok ((eval_acc, data (model self)) :: rest)
  end.



End WithBackend.

End CheckpointReference.

Module PoolingReference.

Local Open Scope R_scope.

(** The hidden states of one example with the rows at the padded positions
    replaced by rows of [-1e9]. *)
Definition padded_out (hidden : list (list R)) (mask_row : list Z)
  : list (list R) :=
  zip_with (fun row z => if (z =? 1)%Z then row else map (fun _ => -1e9) row)
           hidden mask_row.

(** Two hidden-state tensors of one example have rows of the same widths. *)
Definition same_widths (h1 h2 : list (list R)) : Prop :=
  Forall2 (fun r1 r2 => length r1 = length r2) h1 h2.

(** The attention mask that keeps every position of every example. *)
Definition full_mask (hidden : list (list (list R))) : list (list Z) :=
  map (fun h => map (fun _ => 1%Z) h) hidden.


End PoolingReference.

Module ShiftReference.

Local Open Scope R_scope.

(** The logits [t] with the constant [c_b] added to every logit of
    example [b]. *)
Definition shift (t : list (list R)) (cs : list R) : list (list R) :=
  zip_with (fun row c => map (fun x => x + c) row) t cs.

End ShiftReference.

(** * The rest of the script *)

(** ** Device selection: [get_device] *)

(** [get_device()], as a function of [torch.cuda.is_available()] and
    [torch.backends.mps.is_available()]; a device is its name. *)
Definition get_device (cuda_is_available mps_is_available : bool) : string :=
  if cuda_is_available then "cuda"
  else if mps_is_available then "cpu"
  else "cpu".

(** ** The dataset adapter: class [CustomDataset] *)

Module CustomDataset.

(** What an item holds under a key: a tensor of token ids or of mask
    entries, or the tensor of a label. *)
Inductive value : Type :=
| Tokens (v : list Z)
| Label (y : nat).

(** [encodings] is the dictionary of the tokenizer's outputs, as the list
    of its items: under each key, one list per example. *)
Record t : Type := {
  encodings : list (string * list (list Z));
  labels : list nat
}.

Definition __init__ (encodings : list (string * list (list Z)))
    (labels : list nat) : t :=
  {| encodings := encodings; labels := labels |}.

(** [l[idx]] on a Python list: a negative index counts from the end. *)
Definition getitem {A} (l : list A) (idx : Z) : result A :=
  let i := if (idx <? 0)%Z then (Z.of_nat (length l) + idx)%Z else idx in
  if (i <? 0)%Z then Raise IndexError
  else match l !! Z.to_nat i with
       | Some x => Ok x
       | None => Raise IndexError
       end.

(** The dictionary comprehension of [__getitem__], over the items still to
    come. *)
Fixpoint comprehension (items : list (string * list (list Z))) (idx : Z)
    (item : gmap string value) : result (gmap string value) :=
  match items with
  | [] => Ok item
  | (key, val) :: rest =>
      x ← getitem val idx;
      comprehension rest idx (<[key := Tokens x]> item)
  end.

Definition __getitem__ (self : t) (idx : Z) : result (gmap string value) :=
  item ← comprehension (encodings self) idx ∅;
  y ← getitem (labels self) idx;
  Ok (<["labels" := Label y]> item).

Definition __len__ (self : t) : nat := length (labels self).

End CustomDataset.

(** ** The teacher phase of the driver script: [main] *)

Module Main.

Import Torch TeacherTrainer CheckpointReference.


Section WithBackend.
Context `{Backend}.



End WithBackend.

End Main.

(** ** Predictions and statistics of the driver script *)

Module Report.

Import MambaForSequenceClassification Torch OptimizedDistillationTrainer.
Local Open Scope R_scope.

Section WithBackend.
Context `{Backend}.

(** [predict_text]: the tokenizer maps the text to token ids and an
    attention mask, one row each; the model is called without labels.
    [prediction.item()] takes a prediction tensor of exactly one
    element. *)
Definition predict_text (text : string) (model : Module)
    (tokenizer : string -> list (list Z) * list (list Z))
  : result (nat * list R) :=
  let '(ids, mask) := tokenizer text in
  outputs ← forward (current model) ids (Some mask) None;
  let probs := map Tensor.softmax (logits outputs) in
  let prediction := map Tensor.argmax probs in
  match prediction, probs with
  | [p], row :: _ => Ok (p, row)
  | _, _ => Raise RuntimeError
  end.

(** The counting loop of the teacher's statistics in [main]. *)
Fixpoint count_predictions (m : Module) (label_counts : gmap nat nat)
    (total_samples : nat) (batches : list Batch)
  : result (gmap nat nat * nat) :=
  match batches with
  | [] => Ok (label_counts, total_samples)
  | batch :: rest =>
      outputs ← call (current m) batch;
      let predictions := map Tensor.argmax (logits outputs) in
      label_counts ← tally label_counts predictions;
      count_predictions m label_counts
                        (total_samples + length predictions) rest
  end.

(** The counting loop of the student's statistics, which keeps no total. *)
Fixpoint count_labels (m : Module) (label_counts : gmap nat nat)
    (batches : list Batch) : result (gmap nat nat) :=
  match batches with
  | [] => Ok label_counts
  | batch :: rest =>
      outputs ← call (current m) batch;
      let predictions := map Tensor.argmax (logits outputs) in
      label_counts ← tally label_counts predictions;
      count_labels m label_counts rest
  end.

(** The overall statistics at the end of [main]: the lines printed for the
    teacher, then those printed for the student, whose percentages are
    taken over the total counted for the teacher. *)
Definition statistics (teacher_model student_model : Module)
    (eval_dataloader : list Batch)
  : result (list (string * nat * R) * list (string * nat * R)) :=
  let teacher_model := set_training false teacher_model in
  '(label_counts, total_samples) ←
    count_predictions teacher_model (zero_counts NUM_LABELS) 0 eval_dataloader;
  teacher_lines ← distribution NUM_LABELS label_counts total_samples;
  let student_model := set_training false student_model in
  label_counts ← count_labels student_model (zero_counts NUM_LABELS)
                              eval_dataloader;
  student_lines ← distribution NUM_LABELS label_counts total_samples;
  Ok (teacher_lines, student_lines).

End WithBackend.

End Report.

(** * Properties *)

(** ** Frozen parameters of the classifier wrapper *)

Section Freezing.

Import MambaForSequenceClassification.

Lemma slice_to_all_but_two {A} (l : list A) :
  Py.slice_to l (Z.of_nat (length l) - 2) = firstn (length l - 2) l.
Proof.
  unfold Py.slice_to.
  destruct (Z.ltb_spec (Z.of_nat (length l) - 2) 0) as [Hneg | Hpos].
  - replace (length l - 2)%nat with 0%nat by lia.
    replace (Z.to_nat _) with 0%nat by lia. reflexivity.
  - f_equal. lia.
Qed.

Lemma slice_from_last_two {A} (l : list A) :
  Py.slice_from l (-2) = skipn (length l - 2) l.
Proof.
  unfold Py.slice_from. simpl. f_equal. lia.
Qed.

Lemma freeze_all_but_last_two_eq (ps : list param) :
  freeze_all_but_last_two ps
  = map freeze (firstn (length ps - 2) ps) ++ skipn (length ps - 2) ps.
Proof.
  unfold freeze_all_but_last_two. rewrite slice_to_all_but_two.
  rewrite length_firstn. do 2 f_equal. lia.
Qed.

Lemma freeze_all_but_last_two_length (ps : list param) :
  length (freeze_all_but_last_two ps) = length ps.
Proof.
  rewrite freeze_all_but_last_two_eq, length_app, length_map.
  rewrite <- length_app, firstn_skipn. reflexivity.
Qed.

(** The parameters keep their identity and their position. *)
Lemma freeze_all_but_last_two_pid (ps : list param) :
  map pid (freeze_all_but_last_two ps) = map pid ps.
Proof.
  rewrite freeze_all_but_last_two_eq, map_app, map_map. simpl.
  rewrite <- map_app, firstn_skipn. reflexivity.
Qed.

(** The flag of every position after construction, whatever it was before:
    cleared on the first [P - 2] positions, unchanged on the last two. *)
Lemma freeze_all_but_last_two_lookup (ps : list param) (i : nat) :
  freeze_all_but_last_two ps !! i
  = (if (i <? length ps - 2)%nat then freeze <$> ps !! i else ps !! i).
Proof.
  rewrite freeze_all_but_last_two_eq.
  destruct (Nat.ltb_spec i (length ps - 2)) as [Hlt | Hge].
  - rewrite lookup_app_l by (rewrite length_map, length_firstn; lia).
    rewrite list_lookup_fmap, lookup_take_lt by lia. reflexivity.
  - rewrite lookup_app_r by (rewrite length_map, length_firstn; lia).
    rewrite length_map, length_firstn, lookup_drop. f_equal. lia.
Qed.

(** C3. After [MambaForSequenceClassification.__init__] on a base model with
    [P] parameter tensors, all of which require gradients as a freshly
    loaded model's do, the parameter at position [i] of the ordered list has
    [requires_grad] disabled exactly when [i < P - 2]: the first [P - 2]
    are frozen and the last two are trainable, whatever layer they belong
    to; the list keeps its length and its tensors their place. *)
Theorem init_freezes_all_but_last_two
    (base_model : CausalLM) (n_labels : nat) (pooling : string)
    (new_projection new_classifier : Layer)
    (Hfresh : Forall (fun p => requires_grad p = true) (parameters base_model)) :
  let P := length (parameters base_model) in
  let ps := parameters (mamba (__init__ base_model n_labels pooling
                                         new_projection new_classifier)) in
  length ps = P
  /\ map pid ps = map pid (parameters base_model)
  /\ forall i p, ps !! i = Some p ->
       requires_grad p = negb (i <? P - 2)%nat.
Proof.
  simpl. split; [apply freeze_all_but_last_two_length |].
  split; [apply freeze_all_but_last_two_pid |].
  intros i p Hi. rewrite freeze_all_but_last_two_lookup in Hi.
  destruct (i <? _)%nat.
  - destruct (parameters base_model !! i); simplify_eq/=. reflexivity.
  - rewrite Forall_forall in Hfresh. simpl. apply Hfresh.
    eapply list_elem_of_lookup_2; eauto.
Qed.

End Freezing.

(** ** Parameter groups of the teacher's optimizer *)

Section TeacherGroups.

Import MambaForSequenceClassification Torch.
Context `{Backend}.
Local Open Scope R_scope.

Lemma set_lrs_params (gs : list ParamGroup) (base : list R) (factor : R) :
  map params (set_lrs gs base factor) = map params gs.
Proof.
  revert base. induction gs as [| g gs IH]; intros [| b base]; simpl; auto.
  f_equal. apply IH.
Qed.

(** C7. The optimizer of a teacher trainer built on a freshly wrapped base
    model has exactly two parameter groups: the parameters of the
    classification head and of the projection, given to AdamW at [lr], and
    the last two parameter tensors of the base model, given at [lr * 0.1]
    (these are the base rates the scheduler scales). Every other base-model
    parameter, i.e. every one at a position below [P - 2], is in neither
    group and has [requires_grad] disabled. *)
Theorem teacher_optimizer_groups
    (base_model : CausalLM) (n_labels : nat) (pooling : string)
    (new_projection new_classifier : Layer) (m : Module)
    (train_dataloader eval_dataloader : list Batch) (n_epochs : nat)
    (dev : string) (learning_rate decay : R)
    (Hm : current m = __init__ base_model n_labels pooling
                               new_projection new_classifier)
    (Hdistinct : NoDup (map pid (all_parameters (current m)))) :
  let trainer := TeacherTrainer.__init__ m train_dataloader eval_dataloader
                                         n_epochs dev learning_rate decay in
  let base := parameters (mamba (current m)) in
  let P := length base in
  map lr (TeacherTrainer.parameter_groups m learning_rate decay)
    = [learning_rate; learning_rate * 0.1]
  /\ base_lrs (TeacherTrainer.scheduler trainer)
    = [learning_rate; learning_rate * 0.1]
  /\ map params (param_groups (TeacherTrainer.optimizer trainer))
    = [ layer_parameters new_classifier ++ layer_parameters new_projection;
        skipn (P - 2) base ]
  /\ forall i p, (i < P - 2)%nat -> base !! i = Some p ->
       requires_grad p = false
       /\ Forall (fun g => p ∉ params g)
                 (param_groups (TeacherTrainer.optimizer trainer)).
Proof.
  intros trainer base P.
  assert (Hgroups :
    map params (param_groups (TeacherTrainer.optimizer trainer))
    = [ layer_parameters new_classifier ++ layer_parameters new_projection;
        skipn (P - 2) base ]).
  { subst trainer. unfold TeacherTrainer.__init__, get_scheduler. simpl.
    unfold apply_schedule. simpl. rewrite slice_from_last_two.
    unfold P, base. rewrite !Hm. reflexivity. }
  split; [reflexivity |]. split; [reflexivity |]. split; [exact Hgroups |].
  intros i p Hi Hp. split.
  - subst base. rewrite Hm in Hp. simpl in Hp.
    rewrite freeze_all_but_last_two_lookup in Hp.
    replace (i <? _)%nat with true in Hp.
    + destruct (parameters base_model !! i); simplify_eq/=. reflexivity.
    + symmetry. apply Nat.ltb_lt. subst P. rewrite Hm in Hi. simpl in Hi.
      rewrite freeze_all_but_last_two_length in Hi. exact Hi.
  - assert (Hsplit : all_parameters (current m)
                     = take (P - 2) base ++ drop (P - 2) base
                       ++ layer_parameters new_projection
                       ++ layer_parameters new_classifier).
    { unfold all_parameters. fold base.
      replace (projection (current m)) with new_projection by (rewrite Hm; reflexivity).
      replace (classifier (current m)) with new_classifier by (rewrite Hm; reflexivity).
      rewrite <- (take_drop (P - 2) base) at 1. rewrite <- !app_assoc.
      reflexivity. }
    rewrite Hsplit, fmap_app in Hdistinct.
    apply NoDup_app in Hdistinct as (_ & Hdisj & _).
    assert (Hin : pid p ∈ pid <$> take (P - 2) base).
    { apply list_elem_of_fmap. exists p. split; [reflexivity |].
      apply list_elem_of_lookup. exists i. rewrite lookup_take_lt; auto. }
    specialize (Hdisj _ Hin).
    assert (Hnot : forall q, q ∈ drop (P - 2) base
                               ++ layer_parameters new_projection
                               ++ layer_parameters new_classifier -> p <> q).
    { intros q Hq ->. apply Hdisj. apply list_elem_of_fmap. eauto. }
    apply Forall_forall. intros g Hg Hpg.
    assert (Hps : params g
                  ∈ map params (param_groups (TeacherTrainer.optimizer trainer))).
    { apply list_elem_of_fmap. eauto. }
    rewrite Hgroups in Hps. apply (Hnot p); [| reflexivity].
    apply list_elem_of_In in Hps.
    destruct Hps as [Heq | [Heq | []]]; rewrite <- Heq in Hpg;
      rewrite !elem_of_app in *; tauto.
Qed.

End TeacherGroups.

(** ** Elementwise operations on tensors of equal sizes *)

Section ZipWith.

Context {A B C : Type}.

Lemma zip_with_total (f : A -> B -> result C) (g : A -> B -> C)
    (xs : list A) (ys : list B) :
  length xs = length ys ->
  (forall x y, x ∈ xs -> y ∈ ys -> f x y = Ok (g x y)) ->
  Tensor.zip_with f xs ys = Ok (zip_with g xs ys).
Proof.
  revert ys. induction xs as [| x xs IH]; intros [| y ys] Hlen Hf;
    simpl in *; try discriminate; [reflexivity |].
  rewrite Hf by constructor. simpl.
  rewrite IH; [reflexivity | lia |].
  intros x' y' Hx Hy. apply Hf; constructor; assumption.
Qed.

Lemma zip_with_Ok_length (f : A -> B -> result C) (xs : list A) (ys : list B)
    (cs : list C) :
  Tensor.zip_with f xs ys = Ok cs ->
  length xs = length ys /\ length cs = length xs.
Proof.
  revert ys cs. induction xs as [| x xs IH]; intros [| y ys] cs Hz;
    simpl in *; try discriminate.
  - injection Hz as <-. auto.
  - destruct (f x y); try discriminate. simpl in Hz.
    destruct (Tensor.zip_with f xs ys) eqn:E; try discriminate.
    simpl in Hz. injection Hz as <-. apply IH in E as [E1 E2].
    simpl. split; congruence.
Qed.

Lemma zip_with_pointwise (f : A -> B -> result C) (g : A -> B -> result C)
    (xs : list A) (ys : list B) :
  Forall2 (fun x y => f x y = g x y) xs ys ->
  Tensor.zip_with f xs ys = Tensor.zip_with g xs ys.
Proof.
  induction 1 as [| x y xs ys Hxy _ IH]; simpl; [reflexivity |].
  rewrite Hxy, IH. reflexivity.
Qed.

End ZipWith.

(** ** The result of [forward] *)

Section Forward.

Import MambaForSequenceClassification.



End Forward.

(** ** Masked mean pooling *)

Section MeanPooling.

Import MambaForSequenceClassification Reference.
Local Open Scope R_scope.

Lemma mul_mask_total (hidden : list (list R)) (m : list R) :
  length hidden = length m ->
  mul_mask hidden m = Ok (zip_with (fun row w => map (fun x => x * w) row) hidden m).
Proof.
  intros Hlen. apply zip_with_total; auto.
Qed.

Lemma nth_scaled (c : nat) (row : list R) (w : R) :
  nth c (map (fun x => x * w) row) 0 = nth c row 0 * w.
Proof.
  replace 0 with (0 * w) at 1 by lra.
  apply (map_nth (fun x => x * w)).
Qed.

(** A column of the masked product sums to the sum over the unmasked
    positions. *)
Lemma masked_column_sum (c : nat) (hidden : list (list R)) (mask_row : list Z) :
  length hidden = length mask_row -> valid_mask mask_row ->
  Tensor.tsum (map (fun row => nth c row 0)
                   (zip_with (fun row w => map (fun x => x * w) row)
                             hidden (mask_expanded mask_row)))
  = Tensor.tsum (map (fun row => nth c row 0) (unmasked hidden mask_row)).
Proof.
  unfold valid_mask, unmasked, mask_expanded.
  revert mask_row. induction hidden as [| row hidden IH];
    intros [| z mask_row] Hlen Hvalid; simpl in *; try discriminate;
    [reflexivity |].
  inversion Hvalid as [| ? ? Hz Hrest]; subst.
  rewrite nth_scaled, IH by (auto; lia).
  destruct Hz as [-> | ->]; simpl; lra.
Qed.

(** The mask sums to the number of unmasked positions. *)
Lemma mask_sum_count (hidden : list (list R)) (mask_row : list Z) :
  length hidden = length mask_row -> valid_mask mask_row ->
  Tensor.tsum (mask_expanded mask_row) = INR (length (unmasked hidden mask_row)).
Proof.
  unfold valid_mask, unmasked, mask_expanded.
  revert mask_row. induction hidden as [| row hidden IH];
    intros [| z mask_row] Hlen Hvalid; simpl in *; try discriminate;
    [reflexivity |].
  inversion Hvalid as [| ? ? Hz Hrest]; subst.
  rewrite IH by (auto; lia).
  destruct Hz as [-> | ->]; cbn [List.filter snd fst map length Z.eqb Pos.eqb].
  - lra.
  - rewrite S_INR. lra.
Qed.

Lemma mean_pool_masked_eq (width : nat) (hidden : list (list R))
    (mask_row : list Z) :
  length hidden = length mask_row -> valid_mask mask_row ->
  mean_pool_masked width hidden mask_row
  = Ok (masked_mean width hidden mask_row).
Proof.
  intros Hlen Hvalid. unfold mean_pool_masked.
  rewrite mul_mask_total by (unfold mask_expanded; rewrite length_map; auto).
  simpl. f_equal. unfold Tensor.sum_dim1, masked_mean, Tensor.clamp_min.
  rewrite map_map. apply map_ext. intros c.
  rewrite masked_column_sum, (mask_sum_count hidden) by auto. reflexivity.
Qed.





End MeanPooling.

(** ** Sums by index *)

Section Sums.

Import Reference.
Local Open Scope R_scope.

Lemma big_sum_S (n : nat) (f : nat -> R) :
  big_sum (S n) f = f 0%nat + big_sum n (fun i => f (S i)).
Proof.
  unfold big_sum. simpl. rewrite <- seq_shift, map_map. reflexivity.
Qed.

Lemma big_sum_ext (n : nat) (f g : nat -> R) :
  (forall i, (i < n)%nat -> f i = g i) -> big_sum n f = big_sum n g.
Proof.
  revert f g. induction n as [| n IH]; intros f g Hfg; [reflexivity |].
  rewrite !big_sum_S, Hfg by lia. f_equal. apply IH. intros i Hi.
  apply Hfg. lia.
Qed.

Lemma big_sum_opp (n : nat) (f : nat -> R) :
  big_sum n (fun i => - f i) = - big_sum n f.
Proof.
  revert f. induction n as [| n IH]; intros f.
  - unfold big_sum. simpl. lra.
  - rewrite !big_sum_S, IH. lra.
Qed.

Lemma tsum_map_nth {A} (f : A -> R) (l : list A) (d : A) :
  Tensor.tsum (map f l) = big_sum (length l) (fun i => f (nth i l d)).
Proof.
  induction l as [| x l IH]; [reflexivity |].
  simpl length. rewrite big_sum_S. simpl. rewrite IH. reflexivity.
Qed.

Lemma tsum_zip_with {A B} (f : A -> B -> R) (xs : list A) (ys : list B)
    (dx : A) (dy : B) :
  length xs = length ys ->
  Tensor.tsum (zip_with f xs ys)
  = big_sum (length xs) (fun i => f (nth i xs dx) (nth i ys dy)).
Proof.
  revert ys. induction xs as [| x xs IH]; intros [| y ys] Hlen;
    simpl in *; try discriminate; [reflexivity |].
  rewrite big_sum_S. simpl. rewrite IH by lia. reflexivity.
Qed.

Lemma nth_map_lt {A B} (f : A -> B) (l : list A) (i : nat) (d : A) (d' : B) :
  (i < length l)%nat -> nth i (map f l) d' = f (nth i l d).
Proof.
  intros Hi. rewrite (nth_indep _ d' (f d)) by (rewrite length_map; exact Hi).
  apply map_nth.
Qed.

Lemma nth_zip_with {A B C} (f : A -> B -> C) (xs : list A) (ys : list B)
    (i : nat) (dx : A) (dy : B) (d : C) :
  (i < length xs)%nat -> (i < length ys)%nat ->
  nth i (zip_with f xs ys) d = f (nth i xs dx) (nth i ys dy).
Proof.
  revert ys i. induction xs as [| x xs IH]; intros [| y ys] [| i] Hx Hy;
    simpl in *; try lia; [reflexivity |].
  apply IH; lia.
Qed.

End Sums.

(** ** The distillation loss *)

Section Loss.

Import Reference LossReference OptimizedDistillationTrainer.
Local Open Scope R_scope.

Lemma has_shape_row (t : list (list R)) (batch classes b : nat) :
  has_shape t batch classes -> (b < batch)%nat ->
  length (nth b t []) = classes.
Proof.
  intros [Hlen Hrows] Hb. rewrite Forall_forall in Hrows. apply Hrows.
  apply list_elem_of_In, nth_In. lia.
Qed.

(** The normaliser of a row, by index. *)
Lemma exp_sum_row (t : list (list R)) (T : R) (batch classes b : nat) :
  has_shape t batch classes -> (b < batch)%nat ->
  Tensor.tsum (map exp (map (fun x => x / T) (nth b t [])))
  = big_sum classes (fun j => exp (entry t b j / T)).
Proof.
  intros Hshape Hb. rewrite map_map, (tsum_map_nth _ _ 0).
  rewrite (has_shape_row t batch classes) by auto. reflexivity.
Qed.

(** The elementwise product of the soft targets and the student's
    log-probabilities is defined on logits of one shape. *)
Lemma soft_products (student teacher : list (list R)) (T : R)
    (batch classes : nat) :
  has_shape student batch classes -> has_shape teacher batch classes ->
  Tensor.mul2 (map Tensor.softmax (Tensor.div_scalar teacher T))
              (map Tensor.log_softmax (Tensor.div_scalar student T))
  = Ok (zip_with (zip_with Rmult)
          (map Tensor.softmax (Tensor.div_scalar teacher T))
          (map Tensor.log_softmax (Tensor.div_scalar student T))).
Proof.
  intros [Ls Hs] [Lt Ht]. unfold Tensor.mul2, Tensor.div_scalar.
  apply zip_with_total.
  - rewrite !length_map. lia.
  - intros p q Hp Hq. unfold Tensor.mul. apply zip_with_total; [| auto].
    apply list_elem_of_fmap in Hp as (p' & -> & Hp).
    apply list_elem_of_fmap in Hp as (p'' & -> & Hp).
    apply list_elem_of_fmap in Hq as (q' & -> & Hq).
    apply list_elem_of_fmap in Hq as (q'' & -> & Hq).
    unfold Tensor.softmax, Tensor.log_softmax. rewrite !length_map.
    rewrite Forall_forall in Hs, Ht. rewrite (Hs q''), (Ht p''); auto.
Qed.

Lemma soft_loss_eq (student teacher : list (list R)) (T : R)
    (batch classes : nat) :
  has_shape student batch classes -> has_shape teacher batch classes ->
  - Tensor.mean (Tensor.sum_last
       (zip_with (zip_with Rmult)
          (map Tensor.softmax (Tensor.div_scalar teacher T))
          (map Tensor.log_softmax (Tensor.div_scalar student T))))
  = soft_loss batch classes student teacher T.
Proof.
  intros Hs Ht. pose proof Hs as [Ls _]. pose proof Ht as [Lt _].
  unfold Tensor.mean, Tensor.sum_last, soft_loss, Tensor.div_scalar.
  rewrite length_map, length_zip_with, !length_map, Lt, Ls, Nat.min_id.
  do 2 f_equal.
  rewrite (tsum_map_nth _ _ []), length_zip_with, !length_map, Lt, Ls, Nat.min_id.
  apply big_sum_ext. intros b Hb.
  rewrite (nth_zip_with _ _ _ _ [] []) by (rewrite !length_map; lia).
  rewrite !(nth_map_lt _ _ _ []) by (rewrite ?length_map; lia).
  rewrite (tsum_zip_with _ _ _ 0 0)
    by (unfold Tensor.softmax, Tensor.log_softmax; rewrite !length_map;
        rewrite (has_shape_row student batch classes),
                (has_shape_row teacher batch classes); auto).
  unfold Tensor.softmax at 1. rewrite !length_map.
  rewrite (has_shape_row teacher batch classes) by auto.
  apply big_sum_ext. intros c Hc.
  unfold Tensor.softmax, Tensor.log_softmax, softmax_at, log_softmax_at.
  rewrite !(nth_map_lt _ _ _ 0)
    by (rewrite ?length_map;
        rewrite ?(has_shape_row student batch classes),
                ?(has_shape_row teacher batch classes); auto).
  rewrite (exp_sum_row student T batch classes),
          (exp_sum_row teacher T batch classes) by auto.
  reflexivity.
Qed.

Lemma cross_entropy_eq (student : list (list R)) (labels : list nat)
    (batch classes : nat) :
  has_shape student batch classes -> length labels = batch ->
  Forall (fun y => (y < classes)%nat) labels ->
  Tensor.cross_entropy student labels
  = Ok (hard_loss batch classes student labels).
Proof.
  intros Hs Hl Hy. pose proof Hs as [Ls Hrows].
  unfold Tensor.cross_entropy. rewrite Ls, Hl, Nat.eqb_refl.
  rewrite (zip_with_total _ (fun row y => - nth y (Tensor.log_softmax row) 0)).
  - simpl. f_equal. unfold Tensor.mean, hard_loss.
    rewrite length_zip_with, Ls, Hl, Nat.min_id.
    rewrite (tsum_zip_with _ _ _ [] 0%nat) by lia.
    rewrite Ls, big_sum_opp.
    replace (big_sum batch (fun i => nth (nth i labels 0%nat)
                                   (Tensor.log_softmax (nth i student [])) 0))
      with (big_sum batch (fun b =>
              entry student b (nth b labels 0%nat)
              - ln (big_sum classes (fun j => exp (entry student b j)))));
      [unfold Rdiv; ring |].
    apply big_sum_ext. intros b Hb.
    unfold Tensor.log_softmax.
    rewrite (nth_map_lt _ _ _ 0).
    + unfold entry. rewrite (tsum_map_nth _ _ 0).
      rewrite (has_shape_row student batch classes) by auto. reflexivity.
    + rewrite (has_shape_row student batch classes) by auto.
      rewrite Forall_forall in Hy. apply Hy.
      apply list_elem_of_In, nth_In. lia.
  - lia.
  - intros row y Hrow Hin. unfold Tensor.nll.
    rewrite Forall_forall in Hrows. rewrite Forall_forall in Hy.
    assert (Hlt : (y < length (Tensor.log_softmax row))%nat).
    { unfold Tensor.log_softmax. rewrite length_map, (Hrows row) by auto. auto. }
    destruct (nth_error (Tensor.log_softmax row) y) as [lp |] eqn:E.
    + rewrite (nth_error_nth _ _ _ E). reflexivity.
    + apply nth_error_None in E. lia.
Qed.

(** The value of [compute_loss] on well-shaped inputs. *)
Lemma compute_loss_eq (student teacher : list (list R)) (labels : list nat)
    (T alpha : R) (batch classes : nat) :
  has_shape student batch classes -> has_shape teacher batch classes ->
  length labels = batch -> Forall (fun y => (y < classes)%nat) labels ->
  compute_loss student teacher labels T alpha
  = Ok (alpha * T ^ 2 * soft_loss batch classes student teacher T
        + (1 - alpha) * hard_loss batch classes student labels).
Proof.
  intros Hs Ht Hl Hy. unfold compute_loss.
  rewrite (soft_products student teacher T batch classes) by auto. simpl.
  rewrite (cross_entropy_eq student labels batch classes) by auto. simpl.
  rewrite (soft_loss_eq student teacher T batch classes) by auto.
  reflexivity.
Qed.

(** C1. On student and teacher logits of shape [batch, numLabels] and one
    label below [numLabels] per example, [compute_loss] returns
    [alpha * T^2 * softLoss + (1 - alpha) * hardLoss], where [softLoss] is
    minus the batch mean of the class sums of
    [softmax(teacher / T) * logSoftmax(student / T)] and [hardLoss] is the
    cross-entropy of the unscaled student logits against the labels. *)
Theorem compute_loss_formula (student teacher : list (list R))
    (labels : list nat) (T alpha : R) (batch classes : nat)
    (Hstudent : has_shape student batch classes)
    (Hteacher : has_shape teacher batch classes)
    (Hlabels : length labels = batch)
    (Hrange : Forall (fun y => (y < classes)%nat) labels) :
  compute_loss student teacher labels T alpha
  = Ok (alpha * T ^ 2 * soft_loss batch classes student teacher T
        + (1 - alpha) * hard_loss batch classes student labels).
Proof.
  apply compute_loss_eq; assumption.
Qed.

(** C2, as amended. With [alpha = 1] the loss is [T^2] times the soft-label
    cross-entropy of the student against the teacher's softened
    distribution (hence that cross-entropy itself at [T = 1]), and with
    [alpha = 0] it is the plain cross-entropy of the student logits against
    the labels, which is also what [F.cross_entropy] returns. *)
Theorem compute_loss_alpha_extremes (student teacher : list (list R))
    (labels : list nat) (T : R) (batch classes : nat)
    (Hstudent : has_shape student batch classes)
    (Hteacher : has_shape teacher batch classes)
    (Hlabels : length labels = batch)
    (Hrange : Forall (fun y => (y < classes)%nat) labels) :
  compute_loss student teacher labels T 1
  = Ok (T ^ 2 * soft_loss batch classes student teacher T)
  /\ compute_loss student teacher labels 1 1
     = Ok (soft_loss batch classes student teacher 1)
  /\ compute_loss student teacher labels T 0
     = Ok (hard_loss batch classes student labels)
  /\ compute_loss student teacher labels T 0
     = Tensor.cross_entropy student labels.
Proof.
  rewrite (cross_entropy_eq student labels batch classes) by assumption.
  rewrite !(compute_loss_eq student teacher labels _ _ batch classes)
    by assumption.
  repeat split; f_equal; ring.
Qed.

(** On all-zero logits with three classes the soft-label cross-entropy is
    [ln 3]. *)
Lemma soft_loss_zeros (T : R) :
  soft_loss 2 3 [[0; 0; 0]; [0; 0; 0]] [[0; 0; 0]; [0; 0; 0]] T = ln 3.
Proof.
  unfold soft_loss, softmax_at, log_softmax_at, entry, big_sum. simpl.
  replace (0 / T) with 0 by (unfold Rdiv; ring). rewrite exp_0.
  replace (1 + (1 + (1 + 0))) with 3 by lra. lra.
Qed.

Lemma ln_3_pos : 0 < ln 3.
Proof.
  rewrite <- ln_1. apply ln_increasing; lra.
Qed.

(** C2, as stated, fails: with the default temperature 2 and [alpha = 1],
    the loss of all-zero logits (three classes, batch size two) is
    [4 * ln 3], not the soft-label cross-entropy [ln 3]. *)
Lemma compute_loss_alpha_one_not_pure :
  compute_loss [[0; 0; 0]; [0; 0; 0]] [[0; 0; 0]; [0; 0; 0]] [0%nat; 0%nat]
               default_temperature 1
  <> Ok (soft_loss 2 3 [[0; 0; 0]; [0; 0; 0]] [[0; 0; 0]; [0; 0; 0]]
                   default_temperature).
Proof.
  rewrite (compute_loss_eq _ _ _ _ _ 2 3);
    try (split; [reflexivity | repeat constructor]);
    try reflexivity; try (repeat constructor; lia).
  rewrite soft_loss_zeros. unfold default_temperature.
  intros [= Heq]. pose proof ln_3_pos. lra.
Qed.

End Loss.

(** ** Gradient accumulation in the distillation loop *)

Section Accumulation.

Import Torch LoopReference OptimizedDistillationTrainer.
Context `{Backend}.
Local Open Scope R_scope.

Lemma batch_loss_same_weights (teacher m1 m2 : Module) (batch : Batch) :
  same_weights m1 m2 ->
  batch_loss teacher m1 batch = batch_loss teacher m2 batch.
Proof.
  intros (Hn & Ht & Hd). unfold batch_loss, loss_at.
  rewrite Hn, Ht, Hd. reflexivity.
Qed.

Lemma is_update_step_true (step n : nat) :
  ((step + 1) mod n = 0)%nat -> n <> 0%nat -> is_update_step step n = Ok true.
Proof.
  intros Hmod Hn. unfold is_update_step.
  destruct (Nat.eqb_spec n 0); [contradiction |].
  rewrite Hmod. reflexivity.
Qed.

Lemma is_update_step_false (step n : nat) :
  ((step + 1) mod n <> 0)%nat -> n <> 0%nat -> is_update_step step n = Ok false.
Proof.
  intros Hmod Hn. unfold is_update_step.
  destruct (Nat.eqb_spec n 0); [contradiction |].
  destruct (Nat.eqb_spec ((step + 1) mod n) 0); [contradiction | reflexivity].
Qed.

(** A step whose index is not a multiple of the accumulation count only
    adds to the gradient. *)
Lemma train_step_accumulates (teacher : Module) (n : nat) (st : TrainState)
    (step : nat) (batch : Batch) (loss : Scalar) :
  batch_loss teacher (student st) batch = Ok loss ->
  ((step + 1) mod n <> 0)%nat -> n <> 0%nat ->
  train_step teacher n st step batch
  = Ok {| student := backward (scalar_div loss (INR n)) (student st);
          optimizer := optimizer st;
          scheduler := scheduler st;
          total_loss := total_loss st + item (scalar_div loss (INR n)) * INR n |}.
Proof.
  intros Hloss Hmod Hn. unfold train_step. rewrite Hloss. simpl.
  rewrite is_update_step_false by assumption. reflexivity.
Qed.

(** A step whose index is a multiple of the accumulation count updates. *)
Lemma train_step_updates (teacher : Module) (n : nat) (st : TrainState)
    (step : nat) (batch : Batch) (loss : Scalar) :
  batch_loss teacher (student st) batch = Ok loss ->
  ((step + 1) mod n = 0)%nat -> n <> 0%nat ->
  train_step teacher n st step batch
  = Ok (let st' := optimizer_update (accumulate (scalar_div loss (INR n)) st) in
        {| student := student st';
           optimizer := optimizer st';
           scheduler := scheduler st';
           total_loss := total_loss st'
                         + item (scalar_div loss (INR n)) * INR n |}).
Proof.
  intros Hloss Hmod Hn. unfold train_step. rewrite Hloss. simpl.
  rewrite is_update_step_true by assumption. reflexivity.
Qed.

(** A run of steps none of which updates: weights, optimizer and scheduler
    stay, the gradient grows by each loss divided by [n]. *)
Lemma train_batches_accumulate (teacher : Module) (n : nat) (m0 : Module)
    (batches : list Batch) (losses : list Scalar) :
  n <> 0%nat ->
  Forall2 (fun b l => batch_loss teacher m0 b = Ok l) batches losses ->
  forall (st : TrainState) (step : nat),
    same_weights (student st) m0 ->
    (forall i, (i < length batches)%nat -> ((step + i + 1) mod n <> 0)%nat) ->
    exists st',
      train_batches teacher n st step batches = Ok st'
      /\ student st' = with_grad (student st)
                                 (accumulated n (grad (student st)) losses)
      /\ optimizer st' = optimizer st
      /\ scheduler st' = scheduler st.
Proof.
  intros Hn. induction 1 as [| b l bs ls Hb _ IH]; intros st step Hsame Hsteps.
  - exists st. simpl. destruct st as [[] ? ? ?]. simpl. auto.
  - simpl.
    rewrite (train_step_accumulates teacher n st step b l).
    + simpl.
      edestruct IH as (st' & Hrun & Hst & Ho & Hs); cycle 2.
      * exists st'. rewrite Hrun. split; [reflexivity |].
        rewrite Hst, Ho, Hs. simpl. auto.
      * destruct Hsame as (? & ? & ?). repeat split; simpl; assumption.
      * intros i Hi. replace (S step + i + 1)%nat
          with (step + S i + 1)%nat by lia. apply Hsteps. simpl. lia.
    + rewrite (batch_loss_same_weights teacher _ m0) by assumption. exact Hb.
    + replace (step + 1)%nat with (step + 0 + 1)%nat by lia.
      apply Hsteps. simpl. lia.
    + exact Hn.
Qed.

Lemma train_batches_app (teacher : Module) (n : nat) (xs ys : list Batch) :
  forall (st : TrainState) (step : nat),
    train_batches teacher n st step (xs ++ ys)
    = (st' ← train_batches teacher n st step xs;
       train_batches teacher n st' (step + length xs) ys).
Proof.
  induction xs as [| x xs IH]; intros st step; simpl.
  - rewrite Nat.add_0_r. reflexivity.
  - destruct (train_step teacher n st step x) as [st1 |]; simpl; [| reflexivity].
    rewrite IH. replace (S step + length xs)%nat
      with (step + S (length xs))%nat by lia. reflexivity.
Qed.








(** The gradient accumulated over at least one loss is there. *)
Lemma accumulated_is_Some (n : nat) (g : option (list R)) (l : Scalar)
    (ls : list Scalar) :
  is_Some (accumulated n g (l :: ls)).
Proof.
  assert (Hsome : forall ls' g', is_Some (accumulated n (Some g') ls')).
  { induction ls' as [| l' ls' IH]; intros g'; simpl; [eauto | apply IH]. }
  apply Hsome.
Qed.

(** What the batch loop does on a step, by the step's index: on a step
    whose 1-based index is not a multiple of [n] the weights, the optimizer
    and the scheduler are untouched and the gradient is kept, grown by the
    step's loss; on a multiple of [n] the state is the updated one, with
    the gradient zeroed. *)
Lemma train_step_gating (teacher : Module) (n : nat) (st st' : TrainState)
    (step : nat) (batch : Batch) :
  train_step teacher n st step batch = Ok st' ->
  exists loss,
    batch_loss teacher (student st) batch = Ok loss
    /\ n <> 0%nat
    /\ (((step + 1) mod n <> 0)%nat ->
          data (student st') = data (student st)
          /\ optimizer st' = optimizer st
          /\ scheduler st' = scheduler st
          /\ grad (student st')
             = accumulated n (grad (student st)) [loss])
    /\ (((step + 1) mod n = 0)%nat ->
          let updated := optimizer_update
                           (accumulate (scalar_div loss (INR n)) st) in
          student st' = student updated
          /\ optimizer st' = optimizer updated
          /\ scheduler st' = scheduler updated
          /\ grad (student st') = None).
Proof.
  intros Hstep.
  destruct (batch_loss teacher (student st) batch) as [loss |] eqn:Hloss.
  2: { unfold train_step in Hstep. rewrite Hloss in Hstep. discriminate. }
  assert (Hn : n <> 0%nat).
  { intros ->. unfold train_step in Hstep. rewrite Hloss in Hstep.
    simpl in Hstep. discriminate. }
  exists loss. split; [reflexivity |]. split; [exact Hn |]. split.
  - intros Hmod.
    rewrite (train_step_accumulates teacher n st step batch loss) in Hstep
      by assumption.
    injection Hstep as <-. simpl. auto.
  - intros Hmod.
    rewrite (train_step_updates teacher n st step batch loss) in Hstep
      by assumption.
    injection Hstep as <-. simpl. repeat split; try reflexivity.
    unfold optimizer_update.
    destruct (optimizer_step _ _) as [o m].
    destruct (scheduler_step _ _) as [s o']. reflexivity.
Qed.

(** When the number of batches is not a multiple of [n], the batches after
    the last full window change neither the weights nor the optimizer nor
    the scheduler, and their gradient is still there when the batch loop
    ends. *)
Lemma trailing_batches_left_over (teacher : Module) (n q : nat)
    (st st1 : TrainState) (full trailing : list Batch) (losses : list Scalar) :
  length full = (q * n)%nat ->
  (0 < length trailing < n)%nat ->
  train_batches teacher n st 0 full = Ok st1 ->
  Forall2 (fun b l => batch_loss teacher (student st1) b = Ok l)
          trailing losses ->
  exists st',
    train_batches teacher n st 0 (full ++ trailing) = Ok st'
    /\ data (student st') = data (student st1)
    /\ optimizer st' = optimizer st1
    /\ scheduler st' = scheduler st1
    /\ grad (student st') = accumulated n (grad (student st1)) losses
    /\ is_Some (grad (student st')).
Proof.
  intros Hfull Htrail Hrun Hloss.
  destruct (train_batches_accumulate teacher n (student st1) trailing losses)
    with (st := st1) (step := length full)
    as (st' & Hrun' & Hst & Ho & Hs); auto.
  { lia. }
  { repeat split. }
  { intros i Hi. rewrite Hfull.
    replace (q * n + i + 1)%nat with ((i + 1) + q * n)%nat by lia.
    rewrite Nat.Div0.mod_add, Nat.mod_small; lia. }
  exists st'. rewrite train_batches_app, Hrun. simpl. split; [exact Hrun' |].
  rewrite Hst. simpl. repeat split; auto.
  destruct Hloss as [| b l bs ls]; [simpl in Htrail; lia |].
  apply accumulated_is_Some.
Qed.

End Accumulation.

(** ** Early stopping in the teacher loop *)

Section EarlyStopping.

Import Torch TeacherTrainer EarlyStoppingReference.
Local Open Scope R_scope.

Lemma next_progress_best (a : R) (p : Progress) :
  best_eval_acc (next_progress a p) = Rmax (best_eval_acc p) a.
Proof.
  unfold next_progress, Rmax.
  destruct (Rlt_dec (best_eval_acc p) a), (Rle_dec (best_eval_acc p) a);
    simpl; lra.
Qed.

Lemma next_progress_epochs (a : R) (p : Progress) :
  epochs_run (next_progress a p) = S (epochs_run p).
Proof. unfold next_progress. destruct (Rlt_dec _ _); reflexivity. Qed.

Lemma firstn_succ {A} (l : list A) (k : nat) (d : A) :
  (k < length l)%nat -> firstn (S k) l = firstn k l ++ [nth k l d].
Proof.
  revert k. induction l as [| x l IH]; intros [| k] Hk; simpl in *;
    try lia; [reflexivity |].
  rewrite IH by lia. reflexivity.
Qed.

Lemma unstopped_S (accs : list R) (k : nat) :
  (k < length accs)%nat ->
  unstopped accs (S k) = next_progress (nth k accs 0) (unstopped accs k).
Proof.
  intros Hk. unfold unstopped.
  rewrite (firstn_succ accs k 0) by exact Hk.
  rewrite fold_left_app. reflexivity.
Qed.

Lemma unstopped_best (accs : list R) (k : nat) :
  best_eval_acc (unstopped accs k) = running_best (firstn k accs) 0.
Proof.
  unfold unstopped, running_best.
  change 0 with (best_eval_acc initial_progress) at 1.
  generalize initial_progress. generalize (firstn k accs).
  induction l as [| a l IH]; intros p; simpl; [reflexivity |].
  rewrite IH, next_progress_best. reflexivity.
Qed.

Lemma unstopped_epochs (accs : list R) (k : nat) :
  (k <= length accs)%nat -> epochs_run (unstopped accs k) = k.
Proof.
  induction k as [| k IH]; intros Hk; [reflexivity |].
  rewrite unstopped_S, next_progress_epochs, IH by lia. reflexivity.
Qed.

(** The counter after an epoch: zero on an improvement, one more otherwise. *)
Lemma unstopped_counter (accs : list R) (k : nat) :
  (k < length accs)%nat ->
  (improves accs k ->
     early_stopping_counter (unstopped accs (S k)) = 0%nat)
  /\ (~ improves accs k ->
        early_stopping_counter (unstopped accs (S k))
        = S (early_stopping_counter (unstopped accs k))).
Proof.
  intros Hk. rewrite unstopped_S by exact Hk. unfold improves.
  rewrite <- unstopped_best. unfold next_progress.
  destruct (Rlt_dec _ _); simpl; split; intros; tauto.
Qed.

(** The counter is at least [m] exactly when the last [m] epochs brought
    no improvement. *)
Lemma unstopped_counter_ge (accs : list R) (m k : nat) :
  (k <= length accs)%nat ->
  (m <= early_stopping_counter (unstopped accs k))%nat
  <-> (m <= k)%nat /\ forall j, (k - m <= j < k)%nat -> ~ improves accs j.
Proof.
  revert k. induction m as [| m IH]; intros k Hk.
  - split; [| lia]. intros _. split; [lia |]. intros j Hj. lia.
  - destruct k as [| k].
    + simpl. split; [lia | intros [? _]; lia].
    + destruct (unstopped_counter accs k) as [Himp Hnot]; [lia |].
      destruct (Rlt_dec (running_best (firstn k accs) 0) (nth k accs 0))
        as [Hlt | Hge].
      * rewrite (Himp Hlt). split; [lia |]. intros [_ Hall].
        exfalso. apply (Hall k); [lia | exact Hlt].
      * rewrite (Hnot Hge). rewrite <- Nat.succ_le_mono, IH by lia.
        replace (S k - S m)%nat with (k - m)%nat by lia.
        split.
        -- intros [Hm Hall]. split; [lia |]. intros j Hj.
           destruct (Nat.eq_dec j k) as [-> | Hne]; [exact Hge |].
           apply Hall. lia.
        -- intros [Hm Hall]. split; [lia |]. intros j Hj. apply Hall. lia.
Qed.

Lemma unstopped_stalled (accs : list R) (k : nat) :
  (k <= length accs)%nat ->
  (3 <= early_stopping_counter (unstopped accs k))%nat <-> stalled accs k.
Proof.
  intros Hk. rewrite unstopped_counter_ge by exact Hk. unfold stalled.
  split; intros [? ?]; (split; [lia | assumption]).
Qed.

(** The loop follows the unstopped run up to the first epoch at which the
    counter reaches the patience. *)
Lemma checks_fold (accs : list R) :
  forall p, (early_stopping_counter p < 3)%nat ->
  exists k,
    (k <= length accs)%nat
    /\ checks accs p = fold_left (fun p a => next_progress a p) (firstn k accs) p
    /\ (forall j, (j < k)%nat ->
          (early_stopping_counter
             (fold_left (fun p a => next_progress a p) (firstn j accs) p) < 3)%nat)
    /\ ((k < length accs)%nat ->
          (3 <= early_stopping_counter
                  (fold_left (fun p a => next_progress a p) (firstn k accs) p))%nat).
Proof.
  induction accs as [| a rest IH]; intros p Hp.
  - exists 0%nat. simpl. split; [lia |]. split; [reflexivity |].
    split; intros; lia.
  - cbn [checks]. unfold early_stopping_patience.
    destruct (Nat.leb_spec 3 (early_stopping_counter (next_progress a p)))
      as [Hstop | Hgo].
    + exists 1%nat. simpl. split; [lia |]. split; [reflexivity |]. split.
      * intros j Hj. replace j with 0%nat by lia. exact Hp.
      * intros _. exact Hstop.
    + destruct (IH (next_progress a p) Hgo) as (k & Hk & Hrun & Hbefore & Hat).
      exists (S k). simpl. split; [lia |]. split; [exact Hrun |]. split.
      * intros [| j] Hj; simpl; [exact Hp | apply Hbefore; lia].
      * intros Hlt. apply Hat. lia.
Qed.

(** Where the loop stops, in terms of the accuracies alone. *)
Lemma checks_stops_when_stalled (accs : list R) :
  let p := checks accs initial_progress in
  (epochs_run p <= length accs)%nat
  /\ best_eval_acc p = running_best (firstn (epochs_run p) accs) 0
  /\ (forall k, (k < epochs_run p)%nat -> ~ stalled accs k)
  /\ ((epochs_run p < length accs)%nat -> stalled accs (epochs_run p))
  /\ (stalled accs (epochs_run p) -> early_stopping_counter p = 3%nat).
Proof.
  intros p. subst p.
  destruct (checks_fold accs initial_progress) as (k & Hk & Hrun & Hbefore & Hat);
    [simpl; lia |].
  fold (unstopped accs k) in Hrun, Hat. rewrite Hrun.
  rewrite unstopped_epochs by exact Hk.
  split; [exact Hk |]. split; [apply unstopped_best |]. split; [| split].
  - intros j Hj Hst. apply unstopped_stalled in Hst; [| lia].
    specialize (Hbefore j Hj). fold (unstopped accs j) in Hbefore. lia.
  - intros Hlt. apply unstopped_stalled; [lia | auto].
  - intros Hst. apply unstopped_stalled in Hst; [| exact Hk].
    destruct k as [| k]; [simpl in Hst; lia |].
    specialize (Hbefore k ltac:(lia)). fold (unstopped accs k) in Hbefore.
    destruct (unstopped_counter accs k) as [Himp Hnot]; [lia |].
    destruct (Rlt_dec (running_best (firstn k accs) 0) (nth k accs 0))
      as [Hlt | Hge].
    + rewrite (Himp Hlt) in Hst. lia.
    + rewrite (Hnot Hge) in *. lia.
Qed.

Lemma next_progress_improved (a : R) (p : Progress) :
  best_eval_acc p < a ->
  next_progress a p
  = {| best_eval_acc := a; early_stopping_counter := 0;
       epochs_run := S (epochs_run p) |}.
Proof.
  intros Hlt. unfold next_progress.
  destruct (Rlt_dec _ _); [reflexivity | contradiction].
Qed.

Lemma next_progress_stalled (a : R) (p : Progress) :
  ~ best_eval_acc p < a ->
  next_progress a p
  = {| best_eval_acc := best_eval_acc p;
       early_stopping_counter := S (early_stopping_counter p);
       epochs_run := S (epochs_run p) |}.
Proof.
  intros Hge. unfold next_progress.
  destruct (Rlt_dec _ _); [contradiction | reflexivity].
Qed.

(** The synthetic sequence of the specification: five epochs are run. *)
Lemma checks_synthetic (rest : list R) :
  checks ([0.5; 0.6; 0.55; 0.55; 0.55] ++ rest) initial_progress
  = {| best_eval_acc := 0.6; early_stopping_counter := 3; epochs_run := 5 |}.
Proof.
  unfold initial_progress. cbn [app checks].
  rewrite (next_progress_improved 0.5) by (simpl; lra).
  cbn [early_stopping_counter early_stopping_patience Nat.leb epochs_run].
  rewrite (next_progress_improved 0.6) by (simpl; lra).
  cbn [early_stopping_counter early_stopping_patience Nat.leb epochs_run].
  rewrite (next_progress_stalled 0.55) by (simpl; lra).
  cbn [early_stopping_counter early_stopping_patience Nat.leb epochs_run
       best_eval_acc].
  rewrite (next_progress_stalled 0.55) by (simpl; lra).
  cbn [early_stopping_counter early_stopping_patience Nat.leb epochs_run
       best_eval_acc].
  rewrite (next_progress_stalled 0.55) by (simpl; lra).
  reflexivity.
Qed.

Context `{Backend}.

#[local] Arguments evaluate : simpl never.
#[local] Arguments train_batches : simpl never.
#[local] Arguments early_stopping_check : simpl never.
#[local] Arguments Nat.leb : simpl never.

Lemma early_stopping_check_progress (a : R) (self : t)
    (storage : gmap string weights) (p : Progress) :
  (early_stopping_check a self storage p).2 = next_progress a p.
Proof.
  unfold early_stopping_check, next_progress.
  destruct (Rlt_dec _ _); reflexivity.
Qed.

Lemma accuracies_length (n : nat) :
  forall (self : t) (accs : list R),
    accuracies n self = Ok accs -> length accs = n.
Proof.
  induction n as [| n IH]; intros self accs Hacc; simpl in Hacc.
  - injection Hacc as <-. reflexivity.
  - destruct (train_batches _ _ _) as [[self1 tl] |]; [| discriminate].
    simpl in Hacc.
    destruct (evaluate self1) as [[self2 a] |]; [| discriminate].
    simpl in Hacc.
    destruct (accuracies n self2) as [rest |] eqn:Hrest; [| discriminate].
    injection Hacc as <-. simpl. f_equal. eapply IH; eauto.
Qed.

(** The epoch loop returns, with the progress that the accuracies of the
    epochs determine. *)
Lemma train_loop_checks (n : nat) :
  forall (self : t) (storage : gmap string weights) (p : Progress)
         (accs : list R),
    accuracies n self = Ok accs ->
    exists self' storage',
      train_loop n self storage p = Ok (self', storage', checks accs p).
Proof.
  induction n as [| n IH]; intros self storage p accs Hacc; simpl in Hacc |- *.
  - injection Hacc as <-. eauto.
  - destruct (train_batches _ _ _) as [[self1 tl] |]; [| discriminate].
    simpl in Hacc |- *.
    destruct (evaluate self1) as [[self2 a] |]; [| discriminate].
    simpl in Hacc |- *.
    destruct (accuracies n self2) as [rest |] eqn:Hrest; [| discriminate].
    injection Hacc as <-.
    pose proof (early_stopping_check_progress a self2 storage p) as Hp.
    destruct (early_stopping_check a self2 storage p) as [storage1 p1].
    simpl in Hp. subst p1. cbn [checks].
    destruct (_ <=? _)%nat; [eauto |].
    apply IH. exact Hrest.
Qed.

(** C4. At the end of an epoch the early-stopping counter is reset to 0 and
    the weights are written to the checkpoint when the accuracy strictly
    improves on the best so far, and is incremented otherwise. On the
    accuracies that evaluation returns over the epochs, the teacher loop
    returns after the first epoch that ends three consecutive epochs
    without improvement, with the counter at 3, and after all its epochs
    if there is none; when the first five accuracies are 0.5, 0.6, 0.55,
    0.55, 0.55 it stops after epoch 5. *)
Theorem teacher_early_stopping (self : t) (storage : gmap string weights)
    (accs : list R)
    (Hacc : accuracies (num_epochs self) self = Ok accs) :
  (forall (a : R) (self0 : t) (storage0 : gmap string weights) (p : Progress),
      (best_eval_acc p < a ->
         early_stopping_check a self0 storage0 p
         = (save_model self0 storage0,
            {| best_eval_acc := a; early_stopping_counter := 0;
               epochs_run := S (epochs_run p) |})
         /\ save_model self0 storage0
              !! (SAVE_DIR ++ "/best_teacher.pth")%string
            = Some (data (model self0)))
      /\ (~ best_eval_acc p < a ->
            early_stopping_check a self0 storage0 p
            = (storage0,
               {| best_eval_acc := best_eval_acc p;
                  early_stopping_counter := S (early_stopping_counter p);
                  epochs_run := S (epochs_run p) |})))
  /\ exists self' storage' p,
       train_loop (num_epochs self) self storage initial_progress
       = Ok (self', storage', p)
       /\ train self storage = Ok (self', storage', best_eval_acc p)
       /\ (epochs_run p <= num_epochs self)%nat
       /\ best_eval_acc p = running_best (firstn (epochs_run p) accs) 0
       /\ (forall k, (k < epochs_run p)%nat -> ~ stalled accs k)
       /\ ((epochs_run p < num_epochs self)%nat -> stalled accs (epochs_run p))
       /\ (stalled accs (epochs_run p) -> early_stopping_counter p = 3%nat)
       /\ (firstn 5 accs = [0.5; 0.6; 0.55; 0.55; 0.55] ->
             epochs_run p = 5%nat /\ early_stopping_counter p = 3%nat).
Proof.
  split.
  - intros a self0 storage0 p. unfold early_stopping_check. split; intros Ha.
    + destruct (Rlt_dec _ _); [| contradiction]. split; [reflexivity |].
      unfold save_model. apply lookup_insert_eq.
    + destruct (Rlt_dec _ _); [contradiction | reflexivity].
  - destruct (train_loop_checks _ self storage initial_progress accs Hacc)
      as (self' & storage' & Hrun).
    exists self', storage', (checks accs initial_progress).
    pose proof (accuracies_length _ _ _ Hacc) as Hlen.
    destruct (checks_stops_when_stalled accs) as (H1 & H2 & H3 & H4 & H5).
    rewrite Hlen in H1, H4.
    split; [exact Hrun |]. split.
    { unfold train. fold initial_progress. rewrite Hrun. reflexivity. }
    repeat (split; [assumption |]).
    intros Hfive. rewrite <- (firstn_skipn 5 accs), Hfive, checks_synthetic.
    auto.
Qed.

End EarlyStopping.

(** ** Evaluation in the distillation loop *)

Section DistillationEvaluate.

Import Torch OptimizedDistillationTrainer.
Context `{Backend}.
Local Open Scope R_scope.

(** No attribute [num_labels] is ever assigned to a distillation trainer. *)
Lemma init_lacks_num_labels (teacher_model student_model : Module)
    (train_dataloader eval_dataloader : list Batch) (num_epochs : nat)
    (device : string) (learning_rate decay : R) (steps : nat) :
  __init__ teacher_model student_model train_dataloader eval_dataloader
           num_epochs device learning_rate decay steps
    !! "num_labels"%string = None.
Proof.
  unfold __init__. destruct (optimizer_and_scheduler _ _ _ _ _) as [s o].
  rewrite !lookup_insert_ne by discriminate. apply lookup_empty.
Qed.

Lemma init_student_model (teacher_model student_model : Module)
    (train_dataloader eval_dataloader : list Batch) (num_epochs : nat)
    (device : string) (learning_rate decay : R) (steps : nat) :
  __init__ teacher_model student_model train_dataloader eval_dataloader
           num_epochs device learning_rate decay steps
    !! "student_model"%string = Some (AModule student_model).
Proof.
  unfold __init__. destruct (optimizer_and_scheduler _ _ _ _ _) as [s o].
  rewrite !lookup_insert_ne by discriminate. apply lookup_insert_eq.
Qed.

(** [evaluate] cannot get past its read of [self.num_labels]. *)
Lemma evaluate_without_num_labels (self : gmap string attr) (m : Module) :
  self !! "student_model"%string = Some (AModule m) ->
  self !! "num_labels"%string = None ->
  evaluate self = Raise (AttributeError "num_labels").
Proof.
  intros Hm Hn. unfold evaluate, get_module, get_int, getattr.
  rewrite Hm. simpl. rewrite lookup_insert_ne by discriminate.
  rewrite Hn. reflexivity.
Qed.

Lemma evaluate_returns_only_with_num_labels (self : gmap string attr)
    (r : gmap string attr * R * list (string * nat * R)) :
  evaluate self = Ok r -> is_Some (self !! "num_labels"%string).
Proof.
  intros Heval. unfold evaluate, get_module, get_int, getattr in Heval.
  destruct (self !! "student_model"%string) as [[m | | | | |] |]; try discriminate.
  simpl in Heval. rewrite lookup_insert_ne in Heval by discriminate.
  destruct (self !! "num_labels"%string); [eauto | discriminate].
Qed.

(** C8, on the code. On every trainer that [__init__] builds, whatever the
    evaluation set, [evaluate] raises [AttributeError] on [self.num_labels]
    before it counts a prediction: it returns no accuracy and reports no
    percentage. *)
Theorem evaluate_raises_AttributeError (teacher_model student_model : Module)
    (train_dataloader eval_dataloader : list Batch) (num_epochs : nat)
    (device : string) (learning_rate decay : R) (steps : nat) :
  evaluate (__init__ teacher_model student_model train_dataloader
                     eval_dataloader num_epochs device learning_rate decay
                     steps)
  = Raise (AttributeError "num_labels").
Proof.
  apply (evaluate_without_num_labels _ student_model).
  - apply init_student_model.
  - apply init_lacks_num_labels.
Qed.

(** The batch loop assigns no new attribute. *)
Lemma train_epoch_lacks_num_labels (self self' : gmap string attr) :
  train_epoch self = Ok self' ->
  self !! "num_labels"%string = None ->
  self' !! "num_labels"%string = None
  /\ exists m, self' !! "student_model"%string = Some (AModule m).
Proof.
  intros Hrun Hn. unfold train_epoch in Hrun.
  destruct (get_module self "student_model") as [sm |]; [| discriminate].
  simpl in Hrun.
  destruct (get_module _ "teacher_model") as [tm |]; [| discriminate].
  simpl in Hrun.
  destruct (get_loader _ "train_dataloader") as [dl |]; [| discriminate].
  simpl in Hrun.
  destruct (get_int _ "gradient_accumulation_steps") as [n |]; [| discriminate].
  simpl in Hrun.
  destruct (get_optimizer _ "optimizer") as [o |]; [| discriminate].
  simpl in Hrun.
  destruct (get_scheduler_attr _ "scheduler") as [s |]; [| discriminate].
  simpl in Hrun.
  destruct (train_batches _ _ _ _ _) as [st |]; [| discriminate].
  injection Hrun as <-. split.
  - rewrite !lookup_insert_ne by discriminate. exact Hn.
  - eexists. rewrite !lookup_insert_ne by discriminate.
    apply lookup_insert_eq.
Qed.

(** The distillation loop never gets past its first evaluation: on a
    trainer without [num_labels], [train] returns only when there is no
    epoch to run, and when the first batch loop goes through it raises
    [AttributeError]. *)
Lemma train_stops_at_first_evaluate (self : gmap string attr)
    (storage : gmap string weights) (n : nat) :
  self !! "num_labels"%string = None ->
  get_int self "num_epochs" = Ok (S n) ->
  (forall r, train self storage <> Ok r)
  /\ (forall self', train_epoch self = Ok self' ->
        train self storage = Raise (AttributeError "num_labels")).
Proof.
  intros Hn Hepochs. unfold train. rewrite Hepochs. simpl.
  destruct (train_epoch self) as [self1 |] eqn:Hrun; simpl.
  - destruct (train_epoch_lacks_num_labels _ _ Hrun Hn) as (Hn1 & m & Hm).
    rewrite (evaluate_without_num_labels self1 m) by assumption. simpl.
    split; [discriminate | reflexivity].
  - split; [discriminate | intros; discriminate].
Qed.

End DistillationEvaluate.

(** ** The prediction distribution, had [evaluate] got to it *)

Section Distribution.

Import Torch OptimizedDistillationTrainer TallyReference.
Context `{Backend}.
Local Open Scope R_scope.

Lemma counted_S (n : nat) (counts : gmap nat nat) :
  counted (S n) counts
  = (counted n counts + default 0%nat (counts !! n))%nat.
Proof.
  unfold counted. rewrite seq_S, sum_list_with_app. simpl. lia.
Qed.

Lemma counted_insert_above (n k v : nat) (counts : gmap nat nat) :
  (n <= k)%nat -> counted n (<[k := v]> counts) = counted n counts.
Proof.
  induction n as [| n IH]; intros Hk; [reflexivity |].
  rewrite !counted_S, IH, lookup_insert_ne by lia. reflexivity.
Qed.

Lemma counted_increment (n k c : nat) (counts : gmap nat nat) :
  (k < n)%nat -> counts !! k = Some c ->
  counted n (<[k := (c + 1)%nat]> counts) = S (counted n counts).
Proof.
  induction n as [| n IH]; intros Hk Hc; [lia |].
  rewrite !counted_S. destruct (Nat.eq_dec k n) as [-> | Hne].
  - rewrite counted_insert_above, lookup_insert_eq, Hc by lia. simpl. lia.
  - rewrite IH, lookup_insert_ne by (auto; lia). lia.
Qed.

Lemma zero_counts_lookup (n i : nat) :
  zero_counts n !! i = if (i <? n)%nat then Some 0%nat else None.
Proof.
  unfold zero_counts. destruct (Nat.ltb_spec i n) as [Hlt | Hge].
  - apply elem_of_list_to_map.
    + rewrite map_map. simpl. rewrite map_id. apply NoDup_seq.
    + apply list_elem_of_fmap. exists i. split; [reflexivity |].
      apply elem_of_seq. lia.
  - apply not_elem_of_list_to_map. rewrite map_map. simpl. rewrite map_id.
    rewrite elem_of_seq. lia.
Qed.

Lemma zero_counts_keys (n : nat) : keys_below n (zero_counts n).
Proof.
  intros k [v Hk]. rewrite zero_counts_lookup in Hk.
  destruct (Nat.ltb_spec k n); [assumption | discriminate].
Qed.

Lemma zero_counts_counted (n : nat) : counted n (zero_counts n) = 0%nat.
Proof.
  unfold counted. assert (Hzero : forall l,
    Forall (fun i => (i < n)%nat) l ->
    sum_list_with (fun i => default 0%nat (zero_counts n !! i)) l = 0%nat).
  { induction 1 as [| i l Hi _ IH]; simpl; [reflexivity |].
    rewrite IH, zero_counts_lookup.
    destruct (Nat.ltb_spec i n); simpl; lia. }
  apply Hzero. apply Forall_forall. intros i Hi. apply elem_of_seq in Hi. lia.
Qed.

(** Each prediction adds one to the count of exactly one class. *)
Lemma tally_counted (n : nat) (predictions : list nat) :
  forall counts counts',
    keys_below n counts ->
    tally counts predictions = Ok counts' ->
    keys_below n counts'
    /\ counted n counts' = (counted n counts + length predictions)%nat.
Proof.
  induction predictions as [| pred rest IH]; intros counts counts' Hkeys Ht;
    simpl in Ht.
  - injection Ht as <-. split; [assumption | simpl; lia].
  - destruct (counts !! pred) as [c |] eqn:Hc; [| discriminate].
    apply IH in Ht as [Hkeys' Hcount].
    + split; [assumption |]. rewrite Hcount.
      rewrite (counted_increment n pred c) by (try apply Hkeys; eauto).
      simpl. lia.
    + intros k [v Hk]. destruct (Nat.eq_dec pred k) as [<- | Hne].
      * apply Hkeys. eauto.
      * rewrite lookup_insert_ne in Hk by assumption. apply Hkeys. eauto.
Qed.

#[local] Arguments true_div : simpl never.

Lemma true_div_Ok (a b : nat) (x : R) :
  true_div a b = Ok x -> b <> 0%nat /\ x = INR a / INR b.
Proof.
  unfold true_div. destruct (Nat.eqb_spec b 0); [discriminate |].
  intros [= <-]. auto.
Qed.

Lemma count_equal_length (predictions labels : list nat) (hits : nat) :
  count_equal predictions labels = Ok hits ->
  length predictions = length labels.
Proof.
  unfold count_equal. intros Hc.
  destruct (Tensor.zip_with _ predictions labels) as [bs |] eqn:Hz;
    [| discriminate].
  apply zip_with_Ok_length in Hz. tauto.
Qed.

(** Over the evaluation set, the counts grow by the number of samples. *)
Lemma evaluate_batches_counted (n : nat) (m : Module) (batches : list Batch) :
  forall counts tc ts counts' tc' ts',
    keys_below n counts ->
    evaluate_batches m counts tc ts batches = Ok (counts', tc', ts') ->
    keys_below n counts'
    /\ (counted n counts' + ts = counted n counts + ts')%nat.
Proof.
  induction batches as [| batch rest IH];
    intros counts tc ts counts' tc' ts' Hkeys Hev; simpl in Hev.
  - injection Hev as <- <- <-. auto.
  - destruct (call (current m) batch) as [outputs |]; [| discriminate].
    simpl in Hev.
    destruct (tally counts _) as [counts1 |] eqn:Ht; [| discriminate].
    simpl in Hev.
    destruct (count_equal _ _) as [hits |] eqn:Hc; [| discriminate].
    simpl in Hev.
    apply (tally_counted n) in Ht as [Hkeys1 Hcount]; [| assumption].
    apply count_equal_length in Hc.
    apply IH in Hev as [Hkeys' Hcount']; [| assumption].
    split; [assumption |]. lia.
Qed.

(** The percentages printed for the keys [l] add up to the share of the
    predictions counted for them. *)
Lemma distribution_sum (counts : gmap nat nat) (total_samples : nat)
    (l : list nat) (printed : list (string * nat * R)) :
  mapM (fun label_id =>
          match counts !! label_id with
          | None => Raise (KeyError label_id)
          | Some count =>
              ratio ← true_div count total_samples;
              match EMOTION_LABELS !! label_id with
              | None => Raise (KeyError label_id)
              | Some emotion => Ok (emotion, count, ratio * 100)
              end
          end) l = Ok printed ->
  Tensor.tsum (map snd printed)
  = INR (sum_list_with (fun i => default 0%nat (counts !! i)) l)
    / INR total_samples * 100.
Proof.
  revert printed. induction l as [| i l IH]; intros printed Hp; simpl in Hp.
  - injection Hp as <-. simpl. unfold Rdiv. ring.
  - destruct (counts !! i) as [c |] eqn:Hc; simpl in Hp; [| discriminate].
    destruct (true_div c total_samples) as [ratio |] eqn:Hratio;
      simpl in Hp; [| discriminate].
    apply true_div_Ok in Hratio as [_ ->].
    destruct (EMOTION_LABELS !! i) as [emotion |]; simpl in Hp;
      [| discriminate].
    destruct (mapM _ l) as [rest |] eqn:Hrest; simpl in Hp; [| discriminate].
    injection Hp as <-. simpl. rewrite (IH rest eq_refl), Hc, plus_INR.
    simpl. unfold Rdiv. ring.
Qed.

(** Whenever [evaluate] returns, which takes an attribute [num_labels],
    the percentages it prints add up to 100. *)
Lemma evaluate_percentages (self self' : gmap string attr) (accuracy : R)
    (printed : list (string * nat * R)) :
  evaluate self = Ok (self', accuracy, printed) ->
  Tensor.tsum (map snd printed) = 100.
Proof.
  unfold evaluate. intros Hev.
  destruct (get_module self "student_model") as [m |]; [| discriminate].
  simpl in Hev.
  destruct (get_int _ "num_labels") as [n |]; [| discriminate].
  simpl in Hev.
  destruct (get_loader _ "eval_dataloader") as [dl |]; [| discriminate].
  simpl in Hev.
  destruct (evaluate_batches _ _ _ _ _) as [[[counts tc] ts] |] eqn:Hb;
    [| discriminate].
  simpl in Hev.
  apply (evaluate_batches_counted n) in Hb as [_ Hcount];
    [| apply zero_counts_keys].
  rewrite zero_counts_counted in Hcount.
  destruct (true_div tc ts) as [acc |] eqn:Hacc; [| discriminate].
  simpl in Hev. apply true_div_Ok in Hacc as [Hts _].
  destruct (distribution n counts ts) as [lines |] eqn:Hd; [| discriminate].
  injection Hev as _ _ <-.
  unfold distribution in Hd. apply distribution_sum in Hd.
  rewrite Hd. fold (counted n counts).
  replace (counted n counts) with ts by lia.
  field. apply not_0_INR. exact Hts.
Qed.

End Distribution.

(** ** The properties on concrete inputs *)

Section Witnesses.

Import MambaForSequenceClassification Torch Reference LossReference.
Import LoopReference OptimizedDistillationTrainer.
Local Open Scope R_scope.

(** Two examples of three classes. *)
Lemma compute_loss_formula_witness :
  compute_loss [[1; 2; 3]; [0; 0; 0]] [[0; 1; 0]; [2; 0; 1]] [2%nat; 0%nat]
               default_temperature default_alpha
  = Ok (default_alpha * default_temperature ^ 2
        * soft_loss 2 3 [[1; 2; 3]; [0; 0; 0]] [[0; 1; 0]; [2; 0; 1]]
                    default_temperature
        + (1 - default_alpha)
          * hard_loss 2 3 [[1; 2; 3]; [0; 0; 0]] [2%nat; 0%nat]).
Proof.
  apply (compute_loss_formula _ _ _ _ _ 2 3).
  - split; [reflexivity | repeat constructor].
  - split; [reflexivity | repeat constructor].
  - reflexivity.
  - repeat constructor.
Defined.

Lemma compute_loss_alpha_extremes_witness :
  compute_loss [[1; 2; 3]; [0; 0; 0]] [[0; 1; 0]; [2; 0; 1]] [2%nat; 0%nat]
               default_temperature 1
  = Ok (default_temperature ^ 2
        * soft_loss 2 3 [[1; 2; 3]; [0; 0; 0]] [[0; 1; 0]; [2; 0; 1]]
                    default_temperature)
  /\ compute_loss [[1; 2; 3]; [0; 0; 0]] [[0; 1; 0]; [2; 0; 1]] [2%nat; 0%nat]
                  default_temperature 0
     = Ok (hard_loss 2 3 [[1; 2; 3]; [0; 0; 0]] [2%nat; 0%nat]).
Proof.
  destruct (compute_loss_alpha_extremes
              [[1; 2; 3]; [0; 0; 0]] [[0; 1; 0]; [2; 0; 1]] [2%nat; 0%nat]
              default_temperature 2 3) as (H1 & _ & H0 & _).
  - split; [reflexivity | repeat constructor].
  - split; [reflexivity | repeat constructor].
  - reflexivity.
  - repeat constructor.
  - split; assumption.
Defined.

Lemma init_freezes_all_but_last_two_witness :
  let ps := parameters (mamba (MambaForSequenceClassification.__init__
                                 Toy.base_model 2 "mean" Toy.new_projection
                                 (Toy.head (1, 2)))) in
  length ps = 4%nat
  /\ requires_grad (nth 1 ps {| pid := 0; requires_grad := true |}) = false
  /\ requires_grad (nth 2 ps {| pid := 0; requires_grad := false |}) = true.
Proof.
  destruct (init_freezes_all_but_last_two Toy.base_model 2 "mean"
              Toy.new_projection (Toy.head (1, 2))) as (Hlen & _ & Hflag).
  - simpl. repeat constructor.
  - split; [exact Hlen |].
    split; [exact (Hflag 1%nat _ eq_refl) | exact (Hflag 2%nat _ eq_refl)].
Defined.



Lemma teacher_optimizer_groups_witness :
  map lr (TeacherTrainer.parameter_groups Toy.student_model 5e-5 0.01)
  = [5e-5; 5e-5 * 0.1]
  /\ map params
         (param_groups
            (TeacherTrainer.optimizer
               (TeacherTrainer.__init__ Toy.student_model [Toy.batch]
                                        [Toy.batch] 10 "cpu" 5e-5 0.01)))
     = [ layer_parameters (Toy.head (1, 2))
         ++ layer_parameters Toy.new_projection;
         skipn 2 (parameters (mamba (current Toy.student_model))) ].
Proof.
  destruct (teacher_optimizer_groups Toy.base_model 2 "mean"
              Toy.new_projection (Toy.head (1, 2)) Toy.student_model
              [Toy.batch] [Toy.batch] 10 "cpu" 5e-5 0.01)
    as (Hlr & _ & Hparams & _).
  - reflexivity.
  - apply (bool_decide_unpack _). vm_compute. exact I.
  - split; [exact Hlr | exact Hparams].
Defined.


Lemma toy_teacher_accuracies :
  EarlyStoppingReference.accuracies 10 ToyTeacher.trainer = Ok ToyTeacher.accs.
Proof. reflexivity. Qed.

Lemma argmax_first : Tensor.argmax [1; 0] = 0%nat.
Proof.
  unfold Tensor.argmax, Tensor.argmax_from.
  destruct (Rlt_dec 1 0); [lra | reflexivity].
Qed.

Lemma argmax_second : Tensor.argmax [0; 1] = 1%nat.
Proof.
  unfold Tensor.argmax, Tensor.argmax_from.
  destruct (Rlt_dec 0 1); [reflexivity | lra].
Qed.

Lemma toy_teacher_first_five :
  firstn 5 ToyTeacher.accs = [0.5; 0.6; 0.55; 0.55; 0.55].
Proof.
  unfold ToyTeacher.accs.
  lazy -[Tensor.argmax List.filter Rlt_dec Rplus Rmult Rinv Ropp Rminus
         Rdiv Rmax exp ln INR IZR].
  rewrite !argmax_first, !argmax_second.
  lazy -[Rlt_dec Rplus Rmult Rinv Ropp Rminus Rdiv Rmax exp ln INR IZR].
  repeat (apply f_equal2; [simpl; lra |]). reflexivity.
Qed.

Lemma teacher_early_stopping_witness :
  exists self' storage' p,
    TeacherTrainer.train_loop 10 ToyTeacher.trainer ∅
                              EarlyStoppingReference.initial_progress
    = Ok (self', storage', p)
    /\ TeacherTrainer.epochs_run p = 5%nat
    /\ TeacherTrainer.early_stopping_counter p = 3%nat.
Proof.
  destruct (teacher_early_stopping ToyTeacher.trainer ∅ ToyTeacher.accs)
    as (_ & self' & storage' & p & Hrun & _ & _ & _ & _ & _ & _ & Hfive).
  - exact toy_teacher_accuracies.
  - exists self', storage', p. split; [exact Hrun |].
    apply Hfive. exact toy_teacher_first_five.
Defined.

(** The first batch loop of a freshly built trainer. *)
Lemma train_epoch_init `{Backend} (teacher_model student_model : Module)
    (train_dataloader eval_dataloader : list Batch) (num_epochs : nat)
    (device : string) (learning_rate decay : R) (steps : nat)
    (st : TrainState) :
  let so := optimizer_and_scheduler student_model train_dataloader num_epochs
                                    learning_rate decay in
  train_batches (set_training false teacher_model) steps
    {| student := set_training true student_model; optimizer := so.2;
       scheduler := so.1; total_loss := 0 |} 0 train_dataloader = Ok st ->
  exists self1,
    train_epoch (__init__ teacher_model student_model train_dataloader
                          eval_dataloader num_epochs device learning_rate
                          decay steps) = Ok self1
    /\ self1 !! "student_model"%string = Some (AModule (student st)).
Proof.
  intros so Hrun. subst so. unfold __init__.
  destruct (optimizer_and_scheduler _ _ _ _ _) as [s o]. simpl in Hrun.
  unfold train_epoch, get_module, get_loader, get_int, get_optimizer,
    get_scheduler_attr, getattr.
  simplify_map_eq. rewrite Hrun. simpl.
  eexists. split; [reflexivity |]. simplify_map_eq. reflexivity.
Qed.

Lemma init_num_epochs `{Backend} (teacher_model student_model : Module)
    (train_dataloader eval_dataloader : list Batch) (num_epochs : nat)
    (device : string) (learning_rate decay : R) (steps : nat) :
  get_int (__init__ teacher_model student_model train_dataloader
                    eval_dataloader num_epochs device learning_rate decay
                    steps) "num_epochs" = Ok num_epochs.
Proof.
  unfold __init__. destruct (optimizer_and_scheduler _ _ _ _ _) as [s o].
  unfold get_int, getattr.
  rewrite !lookup_insert_ne by discriminate. rewrite lookup_insert_eq.
  reflexivity.
Qed.

(** The batch loop of the toy trainer's first epoch goes through and ends
    with a gradient in place. *)
Lemma toy_first_epoch :
  let so := optimizer_and_scheduler Toy.student_model
              [Toy.batch; Toy.batch; Toy.batch] 2 1e-4 0.01 in
  exists st,
    train_batches (set_training false Toy.teacher_model) 2
      {| student := set_training true Toy.student_model; optimizer := so.2;
         scheduler := so.1; total_loss := 0 |} 0
      [Toy.batch; Toy.batch; Toy.batch] = Ok st
    /\ is_Some (grad (student st)).
Proof.
  eexists. split.
  - lazy -[Rplus Rmult Rinv Ropp Rminus Rdiv Rmax exp ln INR IZR].
    reflexivity.
  - simpl. eauto.
Qed.

(** C10, on the code. With three batches per epoch, accumulation over two
    steps and two epochs, the batch loop of the first epoch goes through
    and leaves the gradient of the third batch in place, but [train] then
    raises [AttributeError] in [evaluate]: no second epoch is run, and the
    gradient left over reaches no update. *)
Lemma distillation_train_raises :
  (exists self1 m,
      train_epoch Toy.distillation_trainer = Ok self1
      /\ self1 !! "student_model"%string = Some (AModule m)
      /\ is_Some (grad m))
  /\ train Toy.distillation_trainer ∅ = Raise (AttributeError "num_labels").
Proof.
  destruct toy_first_epoch as (st & Hbatches & Hgrad).
  destruct (train_epoch_init Toy.teacher_model Toy.student_model
              [Toy.batch; Toy.batch; Toy.batch] [Toy.batch] 2 "cpu"
              1e-4 0.01 2 st Hbatches) as (self1 & Hrun & Hstudent).
  split; [exists self1, (student st); repeat split; assumption |].
  destruct (train_stops_at_first_evaluate Toy.distillation_trainer ∅ 1)
    as [_ Hraise].
  - unfold Toy.distillation_trainer. apply init_lacks_num_labels.
  - unfold Toy.distillation_trainer. apply init_num_epochs.
  - eapply Hraise. exact Hrun.
Qed.

End Witnesses.

(** * Further properties *)

(** ** The checkpoint of the teacher loop *)

Section TeacherCheckpoint.

Import Torch TeacherTrainer EarlyStoppingReference CheckpointReference.
Context `{Backend}.
Local Open Scope R_scope.

#[local] Arguments evaluate : simpl never.
#[local] Arguments train_batches : simpl never.
#[local] Arguments Nat.leb : simpl never.

Lemma records_accuracies (n : nat) :
  forall (self : t) (recs : list (R * weights)),
    records n self = Ok recs -> accuracies n self = Ok (map fst recs).
Proof.
  induction n as [| n IH]; intros self recs Hrec; simpl in Hrec |- *.
  - injection Hrec as <-. reflexivity.
  - destruct (train_batches _ _ _) as [[self1 tl] |]; [| discriminate].
    simpl in Hrec |- *.
    destruct (evaluate self1) as [[self2 a] |]; [| discriminate].
    simpl in Hrec |- *.
    destruct (records n self2) as [rest |] eqn:Hrest; [| discriminate].
    injection Hrec as <-. rewrite (IH _ _ Hrest). reflexivity.
Qed.



Lemma running_best_ge (accs : list R) (b : R) : b <= running_best accs b.
Proof.
  unfold running_best. revert b. induction accs as [| a accs IH]; intros b;
    simpl; [lra |].
  specialize (IH (Rmax b a)). pose proof (Rmax_l b a). lra.
Qed.

Lemma running_best_upper (accs : list R) (b : R) :
  Forall (fun a => a <= running_best accs b) accs.
Proof.
  unfold running_best. revert b. induction accs as [| a accs IH]; intros b;
    simpl; constructor.
  - pose proof (running_best_ge accs (Rmax b a)) as Hge.
    unfold running_best in Hge. pose proof (Rmax_r b a). lra.
  - apply IH.
Qed.

Lemma running_best_attained (accs : list R) (b : R) :
  running_best accs b = b \/ In (running_best accs b) accs.
Proof.
  unfold running_best. revert b. induction accs as [| a accs IH]; intros b;
    simpl; [auto |].
  destruct (IH (Rmax b a)) as [Heq | Hin]; [| auto].
  rewrite Heq. unfold Rmax. destruct (Rle_dec b a); auto.
Qed.


(** X2. When every epoch trains and evaluates, the teacher loop runs at
    least [min 3 num_epochs] and at most [num_epochs] epochs: early
    stopping never strikes before the third epoch. The accuracy it returns
    is not negative, bounds the accuracy of every epoch run, and is 0 or
    the accuracy of one of them. *)
Theorem teacher_epochs_and_best (self : t) (storage : gmap string weights)
    (accs : list R)
    (Hacc : accuracies (num_epochs self) self = Ok accs) :
  exists self' storage' p,
    train_loop (num_epochs self) self storage initial_progress
    = Ok (self', storage', p)
    /\ train self storage = Ok (self', storage', best_eval_acc p)
    /\ (Nat.min 3 (num_epochs self) <= epochs_run p <= num_epochs self)%nat
    /\ 0 <= best_eval_acc p
    /\ Forall (fun a => a <= best_eval_acc p) (firstn (epochs_run p) accs)
    /\ (best_eval_acc p = 0
        \/ In (best_eval_acc p) (firstn (epochs_run p) accs)).
Proof.
  destruct (train_loop_checks _ self storage initial_progress accs Hacc)
    as (self' & storage' & Hrun).
  exists self', storage', (checks accs initial_progress).
  pose proof (accuracies_length _ _ _ Hacc) as Hlen.
  destruct (checks_stops_when_stalled accs) as (H1 & H2 & _ & H4 & _).
  rewrite Hlen in H1, H4.
  split; [exact Hrun |]. split.
  { unfold train. fold initial_progress. rewrite Hrun. reflexivity. }
  split.
  { split; [| exact H1].
    destruct (Nat.lt_ge_cases (epochs_run (checks accs initial_progress))
                              (num_epochs self)) as [Hlt | Hge]; [| lia].
    destruct (H4 Hlt) as [[? ?] _]. lia. }
  rewrite H2. split; [apply running_best_ge |].
  split; [apply running_best_upper | apply running_best_attained].
Qed.

End TeacherCheckpoint.

(** ** Evaluation and scheduling in the teacher loop *)

Section TeacherEvaluate.

Import Torch TeacherTrainer.
Context `{Backend}.
Local Open Scope R_scope.

#[local] Arguments true_div : simpl never.

Lemma count_equal_le (predictions labels : list nat) (hits : nat) :
  count_equal predictions labels = Ok hits -> (hits <= length labels)%nat.
Proof.
  unfold count_equal. intros Hc.
  destruct (Tensor.zip_with _ predictions labels) as [bs |] eqn:Hz;
    [| discriminate].
  apply zip_with_Ok_length in Hz as [Hlen Hbs].
  simpl in Hc. injection Hc as <-.
  rewrite <- Hlen, <- Hbs. clear. induction bs as [| [] bs IH]; simpl; lia.
Qed.

Lemma teacher_evaluate_batches_le (m : Module) (batches : list Batch) :
  forall tc ts tc' ts',
    (tc <= ts)%nat ->
    evaluate_batches m tc ts batches = Ok (tc', ts') ->
    (tc' <= ts')%nat.
Proof.
  induction batches as [| batch rest IH]; intros tc ts tc' ts' Hle Hev;
    simpl in Hev.
  - injection Hev as <- <-. exact Hle.
  - destruct (call (current m) batch) as [outputs |]; [| discriminate].
    simpl in Hev.
    destruct (count_equal _ _) as [hits |] eqn:Hc; [| discriminate].
    simpl in Hev. apply count_equal_le in Hc.
    eapply IH; [| exact Hev]. lia.
Qed.

(** [evaluate] changes the mode of the model and nothing else. *)
Lemma teacher_evaluate_effect (self self' : t) (acc : R) :
  evaluate self = Ok (self', acc) ->
  self' = with_model self (set_training false (model self)).
Proof.
  unfold evaluate. intros Heval.
  destruct (evaluate_batches _ _ _ _) as [[tc ts] |]; [| discriminate].
  simpl in Heval.
  destruct (true_div tc ts) as [a |]; [| discriminate].
  simpl in Heval. injection Heval as <- _. reflexivity.
Qed.

(** X3. Whenever the teacher's [evaluate] returns, the accuracy lies
    between 0 and 1, and the trainer it leaves is the one it was given with
    the model switched to evaluation mode: weights, gradients, optimizer,
    scheduler and data loaders are untouched. *)
Theorem teacher_evaluate_accuracy (self self' : t) (acc : R)
    (Heval : evaluate self = Ok (self', acc)) :
  0 <= acc <= 1
  /\ self' = with_model self (set_training false (model self)).
Proof.
  split; [| exact (teacher_evaluate_effect _ _ _ Heval)].
  unfold evaluate in Heval.
  destruct (evaluate_batches _ _ _ _) as [[tc ts] |] eqn:Hb; [| discriminate].
  simpl in Heval.
  destruct (true_div tc ts) as [a |] eqn:Ha; [| discriminate].
  simpl in Heval. injection Heval as _ <-.
  apply teacher_evaluate_batches_le in Hb; [| lia].
  apply true_div_Ok in Ha as [Hts ->].
  assert (0 < INR ts) by (apply lt_0_INR; lia).
  assert (INR tc <= INR ts) by (apply le_INR; exact Hb).
  pose proof (pos_INR tc).
  split.
  - apply Rmult_le_pos; [assumption |]. left. apply Rinv_0_lt_compat.
    assumption.
  - apply (Rmult_le_reg_r (INR ts)); [assumption |].
    unfold Rdiv. rewrite Rmult_assoc, Rinv_l by lra. lra.
Qed.

(** What a pass of the batch loop's body leaves: the scheduler one step
    further, the gradients zeroed, the data loaders, the epoch count and
    the network as they were. *)
Lemma teacher_train_step_effect (self self' : t) (tl tl' : R) (batch : Batch) :
  train_step self tl batch = Ok (self', tl') ->
  last_epoch (scheduler self') = S (last_epoch (scheduler self))
  /\ num_training_steps (scheduler self') = num_training_steps (scheduler self)
  /\ grad (model self') = None
  /\ network (model self') = network (model self)
  /\ training (model self') = training (model self)
  /\ train_dataloader self' = train_dataloader self
  /\ eval_dataloader self' = eval_dataloader self
  /\ num_epochs self' = num_epochs self.
Proof.
  unfold train_step, optimizer_step, scheduler_step. intros Hstep.
  destruct (loss_at _ _ _) as [l |]; [| discriminate]. simpl in Hstep.
  destruct (adamw_step _ _ _ _) as [s' w]. injection Hstep as <- <-.
  simpl. repeat split.
Qed.

Lemma teacher_train_batches_effect (batches : list Batch) :
  forall (self self' : t) (tl tl' : R),
    train_batches self tl batches = Ok (self', tl') ->
    last_epoch (scheduler self')
    = (last_epoch (scheduler self) + length batches)%nat
    /\ num_training_steps (scheduler self')
       = num_training_steps (scheduler self)
    /\ (grad (model self) = None \/ batches <> [] ->
          grad (model self') = None)
    /\ network (model self') = network (model self)
    /\ training (model self') = training (model self)
    /\ train_dataloader self' = train_dataloader self
    /\ eval_dataloader self' = eval_dataloader self
    /\ num_epochs self' = num_epochs self.
Proof.
  induction batches as [| batch rest IH]; intros self self' tl tl' Hrun;
    simpl in Hrun.
  - injection Hrun as <- <-. repeat split; auto. intros [? | []]; auto.
  - destruct (train_step self tl batch) as [[self1 tl1] |] eqn:Hstep;
      [| discriminate].
    simpl in Hrun.
    apply teacher_train_step_effect in Hstep
      as (E1 & E2 & E3 & E4 & E5 & E6 & E7 & E8).
    apply IH in Hrun as (F1 & F2 & F3 & F4 & F5 & F6 & F7 & F8).
    rewrite F1, F2, F4, F5, F6, F7, F8, E1, E2, E4, E5, E6, E7, E8.
    repeat split; try reflexivity; try (simpl; lia).
    intros _. apply F3. left. exact E3.
Qed.

(** X4. With an empty evaluation loader the teacher's [evaluate] raises
    [ZeroDivisionError], and so does [train] once the batch loop of its
    first epoch has gone through: a whole epoch is trained before the run
    fails, and nothing is saved. *)
Theorem teacher_train_without_eval_data (self self1 : t)
    (storage : gmap string weights) (tl : R)
    (Hempty : eval_dataloader self = [])
    (Hepochs : num_epochs self <> 0%nat)
    (Hbatches : train_batches (with_model self (set_training true (model self)))
                              0 (train_dataloader self) = Ok (self1, tl)) :
  evaluate self = Raise ZeroDivisionError
  /\ evaluate self1 = Raise ZeroDivisionError
  /\ train self storage = Raise ZeroDivisionError.
Proof.
  assert (Hev : forall s : t, eval_dataloader s = [] ->
                              evaluate s = Raise ZeroDivisionError).
  { intros s Hs. unfold evaluate. simpl. rewrite Hs. reflexivity. }
  assert (Hself1 : eval_dataloader self1 = []).
  { apply teacher_train_batches_effect in Hbatches
      as (_ & _ & _ & _ & _ & _ & E & _).
    rewrite E. exact Hempty. }
  split; [apply Hev; exact Hempty |].
  split; [apply Hev; exact Hself1 |].
  unfold train. destruct (num_epochs self) as [| n]; [contradiction |].
  cbn [train_loop]. cbn [train_dataloader with_model] in Hbatches |- *.
  rewrite Hbatches. cbn [mbind result_bind]. rewrite (Hev _ Hself1).
  reflexivity.
Qed.

(** The scheduler over the epochs of the loop: one step per batch of every
    epoch run. *)
Lemma teacher_train_loop_scheduler (n : nat) :
  forall (self self' : t) (storage storage' : gmap string weights)
         (p p' : Progress),
    train_loop n self storage p = Ok (self', storage', p') ->
    (epochs_run p <= epochs_run p' <= epochs_run p + n)%nat
    /\ last_epoch (scheduler self')
       = (last_epoch (scheduler self)
          + (epochs_run p' - epochs_run p) * length (train_dataloader self))%nat
    /\ num_training_steps (scheduler self')
       = num_training_steps (scheduler self)
    /\ (n <> 0%nat ->
        (early_stopping_patience <= early_stopping_counter p')%nat
        \/ epochs_run p' = (epochs_run p + n)%nat).
Proof.
  induction n as [| n IH]; intros self self' storage storage' p p' Hrun.
  - simpl in Hrun. injection Hrun as <- <- <-.
    split; [lia |]. split; [lia |]. split; [reflexivity |]. intros []. reflexivity.
  - cbn [train_loop] in Hrun.
    destruct (train_batches _ _ _) as [[self1 tl] |] eqn:Hb; [| discriminate].
    cbn [mbind result_bind] in Hrun.
    destruct (evaluate self1) as [[self2 a] |] eqn:He; [| discriminate].
    cbn [mbind result_bind] in Hrun.
    apply teacher_train_batches_effect in Hb
      as (B1 & B2 & _ & _ & _ & B6 & _ & _).
    apply teacher_evaluate_effect in He as ->.
    cbn [with_model scheduler train_dataloader model] in *.
    pose proof (early_stopping_check_progress a
                  (with_model self1 (set_training false (model self1)))
                  storage p) as Hp.
    destruct (early_stopping_check _ _ _ _) as [storage1 p1].
    cbn [snd] in Hp. subst p1.
    pose proof (next_progress_epochs a p) as Hep.
    destruct (_ <=? _)%nat eqn:Hstop.
    + injection Hrun as <- <- <-. cbn [scheduler with_model].
      rewrite Hep, B1, B2.
      split; [lia |]. split; [f_equal; nia |]. split; [reflexivity |].
      intros _. left. apply Nat.leb_le. exact Hstop.
    + apply IH in Hrun as (I1 & I2 & I3 & I4).
      cbn [scheduler with_model train_dataloader] in I2, I3.
      rewrite Hep in I1, I2, I4. rewrite I2, I3, B1, B2, B6.
      split; [lia |]. split; [nia |]. split; [reflexivity |].
      intros _. destruct n as [| n'].
      * right. lia.
      * destruct I4 as [? | ?]; [discriminate | auto | right; lia].
Qed.

(** X5. In a run of [train] on a trainer as [__init__] builds it, the
    scheduler is stepped once per batch of every epoch run, and so never
    beyond the [len(train_dataloader) * num_epochs] steps its schedule was
    laid out for; it reaches that number only if all the epochs are run
    (or there is no batch). *)
Theorem teacher_scheduler_steps (m : Module)
    (train_dataloader eval_dataloader : list Batch) (n : nat) (dev : string)
    (learning_rate decay : R) (storage storage' : gmap string weights)
    (self' : t) (p : Progress)
    (Hrun : train_loop n (__init__ m train_dataloader eval_dataloader n dev
                                   learning_rate decay)
                       storage
                       {| best_eval_acc := 0; early_stopping_counter := 0;
                          epochs_run := 0 |}
            = Ok (self', storage', p)) :
  last_epoch (scheduler self') = (epochs_run p * length train_dataloader)%nat
  /\ num_training_steps (scheduler self') = (length train_dataloader * n)%nat
  /\ (last_epoch (scheduler self') <= num_training_steps (scheduler self'))%nat
  /\ (last_epoch (scheduler self') = num_training_steps (scheduler self')
      -> epochs_run p = n \/ train_dataloader = []).
Proof.
  apply teacher_train_loop_scheduler in Hrun as (H1 & H2 & H3 & _).
  cbn in H1, H2, H3. rewrite Nat.sub_0_r in H2.
  rewrite H2, H3.
  split; [reflexivity |]. split; [reflexivity |]. split; [nia |].
  intros Heq. destruct train_dataloader as [| b bs]; [auto |]. left.
  simpl in Heq. nia.
Qed.

End TeacherEvaluate.

(** ** The teacher phase of the driver script *)

Section TeacherPhase.

Import Torch TeacherTrainer EarlyStoppingReference CheckpointReference Main.
Context `{Backend}.
Local Open Scope R_scope.

#[local] Arguments evaluate : simpl never.
#[local] Arguments train_batches : simpl never.
#[local] Arguments Nat.leb : simpl never.



End TeacherPhase.

(** ** The teacher loop on the toy teacher *)

Section TeacherWitnesses.

Import Torch TeacherTrainer EarlyStoppingReference CheckpointReference Main.
Local Open Scope R_scope.

Tactic Notation "run_toy" :=
  lazy -[Tensor.argmax List.filter Rlt_dec Rplus Rmult Rinv Ropp Rminus
         Rdiv Rmax exp ln INR IZR].
Tactic Notation "run_toy" "in" hyp(H) :=
  lazy -[Tensor.argmax List.filter Rlt_dec Rplus Rmult Rinv Ropp Rminus
         Rdiv Rmax exp ln INR IZR] in H.





Lemma teacher_epochs_and_best_witness :
  exists self' storage' p,
    train_loop 10 ToyTeacher.trainer ∅ initial_progress
    = Ok (self', storage', p)
    /\ (3 <= epochs_run p <= 10)%nat
    /\ 0 <= best_eval_acc p.
Proof.
  destruct (teacher_epochs_and_best ToyTeacher.trainer ∅ ToyTeacher.accs
              toy_teacher_accuracies)
    as (self' & storage' & p & Hrun & _ & Hepochs & Hbest & _).
  exists self', storage', p. split; [exact Hrun |].
  split; [exact Hepochs | exact Hbest].
Defined.

Lemma toy_teacher_evaluate :
  exists r, evaluate ToyTeacher.trainer = Ok r.
Proof. eexists. run_toy. reflexivity. Qed.

Lemma teacher_evaluate_accuracy_witness :
  exists self' acc,
    evaluate ToyTeacher.trainer = Ok (self', acc) /\ 0 <= acc <= 1.
Proof.
  destruct toy_teacher_evaluate as ([self' acc] & Heval).
  exists self', acc. split; [exact Heval |].
  apply (teacher_evaluate_accuracy ToyTeacher.trainer self' acc Heval).
Defined.

Lemma toy_teacher_batches :
  let self := TeacherTrainer.__init__ ToyTeacher.model [ToyTeacher.examples]
                                      [] 10 "cpu" 5e-5 0.01 in
  exists r,
    train_batches (with_model self (set_training true (model self)))
                  0 (train_dataloader self) = Ok r.
Proof. eexists. run_toy. reflexivity. Qed.

Lemma teacher_train_without_eval_data_witness :
  train (TeacherTrainer.__init__ ToyTeacher.model [ToyTeacher.examples] []
                                 10 "cpu" 5e-5 0.01) ∅
  = Raise ZeroDivisionError.
Proof.
  destruct toy_teacher_batches as ([self1 tl] & Hbatches).
  apply (teacher_train_without_eval_data
           (TeacherTrainer.__init__ ToyTeacher.model [ToyTeacher.examples] []
                                    10 "cpu" 5e-5 0.01) self1 ∅ tl).
  - reflexivity.
  - discriminate.
  - exact Hbatches.
Defined.

Lemma teacher_scheduler_steps_witness :
  exists self' storage' p,
    train_loop 10 ToyTeacher.trainer ∅ initial_progress
    = Ok (self', storage', p)
    /\ last_epoch (scheduler self') = (epochs_run p * 1)%nat
    /\ (last_epoch (scheduler self') <= num_training_steps (scheduler self'))%nat.
Proof.
  destruct (train_loop_checks 10 ToyTeacher.trainer ∅ initial_progress
              ToyTeacher.accs toy_teacher_accuracies)
    as (self' & storage' & Hrun).
  exists self', storage', (checks ToyTeacher.accs initial_progress).
  split; [exact Hrun |].
  destruct (teacher_scheduler_steps ToyTeacher.model [ToyTeacher.examples]
              [ToyTeacher.examples] 10 "cpu" 5e-5 0.01 ∅ storage' self'
              (checks ToyTeacher.accs initial_progress) Hrun)
    as (H1 & _ & H3 & _).
  split; [exact H1 | exact H3].
Defined.


End TeacherWitnesses.

(** ** The batch loop of the distillation trainer *)

Section DistillationLoop.

Import MambaForSequenceClassification Torch LoopReference.
Import OptimizedDistillationTrainer.
Context `{Backend}.
Local Open Scope R_scope.

Lemma optimizer_update_scheduler (st : TrainState) :
  last_epoch (scheduler (optimizer_update st)) = S (last_epoch (scheduler st))
  /\ num_training_steps (scheduler (optimizer_update st))
     = num_training_steps (scheduler st)
  /\ num_warmup_steps (scheduler (optimizer_update st))
     = num_warmup_steps (scheduler st)
  /\ base_lrs (scheduler (optimizer_update st)) = base_lrs (scheduler st).
Proof.
  unfold optimizer_update, scheduler_step.
  destruct (optimizer_step _ _) as [o m]. simpl. auto.
Qed.

Lemma div_succ (step n : nat) :
  n <> 0%nat ->
  (S step / n = step / n + (if (S step mod n =? 0) then 1 else 0))%nat.
Proof.
  intros Hn.
  pose proof (Nat.div_mod_eq step n) as Hs.
  pose proof (Nat.mod_upper_bound step n Hn) as Hr.
  destruct (Nat.eq_dec (S (step mod n)) n) as [Heq | Hne].
  - assert (Hmod : (S step mod n = 0)%nat).
    { symmetry. apply (Nat.mod_unique _ _ (S (step / n))); nia. }
    rewrite Hmod. simpl.
    symmetry. apply (Nat.div_unique _ _ _ 0%nat); nia.
  - assert (Hmod : (S step mod n = S (step mod n))%nat).
    { symmetry. apply (Nat.mod_unique _ _ (step / n)); nia. }
    rewrite Hmod. simpl. rewrite Nat.add_0_r.
    symmetry. apply (Nat.div_unique _ _ _ (S (step mod n))); nia.
Qed.

(** What a pass of the loop body does to the scheduler and to the
    running loss. *)
Lemma distillation_train_step_effect (teacher : Module) (n : nat)
    (st st' : TrainState) (step : nat) (batch : Batch) :
  train_step teacher n st step batch = Ok st' ->
  exists loss,
    batch_loss teacher (student st) batch = Ok loss
    /\ n <> 0%nat
    /\ total_loss st' = total_loss st + item loss
    /\ (last_epoch (scheduler st') + step / n
        = last_epoch (scheduler st) + S step / n)%nat
    /\ num_training_steps (scheduler st') = num_training_steps (scheduler st)
    /\ network (student st') = network (student st)
    /\ training (student st') = training (student st)
    /\ num_warmup_steps (scheduler st') = num_warmup_steps (scheduler st)
    /\ base_lrs (scheduler st') = base_lrs (scheduler st).
Proof.
  intros Hstep.
  destruct (train_step_gating teacher n st st' step batch Hstep)
    as (loss & Hloss & Hn & Hkeep & Hupd).
  exists loss. split; [exact Hloss |]. split; [exact Hn |].
  assert (Htotal : total_loss st' = total_loss st + item loss).
  { unfold train_step in Hstep. rewrite Hloss in Hstep. simpl in Hstep.
    destruct (is_update_step step n) as [[|] |]; [| | discriminate];
      simpl in Hstep; injection Hstep as <-; simpl.
    - unfold optimizer_update. destruct (optimizer_step _ _) as [o m].
      simpl. field. apply not_0_INR. exact Hn.
    - field. apply not_0_INR. exact Hn. }
  split; [exact Htotal |].
  rewrite (div_succ step n Hn). replace (S step) with (step + 1)%nat by lia.
  destruct (Nat.eqb_spec ((step + 1) mod n) 0) as [Hmod | Hmod].
  - destruct (Hupd Hmod) as (Hm & _ & Hs & _). rewrite Hs, Hm.
    destruct (optimizer_update_scheduler
                (accumulate (scalar_div loss (INR n)) st))
      as (E1 & E2 & E3 & E4).
    rewrite E1, E2, E3, E4. simpl. split; [lia |]. split; [reflexivity |].
    unfold optimizer_update. destruct (optimizer_step _ _) as [o m] eqn:Ho.
    simpl. unfold optimizer_step in Ho. simpl in Ho.
    destruct (adamw_step _ _ _ _) as [s' w]. injection Ho as <- <-.
    simpl. auto.
  - destruct (Hkeep Hmod) as (_ & _ & Hs & _). rewrite Hs.
    split; [lia |]. split; [reflexivity |].
    unfold train_step in Hstep. rewrite Hloss in Hstep. simpl in Hstep.
    rewrite is_update_step_false in Hstep by assumption.
    simpl in Hstep. injection Hstep as <-. simpl. auto.
Qed.

(** X7. Every pass of the distillation loop's body that returns adds the
    loss of its batch, undivided, to the running loss: the division by
    [gradient_accumulation_steps] is undone before the sum. With
    [gradient_accumulation_steps = 0] no pass returns: once the forward
    passes and the loss have gone through, the body raises
    [ZeroDivisionError] on the step test. *)
Theorem distillation_step_loss_and_zero_steps (teacher : Module) (n : nat)
    (st : TrainState) (step : nat) (batch : Batch) (loss : Scalar)
    (Hloss : batch_loss teacher (student st) batch = Ok loss) :
  (n = 0%nat ->
     train_step teacher n st step batch = Raise ZeroDivisionError)
  /\ (n <> 0%nat ->
        exists st',
          train_step teacher n st step batch = Ok st'
          /\ total_loss st' = total_loss st + item loss).
Proof.
  split.
  - intros ->. unfold train_step. rewrite Hloss. reflexivity.
  - intros Hn. unfold train_step. rewrite Hloss. cbn [mbind result_bind].
    unfold is_update_step. destruct (Nat.eqb_spec n 0); [contradiction |].
    cbn [mbind result_bind]. eexists. split; [reflexivity |].
    destruct (Nat.eqb _ 0); simpl.
    + unfold optimizer_update. destruct (optimizer_step _ _) as [o m].
      simpl. field. apply not_0_INR. exact Hn.
    + field. apply not_0_INR. exact Hn.
Qed.

Lemma distillation_train_batches_scheduler (teacher : Module) (n : nat)
    (batches : list Batch) :
  forall (st st' : TrainState) (step : nat),
    train_batches teacher n st step batches = Ok st' ->
    (last_epoch (scheduler st') + step / n
     = last_epoch (scheduler st) + (step + length batches) / n)%nat
    /\ num_training_steps (scheduler st') = num_training_steps (scheduler st)
    /\ network (student st') = network (student st)
    /\ training (student st') = training (student st)
    /\ num_warmup_steps (scheduler st') = num_warmup_steps (scheduler st)
    /\ base_lrs (scheduler st') = base_lrs (scheduler st).
Proof.
  induction batches as [| batch rest IH]; intros st st' step Hrun;
    simpl in Hrun.
  - injection Hrun as <-. rewrite Nat.add_0_r. repeat split.
  - destruct (train_step teacher n st step batch) as [st1 |] eqn:Hstep;
      [| discriminate].
    simpl in Hrun.
    apply distillation_train_step_effect in Hstep
      as (loss & _ & _ & _ & E1 & E2 & E3 & E4 & E5 & E6).
    apply IH in Hrun as (F1 & F2 & F3 & F4 & F5 & F6).
    rewrite F2, F3, F4, F5, F6, E2, E3, E4, E5, E6.
    replace (step + length (batch :: rest))%nat
      with (S step + length rest)%nat by (simpl; lia).
    split; [lia | repeat split].
Qed.

(** X8. Over the batch loop of one epoch the scheduler of the distillation
    trainer is stepped once per full window of
    [gradient_accumulation_steps] batches: [len // N] times for [len]
    batches, not [len] times. *)
Theorem distillation_scheduler_steps (teacher : Module) (n : nat)
    (st st' : TrainState) (batches : list Batch)
    (Hrun : train_batches teacher n st 0 batches = Ok st') :
  last_epoch (scheduler st')
  = (last_epoch (scheduler st) + length batches / n)%nat
  /\ num_training_steps (scheduler st') = num_training_steps (scheduler st).
Proof.
  apply distillation_train_batches_scheduler in Hrun as (H1 & H2 & _).
  split; [| exact H2].
  rewrite Nat.Div0.div_0_l in H1. simpl in H1. lia.
Qed.

End DistillationLoop.

(** ** An epoch of the distillation trainer *)

Section DistillationEpoch.

Import MambaForSequenceClassification Torch LoopReference.
Import OptimizedDistillationTrainer.
Context `{Backend}.
Local Open Scope R_scope.

(** The reads and the writes of the training part of an epoch. *)
Lemma train_epoch_inv (self self' : gmap string attr) :
  train_epoch self = Ok self' ->
  exists sm tm dl n o s st,
    self !! "student_model"%string = Some (AModule sm)
    /\ self !! "teacher_model"%string = Some (AModule tm)
    /\ self !! "train_dataloader"%string = Some (ALoader dl)
    /\ self !! "gradient_accumulation_steps"%string = Some (AInt n)
    /\ self !! "optimizer"%string = Some (AOptimizer o)
    /\ self !! "scheduler"%string = Some (AScheduler s)
    /\ train_batches (set_training false tm) n
         {| student := set_training true sm; optimizer := o; scheduler := s;
            total_loss := 0 |} 0 dl = Ok st
    /\ self'
       = <["scheduler" := AScheduler (scheduler st)]>
           (<["optimizer" := AOptimizer (optimizer st)]>
              (<["student_model" := AModule (student st)]>
                 (<["teacher_model" := AModule (set_training false tm)]>
                    (<["student_model" := AModule (set_training true sm)]>
                       self)))).
Proof.
  intros Hrun. unfold train_epoch, get_module, get_loader, get_int,
    get_optimizer, get_scheduler_attr, getattr in Hrun.
  destruct (self !! "student_model"%string) as [[sm | | | | |] |] eqn:Hsm;
    try discriminate.
  cbn [mbind result_bind] in Hrun.
  rewrite lookup_insert_ne in Hrun by discriminate.
  destruct (self !! "teacher_model"%string) as [[tm | | | | |] |] eqn:Htm;
    try discriminate.
  cbn [mbind result_bind] in Hrun.
  rewrite !lookup_insert_ne in Hrun by discriminate.
  destruct (self !! "train_dataloader"%string) as [[| dl | | | |] |] eqn:Hdl;
    try discriminate.
  cbn [mbind result_bind] in Hrun.
  destruct (self !! "gradient_accumulation_steps"%string)
    as [[| | n | | |] |] eqn:Hn; try discriminate.
  cbn [mbind result_bind] in Hrun.
  destruct (self !! "optimizer"%string) as [[| | | | o |] |] eqn:Ho;
    try discriminate.
  cbn [mbind result_bind] in Hrun.
  destruct (self !! "scheduler"%string) as [[| | | | | s] |] eqn:Hs;
    try discriminate.
  cbn [mbind result_bind] in Hrun.
  destruct (train_batches _ _ _ _ _) as [st |] eqn:Hst; [| discriminate].
  cbn [mbind result_bind] in Hrun. injection Hrun as <-.
  exists sm, tm, dl, n, o, s, st. repeat split; try reflexivity.
  exact Hst.
Qed.

(** X9. The training part of a distillation epoch leaves the teacher as it
    was, but for the evaluation mode it is put in: its weights and its
    gradient buffers are not written. The student is put in training mode
    and keeps its network, and only the student, the teacher, the optimizer
    and the scheduler are assigned: every other attribute of the trainer,
    present or absent, is as before. *)
Theorem distillation_epoch_keeps_teacher (self self' : gmap string attr)
    (Hrun : train_epoch self = Ok self') :
  (exists tm,
      self !! "teacher_model"%string = Some (AModule tm)
      /\ self' !! "teacher_model"%string
         = Some (AModule (set_training false tm)))
  /\ (exists sm sm',
         self !! "student_model"%string = Some (AModule sm)
         /\ self' !! "student_model"%string = Some (AModule sm')
         /\ training sm' = true
         /\ network sm' = network sm)
  /\ (forall name : string,
         name <> "student_model"%string -> name <> "teacher_model"%string ->
         name <> "optimizer"%string -> name <> "scheduler"%string ->
         self' !! name = self !! name).
Proof.
  destruct (train_epoch_inv _ _ Hrun)
    as (sm & tm & dl & n & o & s & st & Hsm & Htm & _ & _ & _ & _ & Hst & ->).
  split; [| split].
  - exists tm. split; [exact Htm |].
    rewrite !lookup_insert_ne by discriminate. apply lookup_insert_eq.
  - exists sm, (student st). split; [exact Hsm |].
    split.
    { rewrite !lookup_insert_ne by discriminate. apply lookup_insert_eq. }
    apply distillation_train_batches_scheduler in Hst
      as (_ & _ & Hn & Ht & _).
    rewrite Hn, Ht. auto.
  - intros name H1 H2 H3 H4.
    rewrite !lookup_insert_ne by congruence. reflexivity.
Qed.

(** The attributes of a freshly built trainer. *)
Lemma init_attributes (teacher_model student_model : Module)
    (train_dataloader eval_dataloader : list Batch) (num_epochs : nat)
    (device : string) (learning_rate decay : R) (steps : nat) :
  let self := __init__ teacher_model student_model train_dataloader
                       eval_dataloader num_epochs device learning_rate decay
                       steps in
  let so := optimizer_and_scheduler student_model train_dataloader num_epochs
                                    learning_rate decay in
  self !! "teacher_model"%string = Some (AModule teacher_model)
  /\ self !! "student_model"%string = Some (AModule student_model)
  /\ self !! "train_dataloader"%string = Some (ALoader train_dataloader)
  /\ self !! "gradient_accumulation_steps"%string = Some (AInt steps)
  /\ self !! "optimizer"%string = Some (AOptimizer so.2)
  /\ self !! "scheduler"%string = Some (AScheduler so.1).
Proof.
  intros self so. subst self so. unfold __init__.
  destruct (optimizer_and_scheduler _ _ _ _ _) as [s o].
  repeat split;
    rewrite ?lookup_insert_ne by discriminate; apply lookup_insert_eq.
Qed.

(** X10. [__init__] lays the cosine schedule out for
    [len(train_dataloader) * num_epochs] steps, a tenth of them warm-up,
    but the batch loop steps the scheduler once per window of
    [gradient_accumulation_steps] batches: after the training part of the
    first epoch the scheduler has made [len // N] steps. With [N >= 2],
    [num_epochs] epochs at that pace end before the schedule does. *)
Theorem distillation_schedule_length (teacher_model student_model : Module)
    (train_dataloader eval_dataloader : list Batch) (num_epochs : nat)
    (device : string) (learning_rate decay : R) (steps : nat)
    (self' : gmap string attr)
    (Hrun : train_epoch (__init__ teacher_model student_model train_dataloader
                                  eval_dataloader num_epochs device
                                  learning_rate decay steps) = Ok self') :
  exists s,
    self' !! "scheduler"%string = Some (AScheduler s)
    /\ last_epoch s = (length train_dataloader / steps)%nat
    /\ num_training_steps s = (length train_dataloader * num_epochs)%nat
    /\ num_warmup_steps s = (length train_dataloader * num_epochs / 10)%nat
    /\ base_lrs s = [learning_rate]
    /\ ((2 <= steps)%nat -> train_dataloader <> [] -> num_epochs <> 0%nat ->
        (num_epochs * last_epoch s < num_training_steps s)%nat).
Proof.
  destruct (train_epoch_inv _ _ Hrun)
    as (sm & tm & dl & n & o & s & st & _ & _ & Hdl & Hn & _ & Hs & Hst & ->).
  destruct (init_attributes teacher_model student_model train_dataloader
              eval_dataloader num_epochs device learning_rate decay steps)
    as (_ & _ & Edl & En & _ & Es).
  rewrite Edl in Hdl. rewrite En in Hn. rewrite Es in Hs.
  injection Hdl as <-. injection Hn as <-. injection Hs as <-.
  exists (scheduler st). split; [apply lookup_insert_eq |].
  pose proof (distillation_train_batches_scheduler _ _ _ _ _ _ Hst)
    as (_ & _ & _ & _ & H3 & H4).
  pose proof (distillation_train_batches_scheduler _ _ _ _ _ _ Hst)
    as (H1 & H2 & _).
  rewrite Nat.Div0.div_0_l, Nat.add_0_r in H1. simpl in H1.
  rewrite H1, H2, H3, H4. unfold optimizer_and_scheduler. simpl.
  repeat (split; [reflexivity |]).
  intros Hsteps Hbatches Hepochs.
  pose proof (Nat.Div0.mul_div_le (length train_dataloader) steps) as Hdiv.
  destruct train_dataloader as [| b bs]; [contradiction |].
  simpl length in *. nia.
Qed.

End DistillationEpoch.

(** ** The optimizer of the distillation trainer *)

Section DistillationOptimizer.

Import MambaForSequenceClassification Torch OptimizedDistillationTrainer.
Context `{Backend}.
Local Open Scope R_scope.

(** X11. The distillation trainer hands AdamW one group that holds every
    parameter of the student: those of the base model, frozen ones
    included, then those of the projection and of the classification head.
    The learning rate given is the base rate of the schedule. On a student
    built on a base model of at least three parameter tensors, the first
    parameter of the group has its gradient switched off. *)
Theorem distillation_optimizer_group (base_model : CausalLM) (labels : nat)
    (pooling : string) (new_projection new_classifier : Layer)
    (teacher_model student_model : Module)
    (train_dataloader eval_dataloader : list Batch) (num_epochs : nat)
    (device : string) (learning_rate decay : R) (steps : nat)
    (Hstudent : current student_model
                = MambaForSequenceClassification.__init__
                    base_model labels pooling new_projection new_classifier)
    (Hsize : (3 <= length (parameters base_model))%nat) :
  exists o s first rest,
    __init__ teacher_model student_model train_dataloader eval_dataloader
             num_epochs device learning_rate decay steps
      !! "optimizer"%string = Some (AOptimizer o)
    /\ __init__ teacher_model student_model train_dataloader eval_dataloader
                num_epochs device learning_rate decay steps
         !! "scheduler"%string = Some (AScheduler s)
    /\ map params (param_groups o)
       = [ freeze_all_but_last_two (parameters base_model)
           ++ layer_parameters new_projection
           ++ layer_parameters new_classifier ]
    /\ map weight_decay (param_groups o) = [decay]
    /\ base_lrs s = [learning_rate]
    /\ last_epoch s = 0%nat
    /\ map params (param_groups o) = [first :: rest]
    /\ requires_grad first = false.
Proof.
  destruct (init_attributes teacher_model student_model train_dataloader
              eval_dataloader num_epochs device learning_rate decay steps)
    as (_ & _ & _ & _ & Ho & Hs).
  destruct (parameters base_model) as [| p0 ps] eqn:Hps;
    [simpl in Hsize; lia |].
  pose proof (freeze_all_but_last_two_lookup (p0 :: ps) 0) as Hfirst.
  destruct (freeze_all_but_last_two (p0 :: ps)) as [| q0 qs] eqn:Hq.
  { pose proof (freeze_all_but_last_two_length (p0 :: ps)) as Hlen.
    rewrite Hq in Hlen. discriminate. }
  eexists _, _, q0, (qs ++ layer_parameters new_projection
                        ++ layer_parameters new_classifier).
  split; [exact Ho |]. split; [exact Hs |].
  unfold optimizer_and_scheduler, all_parameters. rewrite Hstudent.
  cbn. rewrite Hps, Hq.
  repeat (split; [reflexivity |]).
  destruct (Nat.ltb_spec 0 (length (p0 :: ps) - 2));
    [| simpl length in *; lia].
  cbn in Hfirst. injection Hfirst as ->. reflexivity.
Qed.

End DistillationOptimizer.

(** ** The distillation loop on the toy trainer *)

Section DistillationWitnesses.

Import MambaForSequenceClassification Torch OptimizedDistillationTrainer.
Local Open Scope R_scope.

Lemma distillation_step_loss_and_zero_steps_witness :
  train_step Toy.teacher_model 0 Toy.train_state 0 Toy.batch
  = Raise ZeroDivisionError
  /\ exists st',
       train_step Toy.teacher_model 2 Toy.train_state 0 Toy.batch = Ok st'
       /\ total_loss st' = 0 + item Toy.batch_loss.
Proof.
  split.
  - apply (distillation_step_loss_and_zero_steps Toy.teacher_model 0
             Toy.train_state 0 Toy.batch Toy.batch_loss);
      reflexivity.
  - apply (distillation_step_loss_and_zero_steps Toy.teacher_model 2
             Toy.train_state 0 Toy.batch Toy.batch_loss);
      [reflexivity | discriminate].
Defined.

Lemma toy_three_batches :
  exists st,
    train_batches Toy.teacher_model 2 Toy.train_state 0
                  [Toy.batch; Toy.batch; Toy.batch] = Ok st.
Proof.
  eexists. lazy -[Rplus Rmult Rinv Ropp Rminus Rdiv Rmax exp ln INR IZR].
  reflexivity.
Qed.

Lemma distillation_scheduler_steps_witness :
  exists st,
    train_batches Toy.teacher_model 2 Toy.train_state 0
                  [Toy.batch; Toy.batch; Toy.batch] = Ok st
    /\ last_epoch (scheduler st) = 1%nat.
Proof.
  destruct toy_three_batches as (st & Hrun). exists st.
  split; [exact Hrun |].
  apply (distillation_scheduler_steps Toy.teacher_model 2 Toy.train_state st
           [Toy.batch; Toy.batch; Toy.batch] Hrun).
Defined.

Lemma toy_train_epoch :
  exists self1, train_epoch Toy.distillation_trainer = Ok self1.
Proof.
  destruct toy_first_epoch as (st & Hbatches & _).
  destruct (train_epoch_init Toy.teacher_model Toy.student_model
              [Toy.batch; Toy.batch; Toy.batch] [Toy.batch] 2 "cpu"
              1e-4 0.01 2 st Hbatches) as (self1 & Hrun & _).
  exists self1. exact Hrun.
Qed.

Lemma distillation_epoch_keeps_teacher_witness :
  exists self1,
    train_epoch Toy.distillation_trainer = Ok self1
    /\ self1 !! "eval_dataloader"%string
       = Toy.distillation_trainer !! "eval_dataloader"%string.
Proof.
  destruct toy_train_epoch as (self1 & Hrun). exists self1.
  split; [exact Hrun |].
  apply (distillation_epoch_keeps_teacher Toy.distillation_trainer self1 Hrun);
    discriminate.
Defined.

Lemma distillation_schedule_length_witness :
  exists self1 s,
    train_epoch Toy.distillation_trainer = Ok self1
    /\ self1 !! "scheduler"%string = Some (AScheduler s)
    /\ last_epoch s = 1%nat
    /\ num_training_steps s = 6%nat.
Proof.
  destruct toy_train_epoch as (self1 & Hrun).
  destruct (distillation_schedule_length Toy.teacher_model Toy.student_model
              [Toy.batch; Toy.batch; Toy.batch] [Toy.batch] 2 "cpu"
              1e-4 0.01 2 self1 Hrun) as (s & Hs & H1 & H2 & _).
  exists self1, s. repeat split; assumption.
Defined.

Lemma distillation_optimizer_group_witness :
  exists o first rest,
    Toy.distillation_trainer !! "optimizer"%string = Some (AOptimizer o)
    /\ map params (param_groups o) = [first :: rest]
    /\ requires_grad first = false.
Proof.
  destruct (distillation_optimizer_group Toy.base_model 2 "mean"
              Toy.new_projection (Toy.head (1, 2)) Toy.teacher_model
              Toy.student_model [Toy.batch; Toy.batch; Toy.batch] [Toy.batch]
              2 "cpu" 1e-4 0.01 2)
    as (o & s & first & rest & Ho & _ & _ & _ & _ & _ & Hgroup & Hfrozen).
  - reflexivity.
  - simpl. lia.
  - exists o, first, rest. repeat split; assumption.
Defined.

End DistillationWitnesses.

(** ** Max pooling and the edges of mean pooling *)

Section Pooling.

Import MambaForSequenceClassification Reference PoolingReference.
Local Open Scope R_scope.

Lemma mask_out_eq (hidden : list (list R)) (mask_row : list Z) :
  length hidden = length mask_row -> valid_mask mask_row ->
  mask_out hidden (mask_expanded mask_row) = Ok (padded_out hidden mask_row).
Proof.
  unfold mask_out, mask_expanded, padded_out, valid_mask.
  revert mask_row. induction hidden as [| row hidden IH];
    intros [| z mask_row] Hlen Hvalid; simpl in *; try discriminate;
    [reflexivity |].
  inversion Hvalid as [| ? ? Hz Hrest]; subst.
  rewrite IH by (auto; lia). simpl. do 2 f_equal.
  destruct Hz as [-> | ->]; simpl.
  - apply map_ext. intros x. lra.
  - rewrite <- (map_id row) at 2. apply map_ext. intros x. lra.
Qed.

Lemma padded_out_agree (h1 h2 : list (list R)) (mask_row : list Z) :
  agree_on_mask h1 h2 mask_row -> same_widths h1 h2 ->
  padded_out h1 mask_row = padded_out h2 mask_row.
Proof.
  unfold agree_on_mask, padded_out, same_widths. intros (L1 & L2 & Hag) Hw.
  revert mask_row L1 L2 Hag.
  induction Hw as [| r1 r2 h1 h2 Hr _ IH]; intros [| z mask_row] L1 L2 Hag;
    simpl in *; try discriminate; [reflexivity |].
  f_equal.
  - destruct (Z.eqb_spec z 1) as [-> | Hz].
    + specialize (Hag 0%nat eq_refl). simpl in Hag. congruence.
    + clear -Hr. revert r2 Hr.
      induction r1 as [| x r1 IH]; intros [| y r2] Hr; simpl in *;
        try discriminate; [reflexivity |].
      f_equal. apply IH. lia.
  - apply IH; try lia. intros i Hi. apply (Hag (S i)). exact Hi.
Qed.

Lemma mask_out_examples (hidden : list (list (list R)))
    (mask : list (list Z)) :
  Forall2 (fun h row => length h = length row) hidden mask ->
  Forall valid_mask mask ->
  Tensor.zip_with (fun h row => mask_out h (mask_expanded row)) hidden mask
  = Ok (zip_with padded_out hidden mask).
Proof.
  induction 1 as [| h row hs rows Hh _ IH]; intros Hvalid; simpl;
    [reflexivity |].
  inversion Hvalid; subst.
  rewrite mask_out_eq, IH by auto. reflexivity.
Qed.

(** X12. With max pooling and an attention mask of zeros and ones, what
    [forward] pools is the column-wise maximum over the hidden states in
    which every padded position has been replaced by [-1e9]; two batches of
    hidden states of the same shape that agree wherever the mask is 1 are
    pooled to the same output. *)
Theorem max_pooling_ignores_padding (self : t)
    (hidden1 hidden2 : list (list (list R))) (mask : list (list Z))
    (Hmax : pooling_type self <> "mean"%string)
    (Hvalid : Forall valid_mask mask)
    (Hagree : Forall3 agree_on_mask hidden1 hidden2 mask)
    (Hshape : Forall2 same_widths hidden1 hidden2) :
  pool self hidden1 (Some mask) = pool self hidden2 (Some mask)
  /\ pool self hidden1 (Some mask)
     = mapM (Tensor.max_dim1 (vocab_size (mamba self)))
            (zip_with padded_out hidden1 mask).
Proof.
  unfold pool.
  destruct (String.eqb_spec (pooling_type self) "mean"); [contradiction |].
  assert (H1 : Forall2 (fun h row => length h = length row) hidden1 mask).
  { clear - Hagree.
    induction Hagree as [| h1 h2 row ? ? ? Hag _ IH]; constructor;
      [apply Hag | exact IH]. }
  assert (H2 : Forall2 (fun h row => length h = length row) hidden2 mask).
  { clear - Hagree.
    induction Hagree as [| h1 h2 row ? ? ? Hag _ IH]; constructor;
      [apply Hag | exact IH]. }
  rewrite !mask_out_examples by auto. cbn [mbind result_bind].
  split; [| reflexivity]. f_equal.
  clear H1 H2 Hvalid. revert Hshape.
  induction Hagree as [| h1 h2 row hs1 hs2 rows Hag _ IH]; intros Hshape;
    simpl; [reflexivity |].
  inversion Hshape; subst.
  rewrite (padded_out_agree h1 h2), IH by auto. reflexivity.
Qed.

Lemma unmasked_full (hidden : list (list R)) :
  unmasked hidden (map (fun _ => 1%Z) hidden) = hidden.
Proof.
  unfold unmasked. induction hidden as [| row hidden IH]; simpl;
    [reflexivity |].
  f_equal. exact IH.
Qed.


Lemma valid_mask_const {A} (z : Z) (l : list A) :
  z = 0%Z \/ z = 1%Z -> valid_mask (map (fun _ => z) l).
Proof.
  intros Hz. unfold valid_mask. induction l; simpl; constructor; auto.
Qed.

(** X13. With mean pooling, an attention mask that keeps every position
    gives, on a batch of non-empty sequences, what the call without
    attention mask gives: the plain mean over the sequence. *)
Theorem mean_pooling_full_mask (self : t) (hidden : list (list (list R)))
    (Hmean : pooling_type self = "mean"%string)
    (Hseq : Forall (fun h => h <> []) hidden) :
  pool self hidden (Some (full_mask hidden)) = pool self hidden None.
Proof.
  unfold pool. rewrite Hmean. simpl. unfold full_mask.
  induction Hseq as [| h hs Hh _ IH]; simpl; [reflexivity |].
  rewrite mean_pool_masked_eq;
    [| rewrite length_map; reflexivity | apply valid_mask_const; auto].
  simpl. rewrite IH. simpl. do 2 f_equal.
  unfold masked_mean, mean_pool, Tensor.sum_dim1.
  rewrite unmasked_full, map_map. apply map_ext. intros c. f_equal.
  apply Rmax_left. destruct h as [| row h]; [contradiction |].
  rewrite length_cons, S_INR. pose proof (pos_INR (length h)). lra.
Qed.


End Pooling.

(** ** Bounds and invariances of the distillation loss *)

Section LossProperties.

Import Reference LossReference ShiftReference OptimizedDistillationTrainer.
Local Open Scope R_scope.

Lemma big_sum_nonpos (n : nat) (f : nat -> R) :
  (forall i, (i < n)%nat -> f i <= 0) -> big_sum n f <= 0.
Proof.
  revert f. induction n as [| n IH]; intros f Hf.
  - unfold big_sum. simpl. lra.
  - rewrite big_sum_S. specialize (Hf 0%nat ltac:(lia)) as H0.
    specialize (IH (fun i => f (S i))).
    assert (big_sum n (fun i => f (S i)) <= 0)
      by (apply IH; intros i Hi; apply Hf; lia).
    lra.
Qed.

Lemma big_sum_exp_nonneg (n : nat) (g : nat -> R) :
  0 <= big_sum n (fun j => exp (g j)).
Proof.
  revert g. induction n as [| n IH]; intros g.
  - unfold big_sum. simpl. lra.
  - rewrite big_sum_S. specialize (IH (fun j => g (S j))). simpl in IH.
    pose proof (exp_pos (g 0%nat)). lra.
Qed.

Lemma big_sum_exp_ge (n : nat) (g : nat -> R) (i : nat) :
  (i < n)%nat -> exp (g i) <= big_sum n (fun j => exp (g j)).
Proof.
  revert g i. induction n as [| n IH]; intros g i Hi; [lia |].
  rewrite big_sum_S.
  pose proof (big_sum_exp_nonneg n (fun j => g (S j))) as Hpos.
  simpl in Hpos.
  destruct i as [| i].
  - lra.
  - specialize (IH (fun j => g (S j)) i ltac:(lia)). simpl in IH.
    pose proof (exp_pos (g 0%nat)). lra.
Qed.

Lemma big_sum_exp_pos (n : nat) (g : nat -> R) :
  (0 < n)%nat -> 0 < big_sum n (fun j => exp (g j)).
Proof.
  intros Hn. pose proof (big_sum_exp_ge n g 0 Hn).
  pose proof (exp_pos (g 0%nat)). lra.
Qed.

Lemma ln_le_mono (x y : R) : 0 < x -> x <= y -> ln x <= ln y.
Proof.
  intros Hx [Hlt | ->]; [| lra]. left. apply ln_increasing; assumption.
Qed.

(** A log-probability is not positive. *)
Lemma log_softmax_nonpos (n : nat) (g : nat -> R) (i : nat) :
  (i < n)%nat -> g i - ln (big_sum n (fun j => exp (g j))) <= 0.
Proof.
  intros Hi. pose proof (big_sum_exp_ge n g i Hi) as Hge.
  pose proof (ln_le_mono _ _ (exp_pos (g i)) Hge) as Hln.
  rewrite ln_exp in Hln. lra.
Qed.

Lemma soft_loss_nonneg (batch classes : nat) (student teacher : list (list R))
    (T : R) :
  0 <= soft_loss batch classes student teacher T.
Proof.
  unfold soft_loss.
  assert (Hsum : big_sum batch (fun b =>
                   big_sum classes (fun c =>
                     softmax_at teacher T classes b c
                     * log_softmax_at student T classes b c)) <= 0).
  { apply big_sum_nonpos. intros b _. apply big_sum_nonpos. intros c Hc.
    unfold softmax_at, log_softmax_at.
    pose proof (log_softmax_nonpos classes (fun j => entry student b j / T)
                                   c Hc) as Hlog.
    simpl in Hlog.
    assert (Hsoft : 0 <= exp (entry teacher b c / T)
                         / big_sum classes (fun j => exp (entry teacher b j / T))).
    { apply Rmult_le_pos; [left; apply exp_pos |]. left.
      apply Rinv_0_lt_compat.
      apply (big_sum_exp_pos classes (fun j => entry teacher b j / T)). lia. }
    nra. }
  destruct batch as [| batch].
  - unfold big_sum in *. simpl. unfold Rdiv. rewrite Rmult_0_l. lra.
  - assert (0 < INR (S batch)) by (apply lt_0_INR; lia).
    assert (0 < / INR (S batch)) by (apply Rinv_0_lt_compat; assumption).
    unfold Rdiv. nra.
Qed.

Lemma hard_loss_nonneg (batch classes : nat) (student : list (list R))
    (labels : list nat) :
  length labels = batch -> Forall (fun y => (y < classes)%nat) labels ->
  0 <= hard_loss batch classes student labels.
Proof.
  intros Hlen Hrange. unfold hard_loss.
  assert (Hsum : big_sum batch (fun b =>
                   entry student b (nth b labels 0%nat)
                   - ln (big_sum classes (fun j => exp (entry student b j))))
                 <= 0).
  { apply big_sum_nonpos. intros b Hb.
    apply (log_softmax_nonpos classes (fun j => entry student b j)).
    rewrite Forall_forall in Hrange. apply Hrange.
    apply list_elem_of_In, nth_In. lia. }
  destruct batch as [| batch].
  - unfold big_sum in *. simpl. unfold Rdiv. rewrite Rmult_0_l. lra.
  - assert (0 < INR (S batch)) by (apply lt_0_INR; lia).
    assert (0 < / INR (S batch)) by (apply Rinv_0_lt_compat; assumption).
    unfold Rdiv. nra.
Qed.

(** X15. On logits of shape [batch, numLabels] and labels below
    [numLabels], with a weight [alpha] between 0 and 1, [compute_loss]
    returns a loss that is not negative: both the soft-label term and the
    cross-entropy term are sums of negated log-probabilities. *)
Theorem compute_loss_nonneg (student teacher : list (list R))
    (labels : list nat) (T alpha : R) (batch classes : nat)
    (Hstudent : has_shape student batch classes)
    (Hteacher : has_shape teacher batch classes)
    (Hlabels : length labels = batch)
    (Hrange : Forall (fun y => (y < classes)%nat) labels)
    (Hbatch : (0 < batch)%nat)
    (Htemperature : T <> 0)
    (Halpha : 0 <= alpha <= 1) :
  exists l, compute_loss student teacher labels T alpha = Ok l /\ 0 <= l.
Proof.
  rewrite (compute_loss_eq student teacher labels T alpha batch classes)
    by assumption.
  eexists. split; [reflexivity |].
  pose proof (soft_loss_nonneg batch classes student teacher T) as Hsoft.
  pose proof (hard_loss_nonneg batch classes student labels Hlabels Hrange)
    as Hhard.
  assert (0 <= T ^ 2) by (simpl; nra).
  assert (0 <= alpha * T ^ 2) by nra.
  assert (0 <= alpha * T ^ 2 * soft_loss batch classes student teacher T)
    by (apply Rmult_le_pos; assumption).
  assert (0 <= (1 - alpha) * hard_loss batch classes student labels)
    by (apply Rmult_le_pos; lra).
  lra.
Qed.

Lemma shift_shape (t : list (list R)) (cs : list R) (batch classes : nat) :
  has_shape t batch classes -> length cs = batch ->
  has_shape (shift t cs) batch classes.
Proof.
  intros [Hlen Hrows] Hcs. unfold shift, has_shape.
  split; [rewrite length_zip_with; lia |].
  clear Hlen Hcs. revert cs.
  induction Hrows as [| row t Hrow _ IH]; intros [| c cs]; simpl;
    constructor.
  - rewrite length_map. exact Hrow.
  - apply IH.
Qed.

Lemma shift_entry (t : list (list R)) (cs : list R) (batch classes b j : nat) :
  has_shape t batch classes -> length cs = batch ->
  (b < batch)%nat -> (j < classes)%nat ->
  entry (shift t cs) b j = entry t b j + nth b cs 0.
Proof.
  intros Hshape Hcs Hb Hj. pose proof Hshape as [Hlen _].
  unfold entry, shift.
  rewrite (nth_zip_with _ _ _ _ [] 0) by lia.
  rewrite (nth_map_lt _ _ _ 0)
    by (rewrite (has_shape_row t batch classes); assumption).
  reflexivity.
Qed.

Lemma big_sum_scale (n : nat) (k : R) (f : nat -> R) :
  big_sum n (fun j => k * f j) = k * big_sum n f.
Proof.
  revert f. induction n as [| n IH]; intros f.
  - unfold big_sum. simpl. ring.
  - rewrite !big_sum_S, (IH (fun j => f (S j))). ring.
Qed.

Lemma shift_normaliser (t : list (list R)) (cs : list R) (T : R)
    (batch classes b : nat) :
  has_shape t batch classes -> length cs = batch -> (b < batch)%nat ->
  big_sum classes (fun j => exp (entry (shift t cs) b j / T))
  = exp (nth b cs 0 / T) * big_sum classes (fun j => exp (entry t b j / T)).
Proof.
  intros Hshape Hcs Hb.
  transitivity (big_sum classes
                  (fun j => exp (nth b cs 0 / T) * exp (entry t b j / T))).
  - apply big_sum_ext. intros j Hj.
    rewrite (shift_entry t cs batch classes) by assumption.
    rewrite <- exp_plus. f_equal. unfold Rdiv. ring.
  - apply (big_sum_scale classes (exp (nth b cs 0 / T))
                          (fun j => exp (entry t b j / T))).
Qed.

Lemma shift_softmax (t : list (list R)) (cs : list R) (T : R)
    (batch classes b c : nat) :
  has_shape t batch classes -> length cs = batch ->
  (b < batch)%nat -> (c < classes)%nat ->
  softmax_at (shift t cs) T classes b c = softmax_at t T classes b c.
Proof.
  intros Hshape Hcs Hb Hc. unfold softmax_at.
  rewrite (shift_normaliser t cs T batch classes) by assumption.
  rewrite (shift_entry t cs batch classes) by assumption.
  replace ((entry t b c + nth b cs 0) / T)
    with (nth b cs 0 / T + entry t b c / T) by (unfold Rdiv; ring).
  rewrite exp_plus.
  pose proof (exp_pos (nth b cs 0 / T)).
  pose proof (big_sum_exp_pos classes (fun j => entry t b j / T)
                              ltac:(lia)) as Hpos.
  simpl in Hpos. field. split; lra.
Qed.

Lemma shift_log_softmax (t : list (list R)) (cs : list R) (T : R)
    (batch classes b c : nat) :
  has_shape t batch classes -> length cs = batch ->
  (b < batch)%nat -> (c < classes)%nat ->
  log_softmax_at (shift t cs) T classes b c = log_softmax_at t T classes b c.
Proof.
  intros Hshape Hcs Hb Hc. unfold log_softmax_at.
  rewrite (shift_normaliser t cs T batch classes) by assumption.
  rewrite (shift_entry t cs batch classes) by assumption.
  pose proof (big_sum_exp_pos classes (fun j => entry t b j / T)
                              ltac:(lia)) as Hpos.
  simpl in Hpos.
  rewrite ln_mult by (try apply exp_pos; assumption).
  rewrite ln_exp. unfold Rdiv. ring.
Qed.

(** X16. [compute_loss] sees the logits only up to a constant per example:
    over the reals, adding one constant to all the student logits of an
    example, and another to all its teacher logits, leaves the loss as it
    is. *)
Theorem compute_loss_shift_invariant (student teacher : list (list R))
    (cs ds : list R) (labels : list nat) (T alpha : R) (batch classes : nat)
    (Hstudent : has_shape student batch classes)
    (Hteacher : has_shape teacher batch classes)
    (Hcs : length cs = batch) (Hds : length ds = batch)
    (Hlabels : length labels = batch)
    (Hrange : Forall (fun y => (y < classes)%nat) labels)
    (Hbatch : (0 < batch)%nat)
    (Htemperature : T <> 0) :
  compute_loss (shift student cs) (shift teacher ds) labels T alpha
  = compute_loss student teacher labels T alpha.
Proof.
  rewrite (compute_loss_eq student teacher labels T alpha batch classes)
    by assumption.
  rewrite (compute_loss_eq (shift student cs) (shift teacher ds) labels T
                           alpha batch classes)
    by (try apply shift_shape; assumption).
  do 3 f_equal.
  - unfold soft_loss. do 2 f_equal. apply big_sum_ext. intros b Hb.
    apply big_sum_ext. intros c Hc.
    rewrite (shift_softmax teacher ds T batch classes),
            (shift_log_softmax student cs T batch classes) by assumption.
    reflexivity.
  - unfold hard_loss. do 2 f_equal. apply big_sum_ext. intros b Hb.
    assert (Hy : (nth b labels 0 < classes)%nat).
    { rewrite Forall_forall in Hrange. apply Hrange.
      apply list_elem_of_In, nth_In. lia. }
    pose proof (shift_log_softmax student cs 1 batch classes b
                  (nth b labels 0%nat) Hstudent Hcs Hb Hy) as Hlog.
    unfold log_softmax_at in Hlog.
    assert (Hdiv : forall x, x / 1 = x) by (intros; unfold Rdiv; field).
    rewrite !Hdiv in Hlog.
    erewrite (big_sum_ext classes (fun j => exp (entry (shift student cs) b j)));
      [| intros j Hj; rewrite <- (Hdiv (entry (shift student cs) b j));
         reflexivity].
    erewrite (big_sum_ext classes (fun j => exp (entry student b j)));
      [| intros j Hj; rewrite <- (Hdiv (entry student b j)); reflexivity].
    exact Hlog.
Qed.

Lemma zip_with_raises {A B C} (f : A -> B -> result C) (xs : list A)
    (ys : list B) :
  length xs = length ys ->
  (exists i x y e, xs !! i = Some x /\ ys !! i = Some y /\ f x y = Raise e) ->
  exists e, Tensor.zip_with f xs ys = Raise e.
Proof.
  revert ys. induction xs as [| x xs IH]; intros [| y ys] Hlen Hbad;
    simpl in *; try discriminate.
  - destruct Hbad as ([| i] & ? & ? & ? & Hx & _); discriminate.
  - destruct (f x y) as [c |] eqn:Hf; [| eauto]. simpl.
    destruct Hbad as ([| i] & x' & y' & e & Hx & Hy & Hraise); simpl in *.
    + congruence.
    + destruct (IH ys) as (e' & ->); [lia | eauto 10 |]. simpl. eauto.
Qed.

(** X17. [compute_loss] checks the labels whatever the weight [alpha],
    also at [alpha = 1] where the cross-entropy term counts for nothing: on
    well-shaped logits it raises when the number of labels differs from the
    batch size, and when a label is not below the number of classes. *)
Theorem compute_loss_rejects_labels (student teacher : list (list R))
    (labels : list nat) (T alpha : R) (batch classes : nat)
    (Hstudent : has_shape student batch classes)
    (Hteacher : has_shape teacher batch classes)
    (Hbad : length labels <> batch
            \/ exists i y, labels !! i = Some y /\ (classes <= y)%nat) :
  exists e, compute_loss student teacher labels T alpha = Raise e.
Proof.
  unfold compute_loss.
  rewrite (soft_products student teacher T batch classes) by assumption.
  cbn [mbind result_bind]. pose proof Hstudent as [Hlen Hrows].
  assert (Hce : exists e, Tensor.cross_entropy student labels = Raise e).
  { unfold Tensor.cross_entropy.
    destruct (Nat.eqb_spec (length student) (length labels)) as [Heq | Hne];
      [| eauto].
    destruct Hbad as [Hbad | (i & y & Hy & Hge)]; [congruence |].
    destruct (zip_with_raises
                (fun row y => Tensor.nll (Tensor.log_softmax row) y)
                student labels Heq) as (e & ->); [| simpl; eauto].
    destruct (lookup_lt_is_Some_2 student i) as [row Hrow].
    { rewrite Heq. apply lookup_lt_is_Some_1. eauto. }
    exists i, row, y, IndexError. split; [exact Hrow |]. split; [exact Hy |].
    unfold Tensor.nll.
    destruct (nth_error (Tensor.log_softmax row) y) as [lp |] eqn:E;
      [| reflexivity].
    assert (Hlt : (y < length (Tensor.log_softmax row))%nat)
      by (apply nth_error_Some; congruence).
    unfold Tensor.log_softmax in Hlt. rewrite length_map in Hlt.
    rewrite Forall_forall in Hrows.
    rewrite (Hrows row) in Hlt by (eapply list_elem_of_lookup_2; eauto).
    lia. }
  destruct Hce as (e & ->). simpl. eauto.
Qed.

End LossProperties.

(** ** Pooling and loss on concrete inputs *)

Section PoolingLossWitnesses.

Import MambaForSequenceClassification Reference LossReference.
Import PoolingReference ShiftReference OptimizedDistillationTrainer.
Local Open Scope R_scope.

Lemma max_pooling_ignores_padding_witness :
  let self := MambaForSequenceClassification.__init__
                Toy.base_model 2 "max" Toy.new_projection (Toy.head (1, 2)) in
  pool self [[[1]; [5]]] (Some [[1; 0]%Z])
  = pool self [[[1]; [9]]] (Some [[1; 0]%Z]).
Proof.
  apply (max_pooling_ignores_padding
           (MambaForSequenceClassification.__init__
              Toy.base_model 2 "max" Toy.new_projection (Toy.head (1, 2)))
           [[[1]; [5]]] [[[1]; [9]]] [[1; 0]%Z]).
  - discriminate.
  - constructor; [| constructor].
    constructor; [right; reflexivity |].
    constructor; [left; reflexivity | constructor].
  - constructor; [| constructor].
    split; [reflexivity |]. split; [reflexivity |].
    intros [| [| i]] Hi; simpl in Hi; try discriminate; reflexivity.
  - repeat constructor.
Defined.

Lemma mean_pooling_full_mask_witness :
  pool (Toy.classifier_at (1, 2)) [[[1]; [5]]] (Some [[1; 1]%Z])
  = pool (Toy.classifier_at (1, 2)) [[[1]; [5]]] None.
Proof.
  apply (mean_pooling_full_mask (Toy.classifier_at (1, 2)) [[[1]; [5]]]).
  - reflexivity.
  - repeat constructor; discriminate.
Defined.


Lemma compute_loss_nonneg_witness :
  exists l,
    compute_loss [[1; 2; 3]; [0; 0; 0]] [[0; 1; 0]; [2; 0; 1]]
                 [2%nat; 0%nat] default_temperature default_alpha = Ok l
    /\ 0 <= l.
Proof.
  apply (compute_loss_nonneg _ _ _ _ _ 2 3).
  - split; [reflexivity | repeat constructor].
  - split; [reflexivity | repeat constructor].
  - reflexivity.
  - repeat constructor.
  - lia.
  - unfold default_temperature. lra.
  - unfold default_alpha. lra.
Defined.

Lemma compute_loss_shift_invariant_witness :
  compute_loss (shift [[1; 2; 3]; [0; 0; 0]] [10; -4])
               (shift [[0; 1; 0]; [2; 0; 1]] [7; 0])
               [2%nat; 0%nat] default_temperature default_alpha
  = compute_loss [[1; 2; 3]; [0; 0; 0]] [[0; 1; 0]; [2; 0; 1]]
                 [2%nat; 0%nat] default_temperature default_alpha.
Proof.
  apply (compute_loss_shift_invariant _ _ _ _ _ _ _ 2 3).
  - split; [reflexivity | repeat constructor].
  - split; [reflexivity | repeat constructor].
  - reflexivity.
  - reflexivity.
  - reflexivity.
  - repeat constructor.
  - lia.
  - unfold default_temperature. lra.
Defined.

Lemma compute_loss_rejects_labels_witness :
  exists e,
    compute_loss [[1; 2; 3]; [0; 0; 0]] [[0; 1; 0]; [2; 0; 1]]
                 [2%nat; 3%nat] default_temperature 1 = Raise e.
Proof.
  apply (compute_loss_rejects_labels _ _ _ _ _ 2 3).
  - split; [reflexivity | repeat constructor].
  - split; [reflexivity | repeat constructor].
  - right. exists 1%nat, 3%nat. split; [reflexivity | lia].
Defined.

End PoolingLossWitnesses.

(** ** Predictions: [argmax], [softmax] and [predict_text] *)

Section Predictions.

Import MambaForSequenceClassification Torch Report.
Context `{Backend}.
Local Open Scope R_scope.

(** [argmax_from] returns the index it was given when no entry exceeds the
    best so far, and otherwise the first index of the largest entry. *)
Lemma argmax_from_spec (v : list R) :
  forall (best : R) (best_i i : nat),
    (Tensor.argmax_from best best_i i v = best_i
     /\ Forall (fun y => y <= best) v)
    \/ (exists k x,
           Tensor.argmax_from best best_i i v = (i + k)%nat
           /\ v !! k = Some x
           /\ best < x
           /\ Forall (fun y => y <= x) v
           /\ forall j y, (j < k)%nat -> v !! j = Some y -> y < x).
Proof.
  induction v as [| x v IH]; intros best best_i i; simpl.
  - left. split; [reflexivity | constructor].
  - destruct (Rlt_dec best x) as [Hlt | Hge].
    + right.
      destruct (IH x i (S i))
        as [[Hr Hall] | (k & x' & Hr & Hk & Hx & Hall & Hfirst)].
      * exists 0%nat, x. rewrite Hr.
        split; [lia |]. split; [reflexivity |]. split; [exact Hlt |].
        split; [constructor; [lra | exact Hall] |].
        intros j y Hj. lia.
      * exists (S k), x'. rewrite Hr.
        split; [lia |]. split; [exact Hk |]. split; [lra |].
        split; [constructor; [lra | exact Hall] |].
        intros [| j] y Hj Hy; simpl in Hy.
        -- injection Hy as <-. exact Hx.
        -- apply (Hfirst j); [lia | exact Hy].
    + destruct (IH best best_i (S i))
        as [[Hr Hall] | (k & x' & Hr & Hk & Hx & Hall & Hfirst)].
      * left. split; [exact Hr |]. constructor; [lra | exact Hall].
      * right. exists (S k), x'. rewrite Hr.
        split; [lia |]. split; [exact Hk |]. split; [exact Hx |].
        split; [constructor; [lra | exact Hall] |].
        intros [| j] y Hj Hy; simpl in Hy.
        -- injection Hy as <-. lra.
        -- apply (Hfirst j); [lia | exact Hy].
Qed.

(** On a row that is not empty, [argmax] is the first index of the largest
    entry. *)
Lemma argmax_spec (v : list R) :
  v <> [] ->
  exists x,
    v !! Tensor.argmax v = Some x
    /\ Forall (fun y => y <= x) v
    /\ forall j y, (j < Tensor.argmax v)%nat -> v !! j = Some y -> y < x.
Proof.
  destruct v as [| x v]; [contradiction |]. intros _. unfold Tensor.argmax.
  destruct (argmax_from_spec v x 0 1)
    as [[Hr Hall] | (k & x' & Hr & Hk & Hx & Hall & Hfirst)]; rewrite Hr.
  - exists x. split; [reflexivity |].
    split; [constructor; [lra | exact Hall] |]. intros j y Hj. lia.
  - exists x'. split; [exact Hk |].
    split; [constructor; [lra | exact Hall] |].
    intros [| j] y Hj Hy; simpl in Hy.
    + injection Hy as <-. exact Hx.
    + apply (Hfirst j); [lia | exact Hy].
Qed.

(** A strictly increasing map does not change the [argmax]. *)
Lemma argmax_from_increasing (f : R -> R) (v : list R) :
  (forall a b, a < b <-> f a < f b) ->
  forall (best : R) (best_i i : nat),
    Tensor.argmax_from (f best) best_i i (map f v)
    = Tensor.argmax_from best best_i i v.
Proof.
  intros Hf. induction v as [| x v IH]; intros best best_i i; simpl;
    [reflexivity |].
  destruct (Rlt_dec (f best) (f x)) as [H1 | H1];
    destruct (Rlt_dec best x) as [H2 | H2]; try apply IH.
  - apply Hf in H1. contradiction.
  - apply Hf in H2. contradiction.
Qed.

Lemma tsum_exp_pos (v : list R) : v <> [] -> 0 < Tensor.tsum (map exp v).
Proof.
  assert (Hnonneg : forall l, 0 <= Tensor.tsum (map exp l)).
  { induction l as [| y l IH]; simpl; [lra |].
    pose proof (exp_pos y). lra. }
  destruct v as [| x v]; [contradiction |]. intros _. simpl.
  pose proof (exp_pos x). pose proof (Hnonneg v). lra.
Qed.

Lemma tsum_map_div (g : R -> R) (c : R) (v : list R) :
  Tensor.tsum (map (fun x => g x / c) v) = Tensor.tsum (map g v) / c.
Proof.
  induction v as [| x v IH]; simpl.
  - unfold Rdiv. ring.
  - rewrite IH. unfold Rdiv. ring.
Qed.

(** [softmax] of a row that is not empty: positive entries that sum to 1,
    with the [argmax] of the row. *)
Lemma softmax_spec (v : list R) :
  v <> [] ->
  Tensor.tsum (Tensor.softmax v) = 1
  /\ Forall (fun q => 0 < q) (Tensor.softmax v)
  /\ Tensor.argmax (Tensor.softmax v) = Tensor.argmax v
  /\ length (Tensor.softmax v) = length v.
Proof.
  intros Hv. pose proof (tsum_exp_pos v Hv) as Hpos.
  unfold Tensor.softmax. split; [| split; [| split]].
  - rewrite (tsum_map_div exp). field. lra.
  - apply Forall_forall. intros q Hq.
    apply list_elem_of_fmap in Hq as (x & -> & _).
    apply Rdiv_lt_0_compat; [apply exp_pos | exact Hpos].
  - generalize (Tensor.tsum (map exp v)) Hpos. intros s Hs.
    destruct v as [| x v]; [contradiction |]. simpl.
    apply (argmax_from_increasing (fun y => exp y / s)).
    intros a b.
    assert (Hinv : 0 < / s) by (apply Rinv_0_lt_compat; exact Hs).
    split; intros Hab.
    + apply exp_increasing in Hab. unfold Rdiv. nra.
    + apply exp_lt_inv. unfold Rdiv in Hab. nra.
  - apply length_map.
Qed.

(** X18. Whenever [predict_text] returns, the model has produced the logits
    of exactly one example; the probabilities returned are the softmax of
    its logits, and the prediction is the first class with the largest
    logit. When there is at least one class, the probabilities are
    positive and sum to 1, and the one of the prediction, which is printed
    as the confidence, is the largest of them. *)
Theorem predict_text_returns (text : string) (model : Module)
    (tokenizer : string -> list (list Z) * list (list Z))
    (prediction : nat) (probs : list R)
    (Hret : predict_text text model tokenizer = Ok (prediction, probs)) :
  exists out row,
    forward (current model) (tokenizer text).1 (Some (tokenizer text).2) None
    = Ok out
    /\ logits out = [row]
    /\ probs = Tensor.softmax row
    /\ prediction = Tensor.argmax row
    /\ (row <> [] ->
        Tensor.tsum probs = 1
        /\ Forall (fun q => 0 < q) probs
        /\ (prediction < length probs)%nat
        /\ Forall (fun q => q <= nth prediction probs 0) probs
        /\ exists x, row !! prediction = Some x
                     /\ Forall (fun y => y <= x) row
                     /\ forall j y, (j < prediction)%nat ->
                                    row !! j = Some y -> y < x).
Proof.
  unfold predict_text in Hret. destruct (tokenizer text) as [ids mask].
  destruct (forward (current model) ids (Some mask) None) as [out |] eqn:Hout;
    [| discriminate].
  cbn [mbind result_bind] in Hret.
  destruct (logits out) as [| row [| row' rows]] eqn:Hlogits;
    simpl in Hret; try discriminate.
  injection Hret as <- <-.
  exists out, row. split; [exact Hout |]. split; [exact Hlogits |].
  split; [reflexivity |].
  destruct (decide (row = [])) as [-> | Hrow];
    [split; [reflexivity | intros Hn; contradiction] |].
  destruct (softmax_spec row Hrow) as (Hsum & Hpos & Harg & Hlen).
  split; [exact Harg |]. intros _.
  rewrite Harg.
  destruct (argmax_spec row Hrow) as (x & Hx & Hmax & Hfirst).
  assert (Hsoft : Tensor.softmax row <> []).
  { intros Hnil. rewrite Hnil in Hlen. destruct row; [contradiction |].
    discriminate. }
  destruct (argmax_spec (Tensor.softmax row) Hsoft) as (q & Hq & Hqmax & _).
  rewrite Harg in Hq.
  split; [exact Hsum |]. split; [exact Hpos |].
  split; [apply lookup_lt_is_Some_1; eauto |].
  split.
  - rewrite (nth_lookup_Some _ _ _ _ Hq). exact Hqmax.
  - exists x. split; [exact Hx |]. split; [exact Hmax | exact Hfirst].
Qed.

End Predictions.

(** ** The overall statistics of the driver script *)

Section Statistics.

Import MambaForSequenceClassification Torch OptimizedDistillationTrainer.
Import TallyReference Report.
Context `{Backend}.
Local Open Scope R_scope.

#[local] Arguments true_div : simpl never.

Lemma count_predictions_counted (n : nat) (m : Module) (batches : list Batch) :
  forall counts ts counts' ts',
    keys_below n counts ->
    count_predictions m counts ts batches = Ok (counts', ts') ->
    keys_below n counts'
    /\ (counted n counts' + ts = counted n counts + ts')%nat.
Proof.
  induction batches as [| batch rest IH];
    intros counts ts counts' ts' Hkeys Hev; simpl in Hev.
  - injection Hev as <- <-. auto.
  - destruct (call (current m) batch) as [outputs |]; [| discriminate].
    simpl in Hev.
    destruct (tally counts _) as [counts1 |] eqn:Ht; [| discriminate].
    simpl in Hev.
    apply (tally_counted n) in Ht as [Hkeys1 Hcount]; [| assumption].
    apply IH in Hev as [Hkeys' Hcount']; [| assumption].
    split; [assumption |]. lia.
Qed.

(** The lines printed: one per key, with the emotion of the key and the
    count held under it. *)
Lemma distribution_lines (counts : gmap nat nat) (total_samples : nat)
    (l : list nat) (printed : list (string * nat * R)) :
  mapM (fun label_id =>
          match counts !! label_id with
          | None => Raise (KeyError label_id)
          | Some count =>
              ratio ← true_div count total_samples;
              match EMOTION_LABELS !! label_id with
              | None => Raise (KeyError label_id)
              | Some emotion => Ok (emotion, count, ratio * 100)
              end
          end) l = Ok printed ->
  Forall2 (fun label_id line =>
             EMOTION_LABELS !! label_id = Some line.1.1
             /\ counts !! label_id = Some line.1.2) l printed
  /\ (l <> [] -> total_samples <> 0%nat).
Proof.
  revert printed. induction l as [| i l IH]; intros printed Hp; simpl in Hp.
  - injection Hp as <-. split; [constructor | intros []; reflexivity].
  - destruct (counts !! i) as [c |] eqn:Hc; simpl in Hp; [| discriminate].
    destruct (true_div c total_samples) as [ratio |] eqn:Hratio;
      simpl in Hp; [| discriminate].
    apply true_div_Ok in Hratio as [Hts ->].
    destruct (EMOTION_LABELS !! i) as [emotion |] eqn:He; simpl in Hp;
      [| discriminate].
    destruct (mapM _ l) as [rest |] eqn:Hrest; simpl in Hp; [| discriminate].
    injection Hp as <-. destruct (IH rest eq_refl) as [Hlines _].
    split; [| intros _; exact Hts].
    constructor; [| exact Hlines]. simpl. auto.
Qed.

Lemma lines_counted (counts : gmap nat nat) (l : list nat)
    (printed : list (string * nat * R)) :
  Forall2 (fun label_id line =>
             EMOTION_LABELS !! label_id = Some line.1.1
             /\ counts !! label_id = Some line.1.2) l printed ->
  sum_list_with (fun i => default 0%nat (counts !! i)) l
  = sum_list_with (fun line : string * nat * R => line.1.2) printed.
Proof.
  induction 1 as [| i line l printed [_ Hc] _ IH]; simpl; [reflexivity |].
  rewrite Hc, IH. reflexivity.
Qed.

Lemma lines_emotions (counts : gmap nat nat)
    (lines : list (string * nat * R)) :
  Forall2 (fun label_id (line : string * nat * R) =>
             EMOTION_LABELS !! label_id = Some line.1.1
             /\ counts !! label_id = Some line.1.2)
          (seq 0 NUM_LABELS) lines ->
  map (fun line : string * nat * R => line.1.1) lines
  = ["sadness"; "joy"; "love"; "anger"; "fear"; "surprise"]%string.
Proof.
  intros Hl. unfold NUM_LABELS in Hl. simpl in Hl.
  repeat (let E := fresh in
          inversion Hl as [| ? ? ? ? [E _] Hl']; subst; clear Hl;
          rename Hl' into Hl; vm_compute in E; injection E as E).
  inversion Hl; subst.
  repeat match goal with
         | y : (string * nat * R)%type |- _ => destruct y as [[? ?] ?]
         end.
  simpl in *. congruence.
Qed.

(** X19. Whenever the overall statistics of [main] are printed, there are
    six lines for the teacher and six for the student, one per emotion in
    the order of [EMOTION_LABELS]. The counts of the teacher's lines add up
    to a total that is not 0 and its percentages to 100. The student's
    percentages are taken over the teacher's total: they add up to 100
    times the number of predictions counted for the student over that
    total. *)
Theorem main_statistics (teacher_model student_model : Module)
    (eval_dataloader : list Batch)
    (teacher_lines student_lines : list (string * nat * R))
    (Hret : statistics teacher_model student_model eval_dataloader
            = Ok (teacher_lines, student_lines)) :
  let emotions := ["sadness"; "joy"; "love"; "anger"; "fear"; "surprise"]%string in
  let total (lines : list (string * nat * R)) :=
    sum_list_with (fun line : string * nat * R => line.1.2) lines in
  map (fun line : string * nat * R => line.1.1) teacher_lines = emotions
  /\ map (fun line : string * nat * R => line.1.1) student_lines = emotions
  /\ total teacher_lines <> 0%nat
  /\ Tensor.tsum (map snd teacher_lines) = 100
  /\ Tensor.tsum (map snd student_lines)
     = INR (total student_lines) / INR (total teacher_lines) * 100.
Proof.
  intros emotions total. unfold statistics in Hret.
  destruct (count_predictions _ _ _ _) as [[tcounts ts] |] eqn:Hteacher;
    [| discriminate].
  cbn [mbind result_bind] in Hret.
  destruct (distribution NUM_LABELS tcounts ts) as [tl |] eqn:Htl;
    [| discriminate].
  cbn [mbind result_bind] in Hret.
  destruct (count_labels _ _ _) as [scounts |] eqn:Hstudent; [| discriminate].
  cbn [mbind result_bind] in Hret.
  destruct (distribution NUM_LABELS scounts ts) as [sl |] eqn:Hsl;
    [| discriminate].
  cbn [mbind result_bind] in Hret. injection Hret as <- <-.
  apply (count_predictions_counted NUM_LABELS) in Hteacher as [_ Hcount];
    [| apply zero_counts_keys].
  rewrite zero_counts_counted in Hcount.
  unfold distribution in Htl, Hsl.
  pose proof (distribution_sum _ _ _ _ Htl) as Htsum.
  pose proof (distribution_sum _ _ _ _ Hsl) as Hssum.
  apply distribution_lines in Htl as [Htlines Hts].
  apply distribution_lines in Hsl as [Hslines _].
  specialize (Hts ltac:(discriminate)).
  pose proof (lines_counted _ _ _ Htlines) as Htc.
  pose proof (lines_counted _ _ _ Hslines) as Hsc.
  fold (counted NUM_LABELS tcounts) in Htc, Htsum.
  assert (Htotal : total tl = ts) by (unfold total; lia).
  split; [apply (lines_emotions tcounts); exact Htlines |].
  split; [apply (lines_emotions scounts); exact Hslines |].
  rewrite Htotal. split; [exact Hts |]. split.
  - rewrite Htsum. replace (counted NUM_LABELS tcounts) with ts by lia.
    field. apply not_0_INR. exact Hts.
  - rewrite Hssum, Hsc. reflexivity.
Qed.

End Statistics.

(** ** The dataset adapter *)

Section Dataset.

Import CustomDataset.

Lemma getitem_in_range {A} (l : list A) (idx : nat) :
  getitem l (Z.of_nat idx)
  = match l !! idx with
    | Some x => Ok x
    | None => Raise IndexError
    end.
Proof.
  unfold getitem.
  assert (Hge : (Z.of_nat idx <? 0)%Z = false) by (apply Z.ltb_ge; lia).
  rewrite Hge. cbv zeta. rewrite Hge, Nat2Z.id. reflexivity.
Qed.

Lemma comprehension_lookup (items : list (string * list (list Z)))
    (idx : nat) :
  forall item item',
    comprehension items (Z.of_nat idx) item = Ok item' ->
    Forall (fun kv => is_Some (kv.2 !! idx)) items
    /\ (forall key,
          key ∉ map fst items -> item' !! key = item !! key)
    /\ (NoDup (map fst items) ->
        forall key val, (key, val) ∈ items ->
          exists x, val !! idx = Some x /\ item' !! key = Some (Tokens x)).
Proof.
  induction items as [| [k v] rest IH]; intros item item' Hc; simpl in Hc.
  - injection Hc as <-. split; [constructor |]. split; [reflexivity |].
    intros _ key val Hin. inversion Hin.
  - rewrite getitem_in_range in Hc.
    destruct (v !! idx) as [x |] eqn:Hx; [| discriminate].
    cbn [mbind result_bind] in Hc.
    apply IH in Hc as (Hall & Hother & Hin).
    split; [constructor; [simpl; eauto | exact Hall] |]. split.
    + intros key Hkey. simpl in Hkey.
      rewrite Hother by (intros ?; apply Hkey; right; assumption).
      apply lookup_insert_ne. intros ->. apply Hkey. left.
    + intros Hnd key val Hkv. simpl in Hnd.
      apply NoDup_cons in Hnd as [Hk Hnd].
      apply elem_of_cons in Hkv as [[= -> ->] | Hkv].
      * exists x. split; [exact Hx |].
        rewrite Hother by exact Hk. apply lookup_insert_eq.
      * apply (Hin Hnd). exact Hkv.
Qed.

Lemma comprehension_raises (items : list (string * list (list Z)))
    (idx : nat) :
  forall item,
    Exists (fun kv => kv.2 !! idx = None) items ->
    comprehension items (Z.of_nat idx) item = Raise IndexError.
Proof.
  induction items as [| [k v] rest IH]; intros item Hex; simpl.
  - inversion Hex.
  - rewrite getitem_in_range.
    destruct (v !! idx) as [x |] eqn:Hx; [| reflexivity].
    cbn [mbind result_bind]. apply IH.
    inversion Hex as [? ? Hhd | ? ? Htl]; subst; [| exact Htl].
    simpl in Hhd. congruence.
Qed.

(** X20. For an index below [len(dataset)], which counts the labels,
    [__getitem__] returns exactly when every list of the encodings has an
    entry at the index, and raises [IndexError] otherwise. The item it
    returns holds the label of the index under the key [labels], also when
    the encodings have a key of that name, the entry at the index of its
    list under every other key of the encodings, and nothing else. *)
Theorem dataset_getitem (self : t) (idx : nat)
    (Hidx : (idx < __len__ self)%nat)
    (Hkeys : NoDup (map fst (encodings self))) :
  (Exists (fun kv => kv.2 !! idx = None) (encodings self) ->
     __getitem__ self (Z.of_nat idx) = Raise IndexError)
  /\ (Forall (fun kv => is_Some (kv.2 !! idx)) (encodings self) ->
      exists item y,
        __getitem__ self (Z.of_nat idx) = Ok item
        /\ labels self !! idx = Some y
        /\ item !! "labels"%string = Some (Label y)
        /\ (forall key val,
              (key, val) ∈ encodings self -> key <> "labels"%string ->
              exists x, val !! idx = Some x
                        /\ item !! key = Some (Tokens x))
        /\ (forall key,
              key ∉ map fst (encodings self) -> key <> "labels"%string ->
              item !! key = None)).
Proof.
  unfold __getitem__, __len__ in *. split.
  - intros Hex. rewrite comprehension_raises by exact Hex. reflexivity.
  - intros Hall.
    destruct (comprehension (encodings self) (Z.of_nat idx) ∅)
      as [item |] eqn:Hc.
    + destruct (comprehension_lookup _ _ _ _ Hc) as (_ & Hother & Hin).
      cbn [mbind result_bind]. rewrite getitem_in_range.
      destruct (lookup_lt_is_Some_2 (labels self) idx Hidx) as [y Hy].
      rewrite Hy. cbn [mbind result_bind].
      exists (<["labels"%string := Label y]> item), y.
      split; [reflexivity |]. split; [reflexivity |].
      split; [apply lookup_insert_eq |]. split.
      * intros key val Hkv Hne.
        destruct (Hin Hkeys key val Hkv) as (x & Hx & Hitem).
        exists x. split; [exact Hx |].
        rewrite lookup_insert_ne by congruence. exact Hitem.
      * intros key Hkey Hne.
        rewrite lookup_insert_ne by congruence.
        rewrite Hother by exact Hkey. apply lookup_empty.
    + exfalso. clear Hidx Hkeys. revert Hc. generalize (∅ : gmap string value).
      induction Hall as [| [k v] rest [x Hx] _ IH]; intros item Hc;
        simpl in Hc; [discriminate |].
      rewrite getitem_in_range in Hc. simpl in Hx. rewrite Hx in Hc.
      cbn [mbind result_bind] in Hc. eapply IH. exact Hc.
Qed.

(** X21. A negative index counts from the end of each list by that list's
    own length: on a dataset whose lists all have the length of the labels,
    [dataset[-k]] is [dataset[len - k]] for [k] from 1 to [len]. *)
Theorem dataset_getitem_negative (self : t) (k : nat)
    (Hk : (1 <= k <= __len__ self)%nat)
    (Hlengths : Forall (fun kv => length kv.2 = __len__ self)
                       (encodings self)) :
  __getitem__ self (- Z.of_nat k)
  = __getitem__ self (Z.of_nat (__len__ self - k)).
Proof.
  unfold __getitem__, __len__ in *.
  assert (Hget : forall {A} (l : list A),
            length l = length (labels self) ->
            getitem l (- Z.of_nat k)
            = getitem l (Z.of_nat (length (labels self) - k))).
  { intros A l Hl. unfold getitem.
    destruct (Z.ltb_spec (- Z.of_nat k) 0) as [_ | Hpos]; [| lia].
    destruct (Z.ltb_spec (Z.of_nat (length (labels self) - k)) 0)
      as [Hneg | _]; [lia |].
    rewrite Hl.
    replace (Z.of_nat (length (labels self)) + - Z.of_nat k)%Z
      with (Z.of_nat (length (labels self) - k)) by lia.
    reflexivity. }
  rewrite (Hget _ (labels self) eq_refl).
  assert (Hcomp : forall item,
            comprehension (encodings self) (- Z.of_nat k) item
            = comprehension (encodings self)
                (Z.of_nat (length (labels self) - k)) item).
  { induction Hlengths as [| [key v] rest Hv _ IH]; intros item; simpl;
      [reflexivity |].
    simpl in Hv. rewrite (Hget _ v Hv).
    destruct (getitem v _); [| reflexivity].
    cbn [mbind result_bind]. apply IH. }
  rewrite Hcomp. reflexivity.
Qed.

End Dataset.

(** ** Device selection *)

Section Device.

(** X22. [get_device] selects the GPU exactly when CUDA is available, and
    the CPU otherwise: whether the MPS backend is available makes no
    difference to the device returned. *)
Theorem get_device_ignores_mps (cuda_is_available mps_is_available : bool) :
  get_device cuda_is_available mps_is_available
  = get_device cuda_is_available (negb mps_is_available)
  /\ (get_device cuda_is_available mps_is_available = "cuda"%string
      <-> cuda_is_available = true)
  /\ (get_device cuda_is_available mps_is_available = "cpu"%string
      <-> cuda_is_available = false).
Proof.
  destruct cuda_is_available, mps_is_available; simpl;
    repeat split; intros; try reflexivity; discriminate.
Qed.

End Device.

(** ** Predictions, statistics and items on concrete inputs *)

Section ReportWitnesses.

Import MambaForSequenceClassification Torch Report CustomDataset.
Local Open Scope R_scope.

Lemma toy_predict_text :
  exists r,
    predict_text "I feel happy today!" Toy.student_model
                 (fun _ => ([[5; 7]%Z], [[1; 0]%Z])) = Ok r.
Proof.
  eexists.
  lazy -[Tensor.argmax List.filter Rlt_dec Rplus Rmult Rinv Ropp Rminus
         Rdiv Rmax exp ln INR IZR].
  reflexivity.
Qed.

Lemma predict_text_returns_witness :
  exists prediction probs,
    predict_text "I feel happy today!" Toy.student_model
                 (fun _ => ([[5; 7]%Z], [[1; 0]%Z])) = Ok (prediction, probs)
    /\ exists row, probs = Tensor.softmax row
                   /\ prediction = Tensor.argmax row.
Proof.
  destruct toy_predict_text as ([prediction probs] & Hret).
  exists prediction, probs. split; [exact Hret |].
  destruct (predict_text_returns _ _ _ prediction probs Hret)
    as (out & row & _ & _ & Hprobs & Hpred & _).
  exists row. split; assumption.
Defined.

Lemma argmax_zeros : Tensor.argmax [0; 0] = 0%nat.
Proof.
  unfold Tensor.argmax, Tensor.argmax_from.
  destruct (Rlt_dec 0 0); [lra | reflexivity].
Qed.

Lemma argmax_one_two : Tensor.argmax [1; 2] = 1%nat.
Proof.
  unfold Tensor.argmax, Tensor.argmax_from.
  destruct (Rlt_dec 1 2); [reflexivity | lra].
Qed.

Lemma toy_statistics :
  exists r,
    statistics Toy.teacher_model Toy.student_model [Toy.batch] = Ok r.
Proof.
  eexists.
  lazy -[Tensor.argmax List.filter Rlt_dec Rplus Rmult Rinv Ropp Rminus
         Rdiv Rmax exp ln INR IZR].
  rewrite ?argmax_zeros, ?argmax_one_two.
  lazy -[Rlt_dec Rplus Rmult Rinv Ropp Rminus Rdiv Rmax exp ln INR IZR].
  reflexivity.
Qed.

Lemma main_statistics_witness :
  exists teacher_lines student_lines,
    statistics Toy.teacher_model Toy.student_model [Toy.batch]
    = Ok (teacher_lines, student_lines)
    /\ Tensor.tsum (map snd teacher_lines) = 100.
Proof.
  destruct toy_statistics as ([teacher_lines student_lines] & Hret).
  exists teacher_lines, student_lines. split; [exact Hret |].
  apply (main_statistics Toy.teacher_model Toy.student_model
           [Toy.batch] teacher_lines student_lines Hret).
Defined.

Lemma dataset_getitem_witness :
  exists item,
    __getitem__ (CustomDataset.__init__
                   [("input_ids"%string, [[5; 7]; [3; 0]]%Z);
                    ("attention_mask"%string, [[1; 1]; [1; 0]]%Z)]
                   [4%nat; 2%nat]) 1 = Ok item
    /\ item !! "labels"%string = Some (Label 2).
Proof.
  destruct (dataset_getitem
              (CustomDataset.__init__
                 [("input_ids"%string, [[5; 7]; [3; 0]]%Z);
                  ("attention_mask"%string, [[1; 1]; [1; 0]]%Z)]
                 [4%nat; 2%nat]) 1) as [_ Hreturns].
  - unfold __len__, CustomDataset.__init__. simpl. lia.
  - apply (bool_decide_unpack _). vm_compute. exact I.
  - destruct Hreturns as (item & y & Hitem & Hy & Hlabel & _).
    + repeat constructor; simpl; eauto.
    + exists item. split; [exact Hitem |].
      simpl in Hy. injection Hy as <-. exact Hlabel.
Defined.

Lemma dataset_getitem_negative_witness :
  __getitem__ (CustomDataset.__init__
                 [("input_ids"%string, [[5; 7]; [3; 0]]%Z);
                  ("attention_mask"%string, [[1; 1]; [1; 0]]%Z)]
                 [4%nat; 2%nat]) (-1)
  = __getitem__ (CustomDataset.__init__
                   [("input_ids"%string, [[5; 7]; [3; 0]]%Z);
                    ("attention_mask"%string, [[1; 1]; [1; 0]]%Z)]
                   [4%nat; 2%nat]) 1.
Proof.
  apply (dataset_getitem_negative
           (CustomDataset.__init__
              [("input_ids"%string, [[5; 7]; [3; 0]]%Z);
               ("attention_mask"%string, [[1; 1]; [1; 0]]%Z)]
              [4%nat; 2%nat]) 1).
  - unfold __len__, CustomDataset.__init__. simpl. lia.
  - repeat constructor.
Defined.

End ReportWitnesses.

(** ** What the distillation loop saves *)

Section DistillationCheckpoint.

Import Torch OptimizedDistillationTrainer CheckpointReference.
Context `{Backend}.
Local Open Scope R_scope.



End DistillationCheckpoint.
